(** * Trenny-Fun-Bot: economy ledger and game rule engines

    A shallow embedding of the parts of the bot that carry its rules:
    the JSON ledger ([cogs/utils/db.py]), the economy cog
    ([cogs/economy/economy.py]), the cogs as [main.py] registers them,
    the rule engines of Blackjack, Tic-Tac-Toe, Snake and Word-Scramble
    and the timeout branches of the other games ([cogs/games/*.py]).

    Python [int] is [Z]; a [dict] is a [gmap]; a Python list is a [list]
    whose head is index 0; a product of an [int] with a [float] is
    rounded as binary64 rounds it; raised exceptions are values of [exn]
    carried by the [exc] monad; the random module is an oracle passed in by
    the caller, so every statement holds for every outcome of the
    randomness. *)

From Stdlib Require Import ZArith Lia Ascii.
From stdpp Require Import base option list gmap strings fin_maps.

#[local] Open Scope Z_scope.

(** ** Exceptions *)

Inductive exn : Type :=
| KeyError (key : string)
| TypeError
| IndexError
| ZeroDivisionError
| OverflowError
| AttributeError (attr : string).

Inductive exc (A : Type) : Type :=
| Ok (a : A)
| Raise (e : exn).
Arguments Ok {A} a.
Arguments Raise {A} e.

#[global] Instance exc_ret : MRet exc := fun A a => Ok a.

#[global] Instance exc_bind : MBind exc := fun A B k m =>
  match m with
  | Ok a => k a
  | Raise e => Raise e
  end.

(** ** JSON documents *)

(** The values the economy documents hold: integers ("balance",
    "last_daily", "daily_streak") and the "inventory" list. *)
Inductive json : Type :=
| VInt (n : Z)
| VList (items : list string).

(** Integer arithmetic on a stored value; a list operand is a TypeError. *)
Definition as_int (v : json) : exc Z :=
  match v with
  | VInt n => Ok n
  | VList _ => Raise TypeError
  end.

(** [data.get(key, default)] *)
Definition dict_get (data : gmap string json) (key : string) (dflt : json) : json :=
  default dflt (data !! key).

(** [data[key]] *)
Definition dict_item (data : gmap string json) (key : string) : exc json :=
  match data !! key with
  | Some v => Ok v
  | None => Raise (KeyError key)
  end.

(** [not data] for a dict: true exactly on the empty dict. *)
Definition dict_not (data : gmap string json) : bool :=
  bool_decide (data = ∅).

(** ** Products of an int with a float

    [n * c] on an [int] [n] and a float [c] converts [n] to a double,
    rounding to nearest with ties to even on 53 significant bits and
    raising OverflowError beyond the range of a double; the product is
    rounded the same way, to infinity beyond the range, and [int()]
    truncates it toward zero and raises OverflowError on infinity.  The
    floats the bot multiplies by (1.0, 1.5, 2.0, 2.5 and 3.0) are
    halves of integers, so a product is kept as an integer number of
    halves. *)

(** [a] rounded to 53 significant bits, ties to even. *)
Definition round53 (a : Z) : Z :=
  let m := Z.abs a in
  let k := Z.log2 m + 1 in
  if k <=? 53 then a
  else
    let s := k - 53 in
    let q := Z.shiftr m s in
    let r := m - Z.shiftl q s in
    let half := Z.shiftl 1 (s - 1) in
    let q := if (half <? r) || ((r =? half) && Z.odd q) then q + 1 else q in
    Z.sgn a * Z.shiftl q s.

(** [float(n)] *)
Definition float_of_int (n : Z) : exc Z :=
  let f := round53 n in
  if 2 ^ 1024 <=? Z.abs f then Raise OverflowError else Ok f.

(** [int(n * c)] for the float [c] that is [twice_c] halves. *)
Definition int_times_float (n twice_c : Z) : exc Z :=
  f ← float_of_int n;
  let halves := round53 (twice_c * f) in
  if 2 ^ 1025 <=? Z.abs halves then Raise OverflowError else Ok (Z.quot halves 2).

(** ** The random module

    The generator state is threaded through every call.  [rnd_shuffle]
    is [random.shuffle], [rnd_randint a b] is [random.randint(a, b)] and
    [random.choice(seq)] is [seq[rnd_randbelow (len seq)]]. *)
Class Random : Type := {
  rng : Type;
  rnd_shuffle : forall {A : Type}, list A -> rng -> list A * rng;
  rnd_randint : Z -> Z -> rng -> Z * rng;
  rnd_randbelow : nat -> rng -> nat * rng
}.

(** What the library promises about the generator, whatever its state. *)
Class RandomLaws (R : Random) : Prop := {
  rnd_shuffle_perm : forall (A : Type) (l : list A) (g : rng), (rnd_shuffle l g).1 ≡ₚ l;
  rnd_randint_range : forall (a b : Z) (g : rng),
    a <= b -> a <= (rnd_randint a b g).1 <= b;
  rnd_randbelow_lt : forall (n : nat) (g : rng),
    (0 < n)%nat -> ((rnd_randbelow n g).1 < n)%nat
}.

(** [seq.pop()]: removes and returns the last element. *)
Definition list_pop {A : Type} (l : list A) : exc (A * list A) :=
  match reverse l with
  | [] => Raise IndexError
  | x :: r => Ok (x, reverse r)
  end.

(** ** cogs/utils/db.py: DatabaseManager (JSON backend)

    The collection "economy" maps the key [f"{guild_id}_{user_id}"] to a
    document; the key is kept as the pair [(guild_id, user_id)]. *)
Module DatabaseManager.

Definition get_economy_data (db : gmap (Z * Z) (gmap string json))
    (user_id guild_id : Z) : gmap string json :=
  default ∅ (db !! (guild_id, user_id)).

Definition update_economy_data (db : gmap (Z * Z) (gmap string json))
    (user_id guild_id : Z) (data : gmap string json)
    : gmap (Z * Z) (gmap string json) :=
  <[(guild_id, user_id) := data]> db.

(** [{"balance": 0, "inventory": [], "last_daily": 0}] *)
Definition fresh : gmap string json :=
  <["balance" := VInt 0]> (<["inventory" := VList []]> (<["last_daily" := VInt 0]> ∅)).

Definition add_currency (db : gmap (Z * Z) (gmap string json))
    (user_id guild_id amount : Z)
    : exc (Z * gmap (Z * Z) (gmap string json)) :=
  let data := get_economy_data db user_id guild_id in
  let data := if dict_not data then fresh else data in
  v ← dict_item data "balance";
  b ← as_int v;
  let data := <["balance" := VInt (b + amount)]> data in
  let db := update_economy_data db user_id guild_id data in
  Ok (b + amount, db).

Definition remove_currency (db : gmap (Z * Z) (gmap string json))
    (user_id guild_id amount : Z)
    : exc (Z * gmap (Z * Z) (gmap string json)) :=
  let data := get_economy_data db user_id guild_id in
  let data := if dict_not data then fresh else data in
  v ← dict_item data "balance";
  b ← as_int v;
  let data := <["balance" := VInt (Z.max 0 (b - amount))]> data in
  let db := update_economy_data db user_id guild_id data in
  Ok (Z.max 0 (b - amount), db).

End DatabaseManager.

(** ** cogs/economy/economy.py: Economy *)
Module Economy.

Definition daily_min : Z := 100.
Definition daily_max : Z := 200.
Definition daily_streak_bonus : Z := 50.
Definition daily_cooldown : Z := 86400.

(** [{"balance": 0, "inventory": [], "last_daily": 0, "daily_streak": 0}] *)
Definition fresh : gmap string json :=
  <["balance" := VInt 0]> (<["inventory" := VList []]>
    (<["last_daily" := VInt 0]> (<["daily_streak" := VInt 0]> ∅))).

(** The body of the [try] block of [add_balance]. *)
Definition add_balance_body (db : gmap (Z * Z) (gmap string json))
    (user_id guild_id amount : Z) : exc (gmap (Z * Z) (gmap string json)) :=
  let data := DatabaseManager.get_economy_data db user_id guild_id in
  let data := if dict_not data then fresh else data in
  b ← as_int (dict_get data "balance" (VInt 0));
  let data := <["balance" := VInt (b + amount)]> data in
  Ok (DatabaseManager.update_economy_data db user_id guild_id data).

(** [add_balance]: [db_manager] is [None] when the "Utils" cog has no
    [db_manager]; the bare [except:] turns every exception into [False]. *)
Definition add_balance (db_manager : option (gmap (Z * Z) (gmap string json)))
    (user_id guild_id amount : Z)
    : bool * option (gmap (Z * Z) (gmap string json)) :=
  match db_manager with
  | None => (false, None)
  | Some db =>
      match add_balance_body db user_id guild_id amount with
      | Ok db' => (true, Some db')
      | Raise _ => (false, Some db)
      end
  end.

(** The body of the [try] block of [remove_balance]. *)
Definition remove_balance_body (db : gmap (Z * Z) (gmap string json))
    (user_id guild_id amount : Z) : exc (gmap (Z * Z) (gmap string json)) :=
  let data := DatabaseManager.get_economy_data db user_id guild_id in
  let data := if dict_not data then fresh else data in
  b ← as_int (dict_get data "balance" (VInt 0));
  let data := <["balance" := VInt (Z.max 0 (b - amount))]> data in
  Ok (DatabaseManager.update_economy_data db user_id guild_id data).

Definition remove_balance (db_manager : option (gmap (Z * Z) (gmap string json)))
    (user_id guild_id amount : Z)
    : bool * option (gmap (Z * Z) (gmap string json)) :=
  match db_manager with
  | None => (false, None)
  | Some db =>
      match remove_balance_body db user_id guild_id amount with
      | Ok db' => (true, Some db')
      | Raise _ => (false, Some db)
      end
  end.

(** What the [daily] command tells the user; [streak_shown] is the
    "Current Streak" field of the refusal, added for a streak above 0. *)
Inductive daily_notice : Type :=
| DatabaseError
| NotAvailable (time_left : Z) (streak_shown : option Z)
| Claimed (base_reward streak_bonus total_reward streak : Z)
| ErrorNotice (e : exn).

Section Daily.
Context {R : Random}.

(** The body of the [try] block of [daily]; [now] is [int(time.time())].
    The generator state is handed back with a raise as well: a raise
    after the draw leaves the generator advanced. *)
Definition daily_body (db : gmap (Z * Z) (gmap string json))
    (user_id guild_id now : Z) (g : rng)
    : exc (daily_notice * gmap (Z * Z) (gmap string json)) * rng :=
  let data := DatabaseManager.get_economy_data db user_id guild_id in
  let data := if dict_not data then fresh else data in
  match as_int (dict_get data "last_daily" (VInt 0)) with
  | Raise e => (Raise e, g)
  | Ok last_daily =>
      let time_since_last := now - last_daily in
      if time_since_last <? daily_cooldown then
        let time_left := daily_cooldown - time_since_last in
        (match data !! "daily_streak" with
         | Some streak =>
             s ← as_int streak;
             Ok (NotAvailable time_left (if 0 <? s then Some s else None), db)
         | None => Ok (NotAvailable time_left None, db)
         end, g)
      else
        let streak := dict_get data "daily_streak" (VInt 0) in
        match (if time_since_last <? daily_cooldown * 2
               then s ← as_int streak; Ok (s + 1, (s + 1) * daily_streak_bonus)
               else Ok (1, 0)) with
        | Raise e => (Raise e, g)
        | Ok (streak, streak_bonus) =>
            let '(base_reward, g) := rnd_randint daily_min daily_max g in
            let total_reward := base_reward + streak_bonus in
            (balance ← as_int (dict_get data "balance" (VInt 0));
             let data := <["balance" := VInt (balance + total_reward)]> data in
             let data := <["last_daily" := VInt now]> data in
             let data := <["daily_streak" := VInt streak]> data in
             Ok (Claimed base_reward streak_bonus total_reward streak,
                 DatabaseManager.update_economy_data db user_id guild_id data), g)
        end
  end.

Definition daily (db_manager : option (gmap (Z * Z) (gmap string json)))
    (user_id guild_id now : Z) (g : rng)
    : daily_notice * option (gmap (Z * Z) (gmap string json)) * rng :=
  match db_manager with
  | None => (DatabaseError, None, g)
  | Some db =>
      match daily_body db user_id guild_id now g with
      | (Ok (notice, db'), g') => (notice, Some db', g')
      | (Raise e, g') => (ErrorNotice e, Some db, g')
      end
  end.

End Daily.

(** What the [pay] command tells the sender. *)
Inductive pay_notice : Type :=
| PayInvalidAmount
| PayInvalidRecipient
| PayDatabaseError
| PayInsufficientFunds (sender_balance : Z)
| PaymentSent (sender_balance : Z)
| PayError (e : exn).

(** [Economy.pay]; [member_bot] is [member.bot].  The sender's document
    is the one the ledger holds (a missing one is stored before it is
    used), so [sender_data["balance"] -= amount] shows in the ledger at
    once: the ledger handed back with a [PayError] is the one at the
    raise. *)
Definition pay (db_manager : option (gmap (Z * Z) (gmap string json)))
    (author guild member : Z) (member_bot : bool) (amount : Z)
    : pay_notice * option (gmap (Z * Z) (gmap string json)) :=
  if amount <=? 0 then (PayInvalidAmount, db_manager)
  else if bool_decide (member = author) then (PayInvalidRecipient, db_manager)
  else if member_bot then (PayInvalidRecipient, db_manager)
  else
    match db_manager with
    | None => (PayDatabaseError, None)
    | Some db =>
        let sender_data := DatabaseManager.get_economy_data db author guild in
        let '(sender_data, db) :=
          if dict_not sender_data
          then (fresh, DatabaseManager.update_economy_data db author guild fresh)
          else (sender_data, db) in
        match as_int (dict_get sender_data "balance" (VInt 0)) with
        | Raise e => (PayError e, Some db)
        | Ok sender_balance =>
            if sender_balance <? amount then (PayInsufficientFunds sender_balance, Some db)
            else
              let recipient_data := DatabaseManager.get_economy_data db member guild in
              let recipient_data := if dict_not recipient_data then fresh else recipient_data in
              match b ← dict_item sender_data "balance"; as_int b with
              | Raise e => (PayError e, Some db)
              | Ok b =>
                  let sender_data := <["balance" := VInt (b - amount)]> sender_data in
                  let db := DatabaseManager.update_economy_data db author guild sender_data in
                  match as_int (dict_get recipient_data "balance" (VInt 0)) with
                  | Raise e => (PayError e, Some db)
                  | Ok r =>
                      let recipient_data := <["balance" := VInt (r + amount)]> recipient_data in
                      let db := DatabaseManager.update_economy_data db author guild sender_data in
                      let db := DatabaseManager.update_economy_data db member guild recipient_data in
                      (PaymentSent (b - amount), Some db)
                  end
              end
        end
    end.

(** The argument of [gamble] as the command reads it: "all", "half"
    (both after [lower()]), a string [int()] accepts, or any other. *)
Inductive amount_arg : Type :=
| All
| Half
| Number (n : Z)
| NotANumber.

(** [int(bet_amount * multiplier)] for the multiplier the roll selects:
    the integers 0, 1, 2, 3 and 5, and the float 1.5 for a roll of
    51..70. *)
Definition payout (bet_amount roll : Z) : exc Z :=
  if roll <=? 30 then Ok (bet_amount * 0)
  else if roll <=? 50 then Ok (bet_amount * 1)
  else if roll <=? 70 then int_times_float bet_amount 3
  else if roll <=? 90 then Ok (bet_amount * 2)
  else if roll <=? 99 then Ok (bet_amount * 3)
  else Ok (bet_amount * 5).

Inductive gamble_notice : Type :=
| GambleDatabaseError
| GambleInvalidAmount
| GambleInvalidBet
| GambleInsufficientFunds (balance : Z)
| GamblingResults (roll bet_amount winnings balance : Z)
| GambleError (e : exn).

(** What the [work] command tells the user; [message] is the index of
    the line of [self.work_messages] it shows. *)
Inductive work_notice : Type :=
| WorkDatabaseError
| WorkCompleted (message : nat) (earnings balance : Z)
| WorkError (e : exn).

Definition work_min : Z := 10.
Definition work_max : Z := 50.

(** [len(self.work_messages)] *)
Definition work_messages : nat := 10.

Section Games.
Context {R : Random}.

(** [Economy.work]: the earnings are drawn first, the message, with
    [random.choice], once the ledger is written. *)
Definition work (db_manager : option (gmap (Z * Z) (gmap string json)))
    (author guild : Z) (g : rng)
    : work_notice * option (gmap (Z * Z) (gmap string json)) * rng :=
  match db_manager with
  | None => (WorkDatabaseError, None, g)
  | Some db =>
      let '(earnings, g) := rnd_randint work_min work_max g in
      let data := DatabaseManager.get_economy_data db author guild in
      let data := if dict_not data then fresh else data in
      match as_int (dict_get data "balance" (VInt 0)) with
      | Raise e => (WorkError e, Some db, g)
      | Ok b =>
          let data := <["balance" := VInt (b + earnings)]> data in
          let db := DatabaseManager.update_economy_data db author guild data in
          let '(message, g) := rnd_randbelow work_messages g in
          (WorkCompleted message earnings (b + earnings), Some db, g)
      end
  end.

(** [Economy.gamble] *)
Definition gamble (db_manager : option (gmap (Z * Z) (gmap string json)))
    (author guild : Z) (amount : amount_arg) (g : rng)
    : gamble_notice * option (gmap (Z * Z) (gmap string json)) * rng :=
  match db_manager with
  | None => (GambleDatabaseError, None, g)
  | Some db =>
      let data := DatabaseManager.get_economy_data db author guild in
      let '(data, db) :=
        if dict_not data
        then (fresh, DatabaseManager.update_economy_data db author guild fresh)
        else (data, db) in
      let balance := dict_get data "balance" (VInt 0) in
      let bet_amount : option (exc Z) :=
        match amount with
        | All => Some (as_int balance)
        | Half => Some (b ← as_int balance; Ok (b `div` 2))
        | Number n => Some (Ok n)
        | NotANumber => None
        end in
      match bet_amount with
      | None => (GambleInvalidAmount, Some db, g)
      | Some (Raise e) => (GambleError e, Some db, g)
      | Some (Ok bet_amount) =>
          if bet_amount <=? 0 then (GambleInvalidBet, Some db, g)
          else
            match as_int balance with
            | Raise e => (GambleError e, Some db, g)
            | Ok balance =>
                if balance <? bet_amount then (GambleInsufficientFunds balance, Some db, g)
                else
                  let '(roll, g) := rnd_randint 1 100 g in
                  match payout bet_amount roll with
                  | Raise e => (GambleError e, Some db, g)
                  | Ok paid =>
                      let winnings := paid - bet_amount in
                      let data := <["balance" := VInt (balance + winnings)]> data in
                      (GamblingResults roll bet_amount winnings (balance + winnings),
                       Some (DatabaseManager.update_economy_data db author guild data), g)
                  end
            end
      end
  end.

End Games.

End Economy.

(** ** Cogs as the other cogs see them

    A game reaches the economy through [self.bot.get_cog("Economy")] and
    calls methods on whatever object comes back; a method the object's
    class does not define raises AttributeError at the call. *)
Record cog : Type := {
  cog_get_balance :
    option (option (gmap (Z * Z) (gmap string json)) -> Z -> Z -> exc Z);
  cog_add_balance :
    option (option (gmap (Z * Z) (gmap string json)) -> Z -> Z -> Z ->
            bool * option (gmap (Z * Z) (gmap string json)));
  cog_remove_balance :
    option (option (gmap (Z * Z) (gmap string json)) -> Z -> Z -> Z ->
            bool * option (gmap (Z * Z) (gmap string json)))
}.

(** The [Economy] class of [cogs/economy/economy.py]: it defines
    [add_balance] and [remove_balance] and no [get_balance]. *)
Definition Economy_cog : cog := {|
  cog_get_balance := None;
  cog_add_balance := Some Economy.add_balance;
  cog_remove_balance := Some Economy.remove_balance
|}.

Definition getattr {A : Type} (attr : option A) (name : string) : exc A :=
  match attr with
  | Some f => Ok f
  | None => Raise (AttributeError name)
  end.

(** The bot as the cogs share it: the cog registered as "Economy", if
    any, and the [db_manager] of the cog registered as "Utils", if any. *)
Record bot : Type := {
  economy_cog : option cog;
  db_manager : option (gmap (Z * Z) (gmap string json))
}.

(** ** main.py and the [setup] functions: the cogs that are registered

    [load_extensions] loads every module of [cogs/commands],
    [cogs/games], [cogs/economy] and [cogs/utils], and the [setup] of
    each registers one cog with [bot.add_cog], under the name of its
    class.  A registered cog is kept as what the others ask of it: its
    [db_manager] attribute, if its class sets one.  Only [DatabaseCog]
    does; [db] is the ledger its manager holds. *)
Definition registered_cogs (db : gmap (Z * Z) (gmap string json))
    : gmap string (option (gmap (Z * Z) (gmap string json))) :=
  list_to_map
    [ ("Fun", None); ("HelpCommand", None);
      ("Blackjack", None); ("Hangman", None); ("Memory", None);
      ("NumberGuess", None); ("RockPaperScissors", None); ("Snake", None);
      ("TicTacToe", None); ("TriviaGame", None); ("WordScramble", None);
      ("Economy", None); ("Inventory", None); ("Shop", None);
      ("DatabaseCog", Some db) ].

(** [self.bot.get_cog("Utils").db_manager
     if hasattr(self.bot.get_cog("Utils"), "db_manager") else None]:
    [get_cog] gives [None] for a name that is not registered, and [None]
    has no [db_manager]. *)
Definition utils_db_manager
    (cogs : gmap string (option (gmap (Z * Z) (gmap string json))))
    : option (gmap (Z * Z) (gmap string json)) :=
  match cogs !! "Utils" with
  | Some (Some db_manager) => Some db_manager
  | _ => None
  end.

(** The bot as the repository wires it: [get_cog("Economy")] is the
    [Economy] cog, and the database manager is the one the lookup of
    "Utils" finds among the registered cogs.  [db] is the ledger of
    [DatabaseCog]. *)
Definition repo_bot (db : gmap (Z * Z) (gmap string json)) : bot :=
  {| economy_cog := Some Economy_cog;
     db_manager := utils_db_manager (registered_cogs db) |}.

(** A bot in which the lookup of "Utils" does find the database
    manager: the wiring the economy code is written for. *)
Definition bot_with_manager (db : gmap (Z * Z) (gmap string json)) : bot :=
  {| economy_cog := Some Economy_cog; db_manager := Some db |}.

(** ** cogs/games/blackjack.py *)
Module Blackjack.

Inductive suit_t : Type := hearts | diamonds | clubs | spades.

(** [values]: 1 = Ace, 11 = Jack, 12 = Queen, 13 = King. *)
Record Card : Type := { suit : suit_t; value : Z }.

#[global] Instance suit_eq_dec : EqDecision suit_t.
Proof. solve_decision. Defined.

#[global] Instance Card_eq_dec : EqDecision Card.
Proof. solve_decision. Defined.

(** [Card.blackjack_value] *)
Definition blackjack_value (c : Card) : Z :=
  if value c =? 1 then 11
  else if 10 <=? value c then 10
  else value c.

(** [Deck.build]: the list comprehension over suits, then values. *)
Definition build : list Card :=
  s ← [hearts; diamonds; clubs; spades];
  v ← seqZ 1 13;
  [ {| suit := s; value := v |} ].

(** [sum(...)] over integers. *)
Definition sum (l : list Z) : Z := foldr Z.add 0 l.

(** The [while value > 21 and aces > 0] loop of [get_hand_value]; it
    runs at most [aces] times. *)
Fixpoint adjust_aces (aces : nat) (v : Z) : Z :=
  match aces with
  | O => v
  | S aces' => if 21 <? v then adjust_aces aces' (v - 10) else v
  end.

(** [BlackjackGame.get_hand_value] *)
Definition get_hand_value (hand : list Card) : Z :=
  let v := sum (blackjack_value <$> hand) in
  let aces := length (filter (fun c => value c = 1) hand) in
  adjust_aces aces v.

(** [BlackjackGame.is_blackjack] *)
Definition is_blackjack (hand : list Card) : bool :=
  match hand with
  | [c0; c1] =>
      ((value c0 =? 1) && (10 <=? blackjack_value c1))
      || ((value c1 =? 1) && (10 <=? blackjack_value c0))
  | _ => false
  end.

(** The attributes of a [BlackjackGame]; [deck] is [self.deck.cards],
    [player] is the author's id. *)
Record BlackjackGame : Type := {
  player : Z;
  bet : Z;
  deck : list Card;
  player_hand : list Card;
  dealer_hand : list Card;
  player_stood : bool;
  game_over : bool;
  result : option string
}.

Definition settle (game : BlackjackGame) (r : string) : BlackjackGame :=
  {| player := player game; bet := bet game; deck := deck game;
     player_hand := player_hand game; dealer_hand := dealer_hand game;
     player_stood := player_stood game;
     game_over := true; result := Some r |}.

(** [BlackjackGame.check_game_over] *)
Definition check_game_over (game : BlackjackGame) : BlackjackGame :=
  let player_value := get_hand_value (player_hand game) in
  let dealer_value := get_hand_value (dealer_hand game) in
  let player_blackjack := is_blackjack (player_hand game) in
  let dealer_blackjack := is_blackjack (dealer_hand game) in
  if player_blackjack && dealer_blackjack then settle game "push"
  else if player_blackjack then settle game "blackjack"
  else if dealer_blackjack then settle game "dealer_blackjack"
  else if 21 <? player_value then settle game "bust"
  else if player_stood game then
    if 21 <? dealer_value then settle game "dealer_bust"
    else if player_value <? dealer_value then settle game "dealer_wins"
    else if dealer_value <? player_value then settle game "player_wins"
    else settle game "push"
  else game.

(** [BlackjackGame.calculate_reward]; [int(self.bet * 2.5)] is a
    product with a float. *)
Definition calculate_reward (game : BlackjackGame) : exc Z :=
  if bool_decide (result game = Some "blackjack") then int_times_float (bet game) 5
  else if bool_decide (result game = Some "player_wins")
          || bool_decide (result game = Some "dealer_bust") then Ok (bet game * 2)
  else if bool_decide (result game = Some "push") then Ok (bet game)
  else Ok 0.

(** The value of a card with an ace counted as 1: what a hand is
    worth at least. *)
Definition hard_value (c : Card) : Z :=
  if value c =? 1 then 1 else blackjack_value c.

Section WithRandom.
Context {R : Random}.

(** [Deck.deal] on the card list of the deck. *)
Definition deal (cards : list Card) (g : rng) : exc (Card * list Card * rng) :=
  let '(cards, g) :=
    match cards with
    | [] => rnd_shuffle build g
    | _ :: _ => (cards, g)
    end in
  '(c, cards) ← list_pop cards;
  Ok (c, cards, g).

(** [BlackjackGame.__init__] *)
Definition new_game (player bet : Z) (g : rng) : exc (BlackjackGame * rng) :=
  let '(cards, g) := rnd_shuffle build g in
  '(c1, cards, g) ← deal cards g;
  '(c2, cards, g) ← deal cards g;
  '(c3, cards, g) ← deal cards g;
  '(c4, cards, g) ← deal cards g;
  Ok ({| player := player; bet := bet; deck := cards;
         player_hand := [c1; c3]; dealer_hand := [c2; c4];
         player_stood := false; game_over := false; result := None |}, g).

(** [BlackjackGame.player_hit] *)
Definition player_hit (game : BlackjackGame) (g : rng)
    : exc (bool * BlackjackGame * rng) :=
  if game_over game || player_stood game then Ok (false, game, g)
  else
    '(c, cards, g) ← deal (deck game) g;
    Ok (true,
        {| player := player game; bet := bet game; deck := cards;
           player_hand := player_hand game ++ [c];
           dealer_hand := dealer_hand game;
           player_stood := player_stood game;
           game_over := game_over game; result := result game |}, g).

(** The [while dealer_value < 17] loop of [player_stand]; [None] when
    [fuel] iterations were not enough. *)
Fixpoint dealer_draw (fuel : nat) (cards hand : list Card) (g : rng)
    : option (exc (list Card * list Card * rng)) :=
  if get_hand_value hand <? 17 then
    match fuel with
    | O => None
    | S fuel' =>
        match deal cards g with
        | Raise e => Some (Raise e)
        | Ok (c, cards, g) => dealer_draw fuel' cards (hand ++ [c]) g
        end
    end
  else Some (Ok (cards, hand, g)).

(** [BlackjackGame.player_stand] *)
Definition player_stand (fuel : nat) (game : BlackjackGame) (g : rng)
    : option (exc (bool * BlackjackGame * rng)) :=
  if game_over game || player_stood game then Some (Ok (false, game, g))
  else
    match dealer_draw fuel (deck game) (dealer_hand game) g with
    | None => None
    | Some (Raise e) => Some (Raise e)
    | Some (Ok (cards, hand, g)) =>
        Some (Ok (true,
          {| player := player game; bet := bet game; deck := cards;
             player_hand := player_hand game; dealer_hand := hand;
             player_stood := true;
             game_over := game_over game; result := result game |}, g))
    end.

End WithRandom.

(** *** The cog: [class Blackjack(commands.Cog)] *)

(** [self.games] (user id to game) and the bot the cog was built with. *)
Record world : Type := {
  games : gmap Z BlackjackGame;
  the_bot : bot
}.

Definition set_db (w : world) (db : option (gmap (Z * Z) (gmap string json))) : world :=
  {| games := games w;
     the_bot := {| economy_cog := economy_cog (the_bot w); db_manager := db |} |}.

Definition set_games (w : world) (gs : gmap Z BlackjackGame) : world :=
  {| games := gs; the_bot := the_bot w |}.

(** The embeds the command sends. *)
Inductive notice : Type :=
| GameAlreadyInProgress
| InvalidBet (limit : Z)
| EconomySystemError
| InsufficientFunds (user_data bet : Z)
| GameEmbed (game : BlackjackGame).

(** [Blackjack.process_game_end]; the statistics written by
    [update_stats] live in another collection and are left out. *)
Definition process_game_end (w : world) (author guild : Z) (game : BlackjackGame)
    : exc unit * world :=
  let paid : exc world :=
    reward ← calculate_reward game;
    if 0 <? reward then
      match economy_cog (the_bot w) with
      | Some economy =>
          add_balance ← getattr (cog_add_balance economy) "add_balance";
          Ok (set_db w (add_balance (db_manager (the_bot w)) author guild reward).2)
      | None => Ok w
      end
    else Ok w in
  match paid with
  | Raise e => (Raise e, w)
  | Ok w =>
      match games w !! author with
      | Some _ => (Ok (), set_games w (delete author (games w)))
      | None => (Raise (KeyError "games"), w)
      end
  end.

(** What one pass through the body of [while not game.game_over] does. *)
Inductive loop_status : Type :=
| Continue (game : BlackjackGame)
| Break.

(** What [wait_for("reaction_add", timeout=60.0)] delivers. *)
Inductive event : Type :=
| Hit
| Stand
| TimeoutError.

Section Cog.
Context {R : Random}.

(** [Blackjack.blackjack] up to the first [wait_for]: the result of
    the command when it returns or raises before the game loop, or
    the game the loop starts with.  The registry entry and the
    loop's [game] are one object, so the entry is rewritten whenever
    the game changes. *)
Definition blackjack (w : world) (author guild : Z) (bet : option Z) (g : rng)
    : exc (notice * option BlackjackGame) * world * rng :=
  if bool_decide (is_Some (games w !! author)) then
    (Ok (GameAlreadyInProgress, None), w, g)
  else
    let min_bet := 10 in
    let max_bet := 1000 in
    let bet := default min_bet bet in
    if bet <? min_bet then (Ok (InvalidBet min_bet, None), w, g)
    else if max_bet <? bet then (Ok (InvalidBet max_bet, None), w, g)
    else
      match economy_cog (the_bot w) with
      | None => (Ok (EconomySystemError, None), w, g)
      | Some economy =>
          match
            get_balance ← getattr (cog_get_balance economy) "get_balance";
            get_balance (db_manager (the_bot w)) author guild
          with
          | Raise e => (Raise e, w, g)
          | Ok user_data =>
              if user_data <? bet then
                (Ok (InsufficientFunds user_data bet, None), w, g)
              else
                match getattr (cog_remove_balance economy) "remove_balance" with
                | Raise e => (Raise e, w, g)
                | Ok remove_balance =>
                    let w :=
                      set_db w (remove_balance (db_manager (the_bot w)) author guild bet).2 in
                    match new_game author bet g with
                    | Raise e => (Raise e, w, g)
                    | Ok (game, g) =>
                        let game := check_game_over game in
                        let w := set_games w (<[author := game]> (games w)) in
                        if game_over game then
                          let '(r, w) := process_game_end w author guild game in
                          (_ ← r; Ok (GameEmbed game, None), w, g)
                        else (Ok (GameEmbed game, Some game), w, g)
                end
                end
          end
      end.

(** One pass through the loop body for the game of [author], on the
    event [wait_for] delivered. *)
Definition game_loop (fuel : nat) (w : world) (author guild : Z)
    (game : BlackjackGame) (ev : event) (g : rng)
    : option (exc loop_status * world * rng) :=
  match ev with
  | Hit =>
      match player_hit game g with
      | Raise e => Some (Raise e, w, g)
      | Ok (hit, game', g) =>
          let game' := if hit then check_game_over game' else game' in
          let w := set_games w (<[author := game']> (games w)) in
          if game_over game' then
            let '(r, w) := process_game_end w author guild game' in
            Some (_ ← r; Ok Break, w, g)
          else Some (Ok (Continue game'), w, g)
      end
  | Stand =>
      match player_stand fuel game g with
      | None => None
      | Some (Raise e) => Some (Raise e, w, g)
      | Some (Ok (stood, game', g)) =>
          let game' := if stood then check_game_over game' else game' in
          let w := set_games w (<[author := game']> (games w)) in
          if game_over game' then
            let '(r, w) := process_game_end w author guild game' in
            Some (_ ← r; Ok Break, w, g)
          else Some (Ok (Continue game'), w, g)
      end
  | TimeoutError =>
      if negb (game_over game) && negb (player_stood game) then
        match player_stand fuel game g with
        | None => None
        | Some (Raise e) => Some (Raise e, w, g)
        | Some (Ok (_, game', g)) =>
            let game' := check_game_over game' in
            let w := set_games w (<[author := game']> (games w)) in
            let '(r, w) := process_game_end w author guild game' in
            Some (_ ← r; Ok Break, w, g)
        end
      else Some (Ok (Continue game), w, g)
  end.

End Cog.

(** The games of a session, as the cog drives the engine: the command
    builds the game and calls [check_game_over]; while the game is not
    over, a hit is [player_hit] and a stand or a timeout is
    [player_stand], each followed by [check_game_over] when it returned
    [True]. *)
Inductive session {R : Random} : BlackjackGame -> Prop :=
| session_start player bet g game g' :
    new_game player bet g = Ok (game, g') ->
    session (check_game_over game)
| session_hit game g game' g' :
    session game ->
    game_over game = false ->
    player_hit game g = Ok (true, game', g') ->
    session (check_game_over game')
| session_stand game fuel g game' g' :
    session game ->
    game_over game = false ->
    player_stand fuel game g = Some (Ok (true, game', g')) ->
    session (check_game_over game').

End Blackjack.

(** ** cogs/games/tictactoe.py *)
Module TicTacToe.

Inductive mark : Type := X | O.

#[global] Instance mark_eq_dec : EqDecision mark.
Proof. solve_decision. Defined.

(** The attributes of a [TicTacToeGame]; players are member ids, a free
    cell is [None].  [message], [start_time] and [end_time] serve the
    display only and are left out. *)
Record TicTacToeGame : Type := {
  player1 : Z;
  player2 : Z;
  bet : Z;
  board : list (option mark);
  current_turn : Z;
  winner : option Z;
  game_over : bool
}.

(** [TicTacToeGame.__init__] *)
Definition new_game (player1 player2 bet : Z) : TicTacToeGame :=
  {| player1 := player1; player2 := player2; bet := bet;
     board := replicate 9 None; current_turn := player1;
     winner := None; game_over := false |}.

(** [self.board[i]] *)
Definition cell (b : list (option mark)) (i : nat) : option mark :=
  default None (b !! i).

(** The index triples [check_game_over] inspects, in its order: the
    rows [for i in range(0, 9, 3)], the columns [for i in range(3)],
    then the two diagonals. *)
Definition lines : list (nat * nat * nat) :=
  ((fun i => (i, i + 1, i + 2)%nat) <$> [0; 3; 6]%nat)
  ++ ((fun i => (i, i + 3, i + 6)%nat) <$> [0; 1; 2]%nat)
  ++ [(0, 4, 8)%nat; (2, 4, 6)%nat].

(** [b[i] is not None and b[i] == b[j] == b[k]] *)
Definition complete (b : list (option mark)) (l : nat * nat * nat) : bool :=
  let '(i, j, k) := l in
  match cell b i with
  | None => false
  | Some m =>
      bool_decide (cell b i = cell b j) && bool_decide (cell b j = cell b k)
  end.

(** [TicTacToeGame.check_game_over]: the first complete line in
    inspection order decides the winner; failing that, a board without
    [None] is a draw. *)
Definition check_game_over (game : TicTacToeGame) : TicTacToeGame :=
  match list_find (fun l => complete (board game) l = true) lines with
  | Some (_, (i, _, _)) =>
      {| player1 := player1 game; player2 := player2 game; bet := bet game;
         board := board game; current_turn := current_turn game;
         winner :=
           Some (if bool_decide (cell (board game) i = Some X)
                 then player1 game else player2 game);
         game_over := true |}
  | None =>
      if bool_decide (None ∉ board game) then
        {| player1 := player1 game; player2 := player2 game; bet := bet game;
           board := board game; current_turn := current_turn game;
           winner := winner game; game_over := true |}
      else game
  end.

(** [TicTacToeGame.make_move] *)
Definition make_move (game : TicTacToeGame) (position player : Z)
    : bool * TicTacToeGame :=
  if game_over game then (false, game)
  else if bool_decide (player ≠ current_turn game) then (false, game)
  else if (position <? 0) || (8 <? position) then (false, game)
  else if bool_decide (cell (board game) (Z.to_nat position) ≠ None) then (false, game)
  else
    let m := if bool_decide (player = player1 game) then X else O in
    let game :=
      {| player1 := player1 game; player2 := player2 game; bet := bet game;
         board := <[Z.to_nat position := Some m]> (board game);
         current_turn :=
           if bool_decide (player = player1 game) then player2 game else player1 game;
         winner := winner game; game_over := game_over game |} in
    (true, check_game_over game).

(** The three cells of a line all hold the mark [m]. *)
Definition line_of (b : list (option mark)) (m : mark) (l : nat * nat * nat) : Prop :=
  cell b l.1.1 = Some m /\ cell b l.1.2 = Some m /\ cell b l.2 = Some m.

(** The games that a sequence of legal moves leads to: each move is
    one [make_move] call that returned [True]. *)
Inductive played : TicTacToeGame -> Prop :=
| played_new player1 player2 bet : played (new_game player1 player2 bet)
| played_move game position player game' :
    played game ->
    make_move game position player = (true, game') ->
    played game'.

(** Plays the moves [(position, player)] in order; [None] as soon as
    one is refused. *)
Fixpoint play (game : TicTacToeGame) (moves : list (Z * Z)) : option TicTacToeGame :=
  match moves with
  | [] => Some game
  | (position, player) :: moves =>
      match make_move game position player with
      | (true, game) => play game moves
      | (false, _) => None
      end
  end.

(** How many cells of the board hold the mark [m]. *)
Definition count_mark (b : list (option mark)) (m : mark) : nat :=
  length (filter (fun c => c = Some m) b).

(** *** The cog: [class TicTacToe(commands.Cog)]

    The registry [self.games] is only tested for membership and
    deleted from, so it keeps the identity of the game object; each
    game loop owns the object it was started with. *)
Record world : Type := {
  games : gmap Z nat;
  pending_challenges : gmap Z (Z * Z);
  next_game : nat;
  the_bot : bot
}.

Definition set_db (w : world) (db : option (gmap (Z * Z) (gmap string json))) : world :=
  {| games := games w; pending_challenges := pending_challenges w;
     next_game := next_game w;
     the_bot := {| economy_cog := economy_cog (the_bot w); db_manager := db |} |}.

Definition set_games (w : world) (gs : gmap Z nat) : world :=
  {| games := gs; pending_challenges := pending_challenges w;
     next_game := next_game w; the_bot := the_bot w |}.

Definition set_pending (w : world) (p : gmap Z (Z * Z)) : world :=
  {| games := games w; pending_challenges := p;
     next_game := next_game w; the_bot := the_bot w |}.

(** A command handler suspended in [wait_for]: on the answer to a
    challenge, or on the next move of the game it runs. *)
Inductive task : Type :=
| AwaitResponse (channel guild author member bet : Z)
| GameLoop (channel guild : Z) (game_id : nat) (game : TicTacToeGame).

Inductive notice : Type :=
| GameAlreadyInProgress
| WhoToChallenge
| InvalidTarget
| InvalidBet
| PendingChallenge (challenger : Z)
| EconomySystemError
| InsufficientFunds (who balance bet : Z)
| Challenge.

(** [TicTacToe.tictactoe] up to its [wait_for]; [member] is the
    mentioned user's id and [bot] flag. *)
Definition tictactoe (w : world) (channel guild author : Z)
    (member : option (Z * bool)) (bet : Z) : exc (notice * option task) * world :=
  if bool_decide (is_Some (games w !! channel)) then (Ok (GameAlreadyInProgress, None), w)
  else
    match member with
    | None => (Ok (WhoToChallenge, None), w)
    | Some (member, is_bot) =>
        if bool_decide (member = author) then (Ok (InvalidTarget, None), w)
        else if is_bot then (Ok (InvalidTarget, None), w)
        else if bet <? 0 then (Ok (InvalidBet, None), w)
        else
          match pending_challenges w !! member with
          | Some (challenger, _) => (Ok (PendingChallenge challenger, None), w)
          | None =>
              let funds : exc (option notice) :=
                if 0 <? bet then
                  match economy_cog (the_bot w) with
                  | None => Ok (Some EconomySystemError)
                  | Some economy =>
                      get_balance ← getattr (cog_get_balance economy) "get_balance";
                      challenger_balance ← get_balance (db_manager (the_bot w)) author guild;
                      if challenger_balance <? bet
                      then Ok (Some (InsufficientFunds author challenger_balance bet))
                      else
                        get_balance ← getattr (cog_get_balance economy) "get_balance";
                        target_balance ← get_balance (db_manager (the_bot w)) member guild;
                        if target_balance <? bet
                        then Ok (Some (InsufficientFunds member target_balance bet))
                        else Ok None
                  end
                else Ok None in
              match funds with
              | Raise e => (Raise e, w)
              | Ok (Some n) => (Ok (n, None), w)
              | Ok None =>
                  (Ok (Challenge, Some (AwaitResponse channel guild author member bet)),
                   set_pending w (<[member := (author, bet)]> (pending_challenges w)))
              end
          end
    end.

(** [TicTacToe.start_game] up to the first [wait_for] of the game loop. *)
Definition start_game (w : world) (channel guild player1 player2 bet : Z)
    : exc task * world :=
  let game := new_game player1 player2 bet in
  let game_id := next_game w in
  let w :=
    {| games := <[channel := game_id]> (games w);
       pending_challenges := pending_challenges w;
       next_game := S game_id; the_bot := the_bot w |} in
  let paid : exc world :=
    if 0 <? bet then
      match economy_cog (the_bot w) with
      | Some economy =>
          remove_balance ← getattr (cog_remove_balance economy) "remove_balance";
          let w := set_db w (remove_balance (db_manager (the_bot w)) player1 guild bet).2 in
          remove_balance ← getattr (cog_remove_balance economy) "remove_balance";
          Ok (set_db w (remove_balance (db_manager (the_bot w)) player2 guild bet).2)
      | None => Ok w
      end
    else Ok w in
  match paid with
  | Raise e => (Raise e, w)
  | Ok w => (Ok (GameLoop channel guild game_id game), w)
  end.

(** What the challenged member answers, or the 60 s timeout. *)
Inductive response : Type :=
| Accept
| Decline
| ResponseTimeout.

(** The rest of [TicTacToe.tictactoe] once [wait_for] returns or times out. *)
Definition respond (w : world) (channel guild author member bet : Z) (r : response)
    : exc (option task) * world :=
  match r with
  | ResponseTimeout =>
      (Ok None, set_pending w (delete member (pending_challenges w)))
  | Accept | Decline =>
      match pending_challenges w !! member with
      | None => (Raise (KeyError "pending_challenges"), w)
      | Some _ =>
          let w := set_pending w (delete member (pending_challenges w)) in
          match r with
          | Accept =>
              let '(t, w) := start_game w channel guild author member bet in
              (t ← t; Ok (Some t), w)
          | _ => (Ok None, w)
          end
      end
  end.

(** The two [add_balance] calls that hand a bet back to both players. *)
Definition return_bets (w : world) (guild : Z) (game : TicTacToeGame) : exc world :=
  match economy_cog (the_bot w) with
  | Some economy =>
      add_balance ← getattr (cog_add_balance economy) "add_balance";
      let w := set_db w (add_balance (db_manager (the_bot w)) (player1 game) guild (bet game)).2 in
      add_balance ← getattr (cog_add_balance economy) "add_balance";
      Ok (set_db w (add_balance (db_manager (the_bot w)) (player2 game) guild (bet game)).2)
  | None => Ok w
  end.

(** [TicTacToe.end_game]; the statistics of [update_stats] are left out. *)
Definition end_game (w : world) (channel guild : Z) (game : TicTacToeGame)
    : exc unit * world :=
  let paid : exc world :=
    if 0 <? bet game then
      match economy_cog (the_bot w) with
      | Some economy =>
          match winner game with
          | Some winner =>
              add_balance ← getattr (cog_add_balance economy) "add_balance";
              Ok (set_db w (add_balance (db_manager (the_bot w)) winner guild (bet game * 2)).2)
          | None =>
              add_balance ← getattr (cog_add_balance economy) "add_balance";
              let w :=
                set_db w (add_balance (db_manager (the_bot w)) (player1 game) guild (bet game)).2 in
              add_balance ← getattr (cog_add_balance economy) "add_balance";
              Ok (set_db w (add_balance (db_manager (the_bot w)) (player2 game) guild (bet game)).2)
          end
      | None => Ok w
      end
    else Ok w in
  match paid with
  | Raise e => (Raise e, w)
  | Ok w => (Ok (), set_games w (delete channel (games w)))
  end.

(** What [wait_for] delivers to the game loop: a keycap reaction by
    the member whose turn it is, or the 120 s timeout. *)
Inductive event : Type :=
| Reaction (position user : Z)
| TimeoutError.

(** The [check] of the game loop's [wait_for]. *)
Definition check (game : TicTacToeGame) (position user : Z) : bool :=
  bool_decide (user = current_turn game) && (0 <=? position) && (position <=? 8).

(** The timeout branch of [TicTacToe.game_loop]. *)
Definition game_loop_timeout (w : world) (channel guild : Z) (game : TicTacToeGame)
    : exc TicTacToeGame * world :=
  let game :=
    {| player1 := player1 game; player2 := player2 game; bet := bet game;
       board := board game; current_turn := current_turn game;
       winner := winner game; game_over := true |} in
  let paid : exc world := if 0 <? bet game then return_bets w guild game else Ok w in
  match paid with
  | Raise e => (Raise e, w)
  | Ok w => (Ok game, set_games w (delete channel (games w)))
  end.

(** One pass through [while not game.game_over] of [TicTacToe.game_loop]:
    the task to resume later, or [None] when the handler returned. *)
Definition game_loop (w : world) (channel guild : Z) (game_id : nat)
    (game : TicTacToeGame) (ev : event) : exc (option task) * world :=
  match ev with
  | Reaction position user =>
      let game := (make_move game position user).2 in
      if game_over game then
        let '(r, w) := end_game w channel guild game in
        (_ ← r; Ok None, w)
      else (Ok (Some (GameLoop channel guild game_id game)), w)
  | TimeoutError =>
      let '(r, w) := game_loop_timeout w channel guild game in
      (_ ← r; Ok None, w)
  end.

(** The handlers interleave at their [wait_for]s: a state is the cog
    with its suspended handlers, and a step runs one handler from one
    suspension to the next. *)
Definition resumed {A : Type} (r : exc A) (f : A -> option task) : list task :=
  match r with
  | Ok a => option_list (f a)
  | Raise _ => []
  end.

Inductive step : world * list task -> world * list task -> Prop :=
| step_command w ts channel guild author member bet r w' :
    tictactoe w channel guild author member bet = (r, w') ->
    step (w, ts) (w', ts ++ resumed r snd)
| step_respond w ts1 ts2 channel guild author member bet a r w' :
    respond w channel guild author member bet a = (r, w') ->
    step (w, ts1 ++ AwaitResponse channel guild author member bet :: ts2)
         (w', ts1 ++ resumed r id ++ ts2)
| step_game_loop w ts1 ts2 channel guild game_id game ev r w' :
    match ev with
    | Reaction position user => check game position user = true
    | TimeoutError => True
    end ->
    game_loop w channel guild game_id game ev = (r, w') ->
    step (w, ts1 ++ GameLoop channel guild game_id game :: ts2)
         (w', ts1 ++ resumed r id ++ ts2).

(** The cog as [__init__] leaves it, with no handler running. *)
Definition init (b : bot) : world * list task :=
  ({| games := ∅; pending_challenges := ∅; next_game := 0%nat; the_bot := b |}, []).

(** The games of the running game loops of a channel that are not over. *)
Definition sessions (channel : Z) (ts : list task) : list nat :=
  omap (fun t =>
          match t with
          | GameLoop c _ game_id game =>
              if bool_decide (c = channel) && negb (game_over game)
              then Some game_id else None
          | AwaitResponse _ _ _ _ _ => None
          end) ts.

(** A schedule: which command arrives, or which suspended handler (by
    its position among the suspended ones) is resumed with what. *)
Inductive action : Type :=
| Command (channel guild author : Z) (member : option (Z * bool)) (bet : Z)
| Answer (i : nat) (r : response)
| Deliver (i : nat) (ev : event).

Definition run1 (a : action) (s : world * list task) : option (world * list task) :=
  match a with
  | Command channel guild author member bet =>
      let '(r, w) := tictactoe s.1 channel guild author member bet in
      Some (w, s.2 ++ resumed r snd)
  | Answer i a =>
      match s.2 !! i with
      | Some (AwaitResponse channel guild author member bet) =>
          let '(r, w) := respond s.1 channel guild author member bet a in
          Some (w, take i s.2 ++ resumed r id ++ drop (S i) s.2)
      | _ => None
      end
  | Deliver i ev =>
      match s.2 !! i with
      | Some (GameLoop channel guild game_id game) =>
          if match ev with
             | Reaction position user => check game position user
             | TimeoutError => true
             end
          then
            let '(r, w) := game_loop s.1 channel guild game_id game ev in
            Some (w, take i s.2 ++ resumed r id ++ drop (S i) s.2)
          else None
      | _ => None
      end
  end.

Fixpoint run (acts : list action) (s : world * list task) : option (world * list task) :=
  match acts with
  | [] => Some s
  | a :: acts => s ← run1 a s; run acts s
  end.

End TicTacToe.

(** ** cogs/games/snake.py *)
Module Snake.

Definition UP : Z * Z := (0, -1).
Definition DOWN : Z * Z := (0, 1).
Definition LEFT : Z * Z := (-1, 0).
Definition RIGHT : Z * Z := (1, 0).

(** The attributes of a [SnakeGame] that [move] reads or writes; the
    head of [snake] is [self.snake[0]].  The player, the display board
    and the timer are left out. *)
Record SnakeGame : Type := {
  width : Z;
  height : Z;
  snake : list (Z * Z);
  direction : Z * Z;
  next_direction : Z * Z;
  score : Z;
  food : option (Z * Z);
  game_over : bool
}.

(** [SnakeGame.set_difficulty_params], on the lower-cased difficulty:
    the width and the height of the grid. *)
Definition set_difficulty_params (difficulty : string) : Z * Z :=
  if bool_decide (difficulty = "easy") then (8, 8)
  else if bool_decide (difficulty = "normal") then (10, 10)
  else if bool_decide (difficulty = "hard") then (12, 12)
  else if bool_decide (difficulty = "expert") then (15, 15)
  else (10, 10).

(** [a % n] *)
Definition py_mod (a n : Z) : exc Z :=
  if n =? 0 then Raise ZeroDivisionError else Ok (a mod n).

(** The list [empty_positions] that [place_food] builds: row by row,
    the cells that are not in the snake. *)
Definition empty_positions (width height : Z) (snake : list (Z * Z)) : list (Z * Z) :=
  y ← seqZ 0 height;
  x ← seqZ 0 width;
  if bool_decide ((x, y) ∈ snake) then [] else [(x, y)].

Section WithRandom.
Context {R : Random}.

(** [random.choice(seq)] on a non-empty list *)
Definition choice {A : Type} (seq : list A) (g : rng) : exc (A * rng) :=
  let '(i, g) := rnd_randbelow (length seq) g in
  match seq !! i with
  | Some a => Ok (a, g)
  | None => Raise IndexError
  end.

(** [SnakeGame.place_food] *)
Definition place_food (game : SnakeGame) (g : rng) : exc (SnakeGame * rng) :=
  match empty_positions (width game) (height game) (snake game) with
  | [] => Ok (game, g)
  | (_ :: _) as cells =>
      '(p, g) ← choice cells g;
      Ok ({| width := width game; height := height game; snake := snake game;
             direction := direction game; next_direction := next_direction game;
             score := score game; food := Some p; game_over := game_over game |}, g)
  end.

(** [SnakeGame.reset_game], after [set_difficulty_params] *)
Definition new_game (difficulty : string) (g : rng) : exc (SnakeGame * rng) :=
  let '(w, h) := set_difficulty_params difficulty in
  place_food
    {| width := w; height := h; snake := [(w `div` 2, h `div` 2)];
       direction := RIGHT; next_direction := RIGHT;
       score := 0; food := None; game_over := false |} g.

(** [SnakeGame.move] *)
Definition move (game : SnakeGame) (g : rng) : exc (bool * SnakeGame * rng) :=
  if game_over game then Ok (false, game, g)
  else
    let direction := next_direction game in
    match snake game with
    | [] => Raise IndexError
    | (head_x, head_y) :: _ =>
        let '(dx, dy) := direction in
        new_x ← py_mod (head_x + dx) (width game);
        new_y ← py_mod (head_y + dy) (height game);
        let new_head := (new_x, new_y) in
        if bool_decide (new_head ∈ snake game) then
          Ok (false,
              {| width := width game; height := height game; snake := snake game;
                 direction := direction; next_direction := next_direction game;
                 score := score game; food := food game; game_over := true |}, g)
        else
          let body := new_head :: snake game in
          if bool_decide (Some new_head = food game) then
            '(game, g) ←
              place_food
                {| width := width game; height := height game; snake := body;
                   direction := direction; next_direction := next_direction game;
                   score := score game + 1; food := None;
                   game_over := game_over game |} g;
            Ok (true, game, g)
          else
            '(_, body) ← list_pop body;
            Ok (true,
                {| width := width game; height := height game; snake := body;
                   direction := direction; next_direction := next_direction game;
                   score := score game; food := food game;
                   game_over := game_over game |}, g)
    end.

End WithRandom.

(** [SnakeGame.change_direction] *)
Definition change_direction (game : SnakeGame) (new_direction : Z * Z)
    : bool * SnakeGame :=
  if (new_direction.1 =? - (direction game).1) && (new_direction.2 =? - (direction game).2)
  then (false, game)
  else (true,
        {| width := width game; height := height game; snake := snake game;
           direction := direction game; next_direction := new_direction;
           score := score game; food := food game; game_over := game_over game |}).

(** [SnakeGame.get_reward] for a game whose [self.difficulty] is
    [difficulty]: [int(base_reward * difficulty_multiplier)] with the
    floats 1.0, 1.5, 2.0 and 3.0 of the table and the fallback 1.0, each
    given in halves. *)
Definition get_reward (difficulty : string) (game : SnakeGame) : exc Z :=
  let base_reward := score game * 10 in
  let twice_multiplier :=
    if bool_decide (difficulty = "easy") then 2
    else if bool_decide (difficulty = "normal") then 3
    else if bool_decide (difficulty = "hard") then 4
    else if bool_decide (difficulty = "expert") then 6
    else 2 in
  int_times_float base_reward twice_multiplier.

(** A cell of the grid of the game. *)
Definition on_grid (game : SnakeGame) (p : Z * Z) : Prop :=
  0 <= p.1 < width game /\ 0 <= p.2 < height game.

(** The shape a game keeps: a grid of positive size, a snake of
    distinct cells of the grid, one cell more than the score, which is
    not negative, and food, if any, on a cell of the grid that is not
    in the snake. *)
Definition well_formed (game : SnakeGame) : Prop :=
  0 < width game /\ 0 < height game
  /\ NoDup (snake game)
  /\ Forall (on_grid game) (snake game)
  /\ 0 <= score game
  /\ Z.of_nat (length (snake game)) = score game + 1
  /\ (forall p, food game = Some p -> on_grid game p /\ p ∉ snake game).

(** The value [set_difficulty_params] leaves in [self.difficulty]: an
    unknown difficulty is replaced by "normal". *)
Definition difficulty_of (difficulty : string) : string :=
  if bool_decide (difficulty = "easy") then difficulty
  else if bool_decide (difficulty = "normal") then difficulty
  else if bool_decide (difficulty = "hard") then difficulty
  else if bool_decide (difficulty = "expert") then difficulty
  else "normal".

(** *** The cog: the command and the input task

    [self.games] (user id to game). *)
Record world : Type := {
  games : gmap Z SnakeGame
}.

Inductive notice : Type :=
| GameAlreadyInProgress
| InvalidDifficulty
| GameBoard.



Section Cog.
Context {R : Random}.


End Cog.

End Snake.

(** ** cogs/games/wordscramble.py *)
Module WordScramble.

Section WithRandom.
Context {R : Random}.

(** The loop [while scrambled == word and attempts < 10]; [n] is the
    number of attempts left and [scrambled] is always the join of
    [word_list]. *)
Fixpoint shuffle_loop (n : nat) (word : string) (word_list : list Ascii.ascii) (g : rng)
    : list Ascii.ascii * rng :=
  match n with
  | O => (word_list, g)
  | S n' =>
      if bool_decide (String.string_of_list_ascii word_list = word) then
        let '(word_list, g) := rnd_shuffle word_list g in
        shuffle_loop n' word word_list g
      else (word_list, g)
  end.

(** [WordScramble.scramble_word] *)
Definition scramble_word (word : string) (g : rng) : string * rng :=
  if (String.length word <=? 3)%nat then
    (String.string_of_list_ascii (reverse (String.list_ascii_of_string word)), g)
  else
    let '(word_list, g) := shuffle_loop 10 word (String.list_ascii_of_string word) g in
    (String.string_of_list_ascii word_list, g).

End WithRandom.

(** [self.word_lists], all difficulties together. *)
Definition word_lists : list string :=
  [ "cat"; "dog"; "run"; "jump"; "play"; "book"; "fish"; "swim"; "cake";
    "game"; "sing"; "moon"; "star"; "tree"; "bird"; "card"; "hand"; "ball";
    "hat"; "pen"; "car"; "rain"; "sun"; "door"; "rock"; "baby"; "love";
    "music"; "water"; "earth"; "apple"; "bread"; "dance"; "pizza"; "river";
    "beach"; "light"; "clock"; "paper"; "happy"; "table"; "sheep"; "mouse";
    "house"; "money"; "phone"; "space"; "dream"; "queen"; "wagon"; "cloud";
    "plant"; "fruit"; "smile"; "snake"; "tiger"; "ghost"; "story";
    "puzzle"; "morning"; "language"; "mountain"; "rainbow"; "holiday";
    "library"; "elephant"; "chocolate"; "hospital"; "butterfly"; "universe";
    "adventure"; "treasure"; "dinosaur"; "keyboard"; "computer"; "calendar";
    "firework"; "festival"; "symphony"; "umbrella"; "sandwich"; "building";
    "question"; "painting"; "whisper"; "crystal"; "triangle"; "airplane";
    "government"; "algorithm"; "philosophy"; "revolution"; "technology";
    "imagination"; "celebration"; "university"; "confidence"; "dictionary";
    "development"; "enthusiastic"; "significance"; "achievement"; "mysterious";
    "conversation"; "photography"; "temperature"; "environment"; "innovation";
    "opportunity"; "experience"; "community"; "inspiration"; "vocabulary";
    "impossible"; "perspective"; "knowledge"; "challenge"; "atmosphere" ].

(** *** The cog: how a game ends

    [self.active_games] is keyed by the channel; the entries are looked
    at for the "solved" flag only. *)
Record world : Type := {
  active_games : gmap Z bool;
  the_bot : bot
}.

Definition set_db (w : world) (db : option (gmap (Z * Z) (gmap string json))) : world :=
  {| active_games := active_games w;
     the_bot := {| economy_cog := economy_cog (the_bot w); db_manager := db |} |}.

(** [WordScramble.end_game]; [channel_found] tells whether
    [self.bot.get_channel(channel_id)] found the channel, [solver] and
    [guild] are the solver's and the guild's ids, and [total_reward] is
    the base reward plus the time bonus, which depends on the clock and
    which only the end type "solved" computes.  The statistics of
    [update_stats] live in another collection and are left out. *)
Definition end_game (w : world) (channel_id : Z) (channel_found : bool)
    (end_type : string) (solver guild total_reward : Z) : exc unit * world :=
  match active_games w !! channel_id with
  | None => (Ok (), w)
  | Some _ =>
      let released :=
        fun w => {| active_games := delete channel_id (active_games w);
                    the_bot := the_bot w |} in
      if negb channel_found then (Ok (), released w)
      else
        let paid : exc world :=
          if bool_decide (end_type = "solved") then
            match economy_cog (the_bot w) with
            | Some economy =>
                add_balance ← getattr (cog_add_balance economy) "add_balance";
                Ok (set_db w (add_balance (db_manager (the_bot w)) solver guild
                                total_reward).2)
            | None => Ok w
            end
          else Ok w in
        match paid with
        | Raise e => (Raise e, w)
        | Ok w => (Ok (), released w)
        end
  end.



End WordScramble.

(** ** cogs/games/hangman.py: how a game ends *)
Module Hangman.

(** The entries of [game_state] that the end of a game reads or writes. *)
Record GameState : Type := {
  word : string;
  status : string;
  reward : Z
}.

(** [self.games] (user id to game state) and the bot. *)
Record world : Type := {
  games : gmap Z GameState;
  the_bot : bot
}.

Definition set_db (w : world) (db : option (gmap (Z * Z) (gmap string json))) : world :=
  {| games := games w;
     the_bot := {| economy_cog := economy_cog (the_bot w); db_manager := db |} |}.

(** [Hangman.end_game]: coins are awarded on the status "won" only;
    then the entry of the author is deleted. *)
Definition end_game (w : world) (author guild : Z) (game_state : GameState)
    : exc unit * world :=
  let paid : exc world :=
    if bool_decide (status game_state = "won") then
      match economy_cog (the_bot w) with
      | Some economy =>
          add_balance ← getattr (cog_add_balance economy) "add_balance";
          Ok (set_db w (add_balance (db_manager (the_bot w)) author guild
                          (reward game_state)).2)
      | None => Ok w
      end
    else Ok w in
  match paid with
  | Raise e => (Raise e, w)
  | Ok w =>
      match games w !! author with
      | Some _ => (Ok (), {| games := delete author (games w); the_bot := the_bot w |})
      | None => (Raise (KeyError "games"), w)
      end
  end.

(** The [except asyncio.TimeoutError] branch of the game loop: the
    state it leaves the game in, and what [end_game] did. *)
Definition timed_out (w : world) (author guild : Z) (game_state : GameState)
    : GameState * exc unit * world :=
  let game_state :=
    {| word := word game_state; status := "timeout"; reward := reward game_state |} in
  let '(r, w) := end_game w author guild game_state in
  (game_state, r, w).

End Hangman.

(** ** cogs/games/numguess.py: how a game ends *)
Module NumberGuess.

(** The entries of [game_state] that the end of a game reads or writes. *)
Record GameState : Type := {
  secret_number : Z;
  attempts : Z;
  max_attempts : Z;
  status : string;
  reward : Z
}.

Record world : Type := {
  games : gmap Z GameState;
  the_bot : bot
}.

Definition set_db (w : world) (db : option (gmap (Z * Z) (gmap string json))) : world :=
  {| games := games w;
     the_bot := {| economy_cog := economy_cog (the_bot w); db_manager := db |} |}.

(** [NumberGuess.end_game]; [bonus] is the value of
    [int(game_state["reward"] * (remaining_attempts * 0.1))], which only
    the status "won" computes.  The statistics of [update_stats] live
    in another collection and are left out. *)
Definition end_game (w : world) (author guild : Z) (game_state : GameState)
    (bonus : Z) : exc unit * world :=
  let paid : exc world :=
    if bool_decide (status game_state = "won") then
      let total_reward := reward game_state + bonus in
      match economy_cog (the_bot w) with
      | Some economy =>
          add_balance ← getattr (cog_add_balance economy) "add_balance";
          Ok (set_db w (add_balance (db_manager (the_bot w)) author guild
                          total_reward).2)
      | None => Ok w
      end
    else Ok w in
  match paid with
  | Raise e => (Raise e, w)
  | Ok w =>
      match games w !! author with
      | Some _ => (Ok (), {| games := delete author (games w); the_bot := the_bot w |})
      | None => (Raise (KeyError "games"), w)
      end
  end.

(** The [except asyncio.TimeoutError] branch of the game loop. *)
Definition timed_out (w : world) (author guild : Z) (game_state : GameState)
    (bonus : Z) : GameState * exc unit * world :=
  let game_state :=
    {| secret_number := secret_number game_state; attempts := attempts game_state;
       max_attempts := max_attempts game_state; status := "timeout";
       reward := reward game_state |} in
  let '(r, w) := end_game w author guild game_state bonus in
  (game_state, r, w).

End NumberGuess.

(** ** cogs/games/memory.py, rps.py and trivia.py: the timeouts

    The timeout branches of these three cogs look at their registry
    only for its keys, so [self.games] is kept as the set of its keys. *)
Module Memory.

Record world : Type := {
  games : gset Z;
  the_bot : bot
}.

(** The [except asyncio.TimeoutError] branch of [Memory.game_loop]:
    [if ctx.author.id in self.games: del self.games[ctx.author.id]],
    and the loop is left. *)
Definition timed_out (w : world) (author : Z) : world :=
  {| games := games w ∖ {[author]}; the_bot := the_bot w |}.

End Memory.

Module RockPaperScissors.

Record world : Type := {
  games : gset Z;
  the_bot : bot
}.





End RockPaperScissors.

Module TriviaGame.

Record world : Type := {
  games : gset Z;
  the_bot : bot
}.

(** [start_trivia_game] when the wait for the answer times out: the
    [except asyncio.TimeoutError] clause edits the message and the
    [finally] clause runs [del self.games[ctx.author.id]]. *)
Definition timed_out (w : world) (author : Z) : exc unit * world :=
  if bool_decide (author ∈ games w)
  then (Ok (), {| games := games w ∖ {[author]}; the_bot := the_bot w |})
  else (Raise (KeyError "games"), w).

End TriviaGame.

(** ** Generators used to run the model on concrete inputs *)

(** A generator whose shuffle leaves the list as it is, whose
    [randint a b] is [a] and whose [randbelow] is 0. *)
Definition identity_random : Random := {|
  rng := unit;
  rnd_shuffle := fun A l g => (l, g);
  rnd_randint := fun a b g => (a, g);
  rnd_randbelow := fun n g => (0%nat, g)
|}.

(** The same generator with a shuffle that reverses the list. *)
Definition reverse_random : Random := {|
  rng := unit;
  rnd_shuffle := fun A l g => (reverse l, g);
  rnd_randint := fun a b g => (a, g);
  rnd_randbelow := fun n g => (0%nat, g)
|}.

(** A ledger with one record: member 7 of guild 1 owns 50 coins. *)
Definition ledger50 : gmap (Z * Z) (gmap string json) :=
  {[ (1, 7) := <["balance" := VInt 50]> Economy.fresh ]}.

(** Member 7 of guild 1 claimed last at t = 1000000 on a streak of 1. *)
Definition ledger_streak1 : gmap (Z * Z) (gmap string json) :=
  {[ (1, 7) := <["balance" := VInt 150]> (<["last_daily" := VInt 1000000]>
                 (<["daily_streak" := VInt 1]> Economy.fresh)) ]}.

(** A normal-difficulty Snake game whose one-cell snake sits in the
    rightmost column, heading right, with the food in column 0. *)
Definition snake_at_edge : Snake.SnakeGame := {|
  Snake.width := 10; Snake.height := 10; Snake.snake := [(9, 5)];
  Snake.direction := Snake.RIGHT; Snake.next_direction := Snake.RIGHT;
  Snake.score := 0; Snake.food := Some (0, 5); Snake.game_over := false
|}.

(** A Snake game that has eaten three times. *)
Definition snake_fed : Snake.SnakeGame := {|
  Snake.width := 10; Snake.height := 10;
  Snake.snake := [(5, 5); (4, 5); (3, 5); (2, 5)];
  Snake.direction := Snake.RIGHT; Snake.next_direction := Snake.RIGHT;
  Snake.score := 3; Snake.food := Some (0, 5); Snake.game_over := false
|}.

(** Member 1 (X) takes cells 1, 2, 3, 6 and then 0; member 2 (O) takes
    cells 4, 5, 7 and 8 in between. *)
Definition double_line_moves : list (Z * Z) :=
  [(1, 1); (4, 2); (2, 1); (5, 2); (3, 1); (7, 2); (6, 1); (8, 2); (0, 1)].

(** The game those moves lead to: X holds the top row and the left
    column. *)
Definition double_line_game : TicTacToe.TicTacToeGame := {|
  TicTacToe.player1 := 1; TicTacToe.player2 := 2; TicTacToe.bet := 0;
  TicTacToe.board :=
    [Some TicTacToe.X; Some TicTacToe.X; Some TicTacToe.X;
     Some TicTacToe.X; Some TicTacToe.O; Some TicTacToe.O;
     Some TicTacToe.X; Some TicTacToe.O; Some TicTacToe.O];
  TicTacToe.current_turn := 2; TicTacToe.winner := Some 1;
  TicTacToe.game_over := true
|}.

(** A ledger in which member 7 of guild 1 owns nothing. *)
Definition ledger0 : gmap (Z * Z) (gmap string json) :=
  {[ (1, 7) := Economy.fresh ]}.

(** The Blackjack cog with no game running, for member 7 without coins. *)
Definition blackjack_idle : Blackjack.world :=
  {| Blackjack.games := ∅; Blackjack.the_bot := repo_bot ledger0 |}.

(** Two challenges are issued in channel 5 of guild 1 before either
    is answered (10 to 11, then 12 to 13), and then both are accepted. *)
Definition two_challenges : list TicTacToe.action :=
  [TicTacToe.Command 5 1 10 (Some (11, false)) 0;
   TicTacToe.Command 5 1 12 (Some (13, false)) 0;
   TicTacToe.Answer 0 TicTacToe.Accept;
   TicTacToe.Answer 1 TicTacToe.Accept].

(** The game [BlackjackGame(7, 10)] deals from the reversed pack: the
    player holds the ace and the 3 of hearts, the dealer the 2 and the 4. *)
Definition hearts_game : Blackjack.BlackjackGame := {|
  Blackjack.player := 7; Blackjack.bet := 10;
  Blackjack.deck := take 48 (reverse Blackjack.build);
  Blackjack.player_hand :=
    [ {| Blackjack.suit := Blackjack.hearts; Blackjack.value := 1 |};
      {| Blackjack.suit := Blackjack.hearts; Blackjack.value := 3 |} ];
  Blackjack.dealer_hand :=
    [ {| Blackjack.suit := Blackjack.hearts; Blackjack.value := 2 |};
      {| Blackjack.suit := Blackjack.hearts; Blackjack.value := 4 |} ];
  Blackjack.player_stood := false; Blackjack.game_over := false;
  Blackjack.result := None
|}.

(** Members 10 and 11 of guild 1 own 30 and 45 coins. *)
Definition ledger_staked : gmap (Z * Z) (gmap string json) :=
  {[ (1, 10) := <["balance" := VInt 30]> Economy.fresh;
     (1, 11) := <["balance" := VInt 45]> Economy.fresh ]}.

Definition staked_game : TicTacToe.TicTacToeGame := TicTacToe.new_game 10 11 20.

(** The Tic-Tac-Toe cog with a game running in channel 5, as the
    repository wires the bot. *)
Definition tictactoe_waiting : TicTacToe.world :=
  {| TicTacToe.games := {[ 5 := 0%nat ]}; TicTacToe.pending_challenges := ∅;
     TicTacToe.next_game := 1%nat; TicTacToe.the_bot := repo_bot ledger_staked |}.

(** The same cog in a bot whose lookup of "Utils" finds the database
    manager. *)
Definition tictactoe_funded : TicTacToe.world :=
  {| TicTacToe.games := {[ 5 := 0%nat ]}; TicTacToe.pending_challenges := ∅;
     TicTacToe.next_game := 1%nat;
     TicTacToe.the_bot := bot_with_manager ledger_staked |}.

(** A ledger is sound when no record shows a negative balance or a
    negative streak; a missing field counts as 0, as the code reads it. *)
Definition ledger_sound (db : gmap (Z * Z) (gmap string json)) : Prop :=
  forall (user guild n : Z) (key : string),
    key = "balance" \/ key = "daily_streak" ->
    dict_get (DatabaseManager.get_economy_data db user guild) key (VInt 0) = VInt n ->
    0 <= n.

(** A ledger whose record of member 7 of guild 1 has an inventory and
    a claim time but no "balance" field. *)
Definition ledger_no_balance : gmap (Z * Z) (gmap string json) :=
  {[ (1, 7) := <["inventory" := VList []]> (<["last_daily" := VInt 0]> ∅) ]}.

(** Member 10 (X) takes the top row of [staked_game] while member 11
    (O) takes cells 3 and 4. *)
Definition top_row_moves : list (Z * Z) :=
  [(0, 10); (3, 11); (1, 10); (4, 11); (2, 10)].

Definition top_row_game : TicTacToe.TicTacToeGame := {|
  TicTacToe.player1 := 10; TicTacToe.player2 := 11; TicTacToe.bet := 20;
  TicTacToe.board :=
    [Some TicTacToe.X; Some TicTacToe.X; Some TicTacToe.X;
     Some TicTacToe.O; Some TicTacToe.O; None;
     None; None; None];
  TicTacToe.current_turn := 11; TicTacToe.winner := Some 10;
  TicTacToe.game_over := true
|}.











(** * Properties *)

Lemma identity_random_laws : RandomLaws identity_random.
Proof.
  split; simpl; intros.
  - reflexivity.
  - lia.
  - assumption.
Qed.

Lemma reverse_random_laws : RandomLaws reverse_random.
Proof.
  split; simpl; intros.
  - apply reverse_Permutation.
  - lia.
  - assumption.
Qed.

(** ** Products with a float *)

(** An integer of at most 53 bits is its own double. *)
Lemma round53_small (a : Z) : Z.abs a < 2 ^ 53 -> round53 a = a.
Proof.
  intros Ha. unfold round53.
  assert (Z.log2 (Z.abs a) + 1 <= 53) as Hbits.
  { destruct (decide (Z.abs a = 0)) as [->|Hpos]; [simpl; lia|].
    assert (Z.log2 (Z.abs a) < 53); [|lia].
    apply Z.log2_lt_pow2; lia. }
  by destruct (Z.leb_spec (Z.log2 (Z.abs a) + 1) 53); [|lia].
Qed.

Lemma round53_nonneg (a : Z) : 0 <= a -> 0 <= round53 a.
Proof.
  intros Ha. unfold round53.
  destruct (Z.log2 (Z.abs a) + 1 <=? 53); [exact Ha|].
  apply Z.mul_nonneg_nonneg; [lia|].
  apply Z.shiftl_nonneg.
  assert (0 <= Z.shiftr (Z.abs a) (Z.log2 (Z.abs a) + 1 - 53))
    by (apply Z.shiftr_nonneg; lia).
  destruct (_ || _); lia.
Qed.

(** Below 2^50 the products the bot computes are exact. *)
Lemma int_times_float_exact (n twice_c : Z) :
  Z.abs n < 2 ^ 50 -> 0 <= twice_c <= 8 ->
  int_times_float n twice_c = Ok (Z.quot (twice_c * n) 2).
Proof.
  intros Hn Hc. unfold int_times_float, float_of_int.
  assert (2 ^ 50 < 2 ^ 53 /\ 2 ^ 53 < 2 ^ 1024) as [H50 H53]
    by (split; apply Z.pow_lt_mono_r; lia).
  assert (2 ^ 1024 < 2 ^ 1025) as H1024 by (apply Z.pow_lt_mono_r; lia).
  assert (2 ^ 53 = 8 * 2 ^ 50) as H8 by reflexivity.
  rewrite round53_small by lia.
  destruct (Z.leb_spec (2 ^ 1024) (Z.abs n)) as [?|_]; [lia|]. cbn [mbind exc_bind].
  assert (Z.abs (twice_c * n) < 2 ^ 53) as Hprod by (rewrite Z.abs_mul; nia).
  rewrite round53_small by exact Hprod.
  by destruct (Z.leb_spec (2 ^ 1025) (Z.abs (twice_c * n))) as [?|_]; [lia|].
Qed.

(** Beyond 53 bits they are rounded as doubles are: [int(bet * 1.5)] of a
    roll of 51..70, [int(bet * 2.5)] and [int(score * 10 * 1.0)] differ
    from the exact quotient, and an operand too large for a double
    raises OverflowError. *)
Lemma int_times_float_rounds :
  Economy.payout 3002399751580333 60 = Ok 4503599627370500
  /\ Z.quot (3 * 3002399751580333) 2 = 4503599627370499
  /\ int_times_float (2 ^ 53 + 3) 5 = Ok 22517998136852488
  /\ int_times_float ((2 ^ 53 + 1) * 10) 2 = Ok 90071992547409936
  /\ int_times_float (10 ^ 400) 3 = Raise OverflowError.
Proof. by vm_compute. Qed.

(** A product of numbers that are not negative is not negative. *)
Lemma int_times_float_nonneg (n twice_c v : Z) :
  0 <= n -> 0 <= twice_c -> int_times_float n twice_c = Ok v -> 0 <= v.
Proof.
  intros Hn Hc. unfold int_times_float, float_of_int.
  pose proof (round53_nonneg n Hn) as Hf.
  destruct (2 ^ 1024 <=? Z.abs (round53 n)); [done|]. cbn [mbind exc_bind].
  pose proof (round53_nonneg (twice_c * round53 n) ltac:(nia)) as Hp.
  destruct (2 ^ 1025 <=? _); [done|]. intros [= <-].
  apply Z.quot_pos; lia.
Qed.

(** ** The ledger *)

Ltac key_listed :=
  repeat first [apply list_elem_of_here | apply list_elem_of_further].

Lemma dict_get_loaded (data : gmap string json) (key : string) :
  key ∈ ["balance"; "last_daily"; "daily_streak"] ->
  dict_get (if dict_not data then Economy.fresh else data) key (VInt 0)
  = dict_get data key (VInt 0).
Proof.
  intros Hkey. unfold dict_not. case_bool_decide as Hd; [|reflexivity].
  subst data. unfold dict_get. rewrite lookup_empty. simpl.
  set_unfold. destruct Hkey as [->|[->|[->|[]]]]; reflexivity.
Qed.

Lemma dict_not_item (data : gmap string json) (key : string) (v : json) :
  data !! key = Some v -> dict_not data = false.
Proof.
  intros Hv. unfold dict_not. case_bool_decide as Hd; [|reflexivity].
  subst data. by rewrite lookup_empty in Hv.
Qed.

Lemma get_update_economy_data (db : gmap (Z * Z) (gmap string json))
    (user guild : Z) (data : gmap string json) :
  DatabaseManager.get_economy_data
    (DatabaseManager.update_economy_data db user guild data) user guild = data.
Proof.
  unfold DatabaseManager.get_economy_data, DatabaseManager.update_economy_data.
  by rewrite lookup_insert_eq.
Qed.

(** What the body of [remove_balance] computes on a record with an
    integer balance. *)
Lemma remove_balance_body_int (db : gmap (Z * Z) (gmap string json))
    (user guild amount b : Z) :
  dict_get (DatabaseManager.get_economy_data db user guild) "balance" (VInt 0) = VInt b ->
  Economy.remove_balance_body db user guild amount
  = Ok (DatabaseManager.update_economy_data db user guild
          (<["balance" := VInt (Z.max 0 (b - amount))]>
             (if dict_not (DatabaseManager.get_economy_data db user guild)
              then Economy.fresh
              else DatabaseManager.get_economy_data db user guild))).
Proof.
  intros Hb. unfold Economy.remove_balance_body.
  rewrite dict_get_loaded by key_listed. rewrite Hb. reflexivity.
Qed.

Lemma remove_currency_int (db : gmap (Z * Z) (gmap string json))
    (user guild amount b : Z) :
  DatabaseManager.get_economy_data db user guild !! "balance" = Some (VInt b) ->
  DatabaseManager.remove_currency db user guild amount
  = Ok (Z.max 0 (b - amount),
        DatabaseManager.update_economy_data db user guild
          (<["balance" := VInt (Z.max 0 (b - amount))]>
             (DatabaseManager.get_economy_data db user guild))).
Proof.
  intros Hb. unfold DatabaseManager.remove_currency.
  rewrite (dict_not_item _ _ _ Hb). unfold dict_item. rewrite Hb. reflexivity.
Qed.

(** ** The wiring *)

(** No cog is registered as "Utils", so the lookup every economy
    function starts with finds no database manager, whatever ledger
    [DatabaseCog] holds. *)
Lemma no_utils_cog (db : gmap (Z * Z) (gmap string json)) :
  db_manager (repo_bot db) = None.
Proof. reflexivity. Qed.

(** C1 (as the code has it).  [Economy.remove_balance] never compares
    the amount with the balance.  As the repository registers its cogs
    it finds no database manager and returns [False] without storing
    anything, for every amount.  Handed a database manager it returns
    [True] and stores [max(0, balance - amount)], 0 for a debit above
    the balance.  [DatabaseManager.remove_currency] does not refuse
    either: it stores and returns [max(0, balance - amount)], 0 for a
    debit above the balance. *)
Theorem debit_above_balance_clamps (db : gmap (Z * Z) (gmap string json))
    (user guild amount b : Z) :
  DatabaseManager.get_economy_data db user guild !! "balance" = Some (VInt b) ->
  b < amount ->
  (forall any_amount,
     Economy.remove_balance (db_manager (repo_bot db)) user guild any_amount
     = (false, None))
  /\ exists db',
       Economy.remove_balance (Some db) user guild amount = (true, Some db')
       /\ DatabaseManager.remove_currency db user guild amount = Ok (0, db')
       /\ DatabaseManager.get_economy_data db' user guild !! "balance" = Some (VInt 0).
Proof.
  intros Hb Hlt. split; [reflexivity|].
  assert (Z.max 0 (b - amount) = 0) as Hmax by lia.
  eexists. split; [|split].
  - unfold Economy.remove_balance.
    rewrite (remove_balance_body_int db user guild amount b).
    + rewrite (dict_not_item _ _ _ Hb), Hmax. reflexivity.
    + unfold dict_get. by rewrite Hb.
  - rewrite (remove_currency_int db user guild amount b Hb), Hmax. reflexivity.
  - rewrite get_update_economy_data. apply lookup_insert_eq.
Qed.

Lemma debit_above_balance_clamps_witness :
  (forall any_amount,
     Economy.remove_balance (db_manager (repo_bot ledger50)) 7 1 any_amount
     = (false, None))
  /\ exists db',
       Economy.remove_balance (Some ledger50) 7 1 100 = (true, Some db')
       /\ DatabaseManager.remove_currency ledger50 7 1 100 = Ok (0, db')
       /\ DatabaseManager.get_economy_data db' 7 1 !! "balance" = Some (VInt 0).
Proof.
  apply (debit_above_balance_clamps ledger50 7 1 100 50).
  - reflexivity.
  - lia.
Defined.

(** C1 fails on the code: [DatabaseManager.remove_currency] asked to
    debit 100 from the balance of 50 does not fail and does not leave
    the balance at 50: it returns the new balance 0 and stores it. *)
Lemma debit_100_from_50 :
  DatabaseManager.get_economy_data ledger50 7 1 !! "balance" = Some (VInt 50)
  /\ exists db',
       DatabaseManager.remove_currency ledger50 7 1 100 = Ok (0, db')
       /\ DatabaseManager.get_economy_data db' 7 1 !! "balance" = Some (VInt 0).
Proof.
  assert (DatabaseManager.get_economy_data ledger50 7 1 !! "balance" = Some (VInt 50))
    as Hb by reflexivity.
  split; [exact Hb|].
  rewrite (remove_currency_int ledger50 7 1 100 50 Hb).
  eexists. split; [reflexivity|].
  rewrite get_update_economy_data. apply lookup_insert_eq.
Qed.

(** ** The daily reward *)

(** [daily] on a record with integer fields, when the claim is due. *)
Lemma daily_due (R : Random) (db : gmap (Z * Z) (gmap string json))
    (user guild now last streak balance : Z) (g : rng) :
  let data := DatabaseManager.get_economy_data db user guild in
  dict_get data "last_daily" (VInt 0) = VInt last ->
  dict_get data "daily_streak" (VInt 0) = VInt streak ->
  dict_get data "balance" (VInt 0) = VInt balance ->
  86400 <= now - last ->
  let base := (rnd_randint 100 200 g).1 in
  let continued := now - last <? 172800 in
  let streak' := if continued then streak + 1 else 1 in
  let bonus := if continued then (streak + 1) * 50 else 0 in
  Economy.daily (Some db) user guild now g
  = (Economy.Claimed base bonus (base + bonus) streak',
     Some (DatabaseManager.update_economy_data db user guild
             (<["daily_streak" := VInt streak']>
                (<["last_daily" := VInt now]>
                   (<["balance" := VInt (balance + (base + bonus))]>
                      (if dict_not data then Economy.fresh else data))))),
     (rnd_randint 100 200 g).2).
Proof.
  intros data Hlast Hstreak Hbal Hdue base continued streak' bonus.
  unfold Economy.daily, Economy.daily_body. fold data.
  rewrite !dict_get_loaded by key_listed.
  rewrite Hlast, Hstreak, Hbal. cbn [as_int].
  unfold Economy.daily_cooldown, Economy.daily_min, Economy.daily_max,
    Economy.daily_streak_bonus.
  destruct (Z.ltb_spec (now - last) 86400) as [?|_]; [lia|].
  change (86400 * 2) with 172800. fold continued.
  subst streak' bonus base.
  destruct (rnd_randint 100 200 g) as [base g'] eqn:Hdraw.
  by destruct continued.
Qed.




(** Handed a database manager, a claim where the streak is reset is
    paid the draw alone: a first claim at t = 200000 stores streak 1 and
    credits 100, not the draw plus 1 * 50. *)
Lemma daily_reset_pays_no_bonus :
  dict_get (DatabaseManager.get_economy_data ∅ 7 1) "last_daily" (VInt 0) = VInt 0
  /\ 172800 <= 200000 - 0
  /\ exists db',
       Economy.daily (R := identity_random) (Some ∅) 7 1 200000 tt
       = (Economy.Claimed 100 0 100 1, Some db', tt)
       /\ DatabaseManager.get_economy_data db' 7 1 !! "daily_streak" = Some (VInt 1)
       /\ DatabaseManager.get_economy_data db' 7 1 !! "balance" = Some (VInt 100)
       /\ 100 <> 100 + 1 * 50.
Proof.
  split; [reflexivity|]. split; [lia|].
  eexists. split; [reflexivity|].
  rewrite get_update_economy_data. repeat split; try lia; by simplify_map_eq.
Qed.

(** The example of the spec read literally, with a database manager: on
    a fresh record a claim at t = 0 is refused as too soon, and the
    claim at t = 90000 then stores streak 1 with a bonus of 50. *)
Lemma daily_from_time_zero :
  Economy.daily (R := identity_random) (Some ∅) 7 1 0 tt
  = (Economy.NotAvailable 86400 None, Some ∅, tt)
  /\ exists db',
       Economy.daily (R := identity_random) (Some ∅) 7 1 90000 tt
       = (Economy.Claimed 100 50 150 1, Some db', tt).
Proof.
  split; [reflexivity|]. eexists. reflexivity.
Qed.

(** ** Blackjack: hand values *)

(** The ace loop stops at the first count [k] of converted aces for
    which the total is at most 21, or when no ace is left. *)
Lemma adjust_aces_spec (aces : nat) (v : Z) :
  exists k : nat,
    (k <= aces)%nat
    /\ Blackjack.adjust_aces aces v = v - 10 * Z.of_nat k
    /\ (forall j : nat, (j < k)%nat -> 21 < v - 10 * Z.of_nat j)
    /\ (k = aces \/ v - 10 * Z.of_nat k <= 21).
Proof.
  revert v. induction aces as [|aces IH]; intros v; simpl.
  - exists 0%nat. repeat split; [lia | lia | intros; lia | by left].
  - destruct (Z.ltb_spec 21 v) as [Hbust|Hfine].
    + destruct (IH (v - 10)) as (k & Hk & Heq & Hbefore & Hstop).
      exists (S k). repeat split.
      * lia.
      * rewrite Heq. lia.
      * intros [|j] Hj; [lia|].
        specialize (Hbefore j ltac:(lia)). lia.
      * destruct Hstop as [->|Hstop]; [by left | right; lia].
    + exists 0%nat. repeat split; [lia | lia | intros; lia | right; lia].
Qed.

(** C5.  A hand is worth the sum of its cards with faces as 10 and aces
    as 11, less 10 for each of [k] converted aces, where the loop
    converts one ace per pass while the total exceeds 21 and an ace
    counted as 11 is left; so a returned value above 21 has every ace
    counted as 1. *)
Theorem get_hand_value_spec (hand : list Blackjack.Card) :
  let raw := Blackjack.sum (Blackjack.blackjack_value <$> hand) in
  let aces := length (filter (fun c => Blackjack.value c = 1) hand) in
  (forall c, Blackjack.blackjack_value c
             = if Blackjack.value c =? 1 then 11
               else if 10 <=? Blackjack.value c then 10
               else Blackjack.value c)
  /\ exists k : nat,
       (k <= aces)%nat
       /\ Blackjack.get_hand_value hand = raw - 10 * Z.of_nat k
       /\ (forall j : nat, (j < k)%nat -> 21 < raw - 10 * Z.of_nat j)
       /\ (k = aces \/ Blackjack.get_hand_value hand <= 21)
       /\ (21 < Blackjack.get_hand_value hand -> k = aces).
Proof.
  intros raw aces. split; [reflexivity|].
  destruct (adjust_aces_spec aces raw) as (k & Hk & Heq & Hbefore & Hstop).
  exists k. unfold Blackjack.get_hand_value. fold raw aces.
  rewrite Heq. repeat split; try assumption.
  destruct Hstop as [->|Hstop]; [reflexivity | lia].
Qed.

(** ** Blackjack: the deck *)

Lemma list_pop_snoc {A : Type} (l : list A) (x : A) :
  list_pop (l ++ [x]) = Ok (x, l).
Proof.
  unfold list_pop. rewrite reverse_snoc. by rewrite reverse_involutive.
Qed.

Lemma list_pop_cons {A : Type} (x : A) (l : list A) :
  exists (y : A) (l' : list A), x :: l = l' ++ [y] /\ list_pop (x :: l) = Ok (y, l').
Proof.
  destruct (reverse (x :: l)) as [|y r] eqn:Hr.
  - apply (f_equal length) in Hr. rewrite length_reverse in Hr. discriminate.
  - exists y, (reverse r). assert (x :: l = reverse r ++ [y]) as Hl.
    { rewrite <- (reverse_involutive (x :: l)), Hr. apply reverse_cons. }
    split; [exact Hl|]. rewrite Hl. apply list_pop_snoc.
Qed.

Lemma build_length : length Blackjack.build = 52%nat.
Proof. reflexivity. Qed.

(** [Deck.deal] never raises: on an empty deck it pops from a shuffled
    fresh deck of 52, otherwise it pops the last card. *)
Lemma deal_spec (R : Random) (laws : RandomLaws R)
    (cards : list Blackjack.Card) (g : rng) :
  exists (c : Blackjack.Card) (cards' : list Blackjack.Card) (g' : rng),
    Blackjack.deal cards g = Ok (c, cards', g')
    /\ match cards with
       | [] => cards' ++ [c] = (rnd_shuffle Blackjack.build g).1
               /\ g' = (rnd_shuffle Blackjack.build g).2
       | _ :: _ => cards' ++ [c] = cards /\ g' = g
       end.
Proof.
  unfold Blackjack.deal. destruct cards as [|c0 cards].
  - destruct (rnd_shuffle Blackjack.build g) as [fresh g'] eqn:Hs.
    assert (length fresh = 52%nat) as Hlen.
    { rewrite <- build_length. apply Permutation_length.
      pose proof (rnd_shuffle_perm _ Blackjack.build g) as Hp.
      by rewrite Hs in Hp. }
    destruct fresh as [|c1 fresh]; [discriminate|].
    destruct (list_pop_cons c1 fresh) as (y & l' & Hl & Hpop).
    rewrite Hpop. simpl. exists y, l', g'. by rewrite Hl.
  - destruct (list_pop_cons c0 cards) as (y & l' & Hl & Hpop).
    rewrite Hpop. simpl. exists y, l', g. by rewrite Hl.
Qed.

Lemma dealer_draw_no_raise (R : Random) (laws : RandomLaws R) (fuel : nat)
    (cards hand : list Blackjack.Card) (g : rng) (e : exn) :
  Blackjack.dealer_draw fuel cards hand g <> Some (Raise e).
Proof.
  revert cards hand g. induction fuel as [|fuel IH]; intros cards hand g; simpl.
  - by destruct (_ <? 17).
  - destruct (_ <? 17); [|done].
    destruct (deal_spec R laws cards g) as (c & cards' & g' & -> & _). apply IH.
Qed.

(** C10.  [Deck.deal] is total: every deck state yields a card.  An
    empty deck is first rebuilt as a shuffled deck of all 52 cards, so a
    hit or a dealer draw never fails, and every card of the pack, also
    one held in a hand, is in the rebuilt deck and can be dealt again. *)
Theorem deal_total (R : Random) (cards : list Blackjack.Card) (g : rng) :
  RandomLaws R ->
  (exists (c : Blackjack.Card) (cards' : list Blackjack.Card) (g' : rng),
     Blackjack.deal cards g = Ok (c, cards', g')
     /\ match cards with
        | [] =>
            cards' ++ [c] = (rnd_shuffle Blackjack.build g).1
            /\ g' = (rnd_shuffle Blackjack.build g).2
            /\ cards' ++ [c] ≡ₚ Blackjack.build
            /\ length (cards' ++ [c]) = 52%nat
            /\ (forall held, held ∈ Blackjack.build -> held ∈ cards' ++ [c])
        | _ :: _ => cards' ++ [c] = cards /\ g' = g
        end)
  /\ (forall game : Blackjack.BlackjackGame,
        exists r, Blackjack.player_hit game g = Ok r)
  /\ (forall (fuel : nat) (hand : list Blackjack.Card) (e : exn),
        Blackjack.dealer_draw fuel cards hand g <> Some (Raise e)).
Proof.
  intros laws. split; [|split].
  - destruct (deal_spec R laws cards g) as (c & cards' & g' & Hdeal & Hshape).
    exists c, cards', g'. split; [exact Hdeal|].
    destruct cards as [|c0 cards]; [|exact Hshape].
    destruct Hshape as [Hfresh ->].
    pose proof (rnd_shuffle_perm _ Blackjack.build g) as Hperm.
    rewrite <- Hfresh in Hperm.
    repeat split; try assumption.
    + rewrite <- build_length. by apply Permutation_length.
    + intros held Hheld. by rewrite Hperm.
  - intros game. unfold Blackjack.player_hit.
    destruct (_ || _); [by eexists|].
    destruct (deal_spec R laws (Blackjack.deck game) g) as (c & cards' & g' & -> & _).
    by eexists.
  - intros fuel hand e. by apply dealer_draw_no_raise.
Qed.

Lemma deal_total_witness :
  (exists (c : Blackjack.Card) (cards' : list Blackjack.Card) (g' : unit),
     Blackjack.deal (R := identity_random) [] tt = Ok (c, cards', g')
     /\ cards' ++ [c] = Blackjack.build
     /\ g' = tt
     /\ cards' ++ [c] ≡ₚ Blackjack.build
     /\ length (cards' ++ [c]) = 52%nat
     /\ (forall held, held ∈ Blackjack.build -> held ∈ cards' ++ [c]))
  /\ (forall game : Blackjack.BlackjackGame,
        exists r, Blackjack.player_hit (R := identity_random) game tt = Ok r)
  /\ (forall (fuel : nat) (hand : list Blackjack.Card) (e : exn),
        Blackjack.dealer_draw (R := identity_random) fuel [] hand tt <> Some (Raise e)).
Proof.
  exact (deal_total identity_random [] tt identity_random_laws).
Defined.

(** A hand holding the king of spades hits on an exhausted deck: the
    rebuilt deck deals the king of spades again. *)
Lemma rebuild_deals_held_card_again :
  let king := {| Blackjack.suit := Blackjack.spades; Blackjack.value := 13 |} in
  let game :=
    {| Blackjack.player := 7; Blackjack.bet := 10; Blackjack.deck := [];
       Blackjack.player_hand := [king]; Blackjack.dealer_hand := [];
       Blackjack.player_stood := false; Blackjack.game_over := false;
       Blackjack.result := None |} in
  exists game',
    Blackjack.player_hit (R := identity_random) game tt = Ok (true, game', tt)
    /\ Blackjack.player_hand game' = [king; king].
Proof.
  eexists. split; reflexivity.
Qed.

(** ** Word-Scramble *)

Lemma shuffle_loop_perm (R : Random) (laws : RandomLaws R) (n : nat)
    (word : string) (word_list : list Ascii.ascii) (g : rng) :
  (WordScramble.shuffle_loop n word word_list g).1 ≡ₚ word_list.
Proof.
  revert word_list g. induction n as [|n IH]; intros word_list g; simpl.
  - reflexivity.
  - case_bool_decide; [|reflexivity].
    pose proof (rnd_shuffle_perm _ word_list g) as Hp.
    destruct (rnd_shuffle word_list g) as [l g']. simpl in Hp.
    rewrite IH. exact Hp.
Qed.

(** The loop leaves an arrangement that differs from the word alone. *)
Lemma shuffle_loop_done (R : Random) (n : nat) (word : string)
    (word_list : list Ascii.ascii) (g : rng) :
  String.string_of_list_ascii word_list <> word ->
  WordScramble.shuffle_loop n word word_list g = (word_list, g).
Proof.
  intros Hne. destruct n as [|n]; simpl; [reflexivity|].
  by case_bool_decide.
Qed.

Lemma string_of_list_ascii_inj (l1 l2 : list Ascii.ascii) :
  String.string_of_list_ascii l1 = String.string_of_list_ascii l2 -> l1 = l2.
Proof.
  intros Heq. apply (f_equal String.list_ascii_of_string) in Heq.
  by rewrite !String.list_ascii_of_string_of_list_ascii in Heq.
Qed.

(** A result equal to the word means that every one of the [n] shuffles
    gave back the arrangement it was given. *)
Lemma shuffle_loop_collides (R : Random) (n : nat) (word : string) (g : rng) :
  let word_list := String.list_ascii_of_string word in
  let next := fun g => (rnd_shuffle word_list g).2 in
  String.string_of_list_ascii (WordScramble.shuffle_loop n word word_list g).1 = word ->
  forall k : nat, (k < n)%nat -> (rnd_shuffle word_list (Nat.iter k next g)).1 = word_list.
Proof.
  intros word_list next. revert g. induction n as [|n IH]; intros g Hres k Hk; [lia|].
  simpl in Hres. rewrite bool_decide_eq_true_2 in Hres
    by apply String.string_of_list_ascii_of_string.
  destruct (rnd_shuffle word_list g) as [l g'] eqn:Hs.
  destruct (decide (l = word_list)) as [->|Hdiff].
  - destruct k as [|k]; [simpl; by rewrite Hs|].
    rewrite Nat.iter_succ_r. unfold next at 2. rewrite Hs. simpl.
    apply IH; [exact Hres | lia].
  - exfalso. rewrite shuffle_loop_done in Hres.
    + simpl in Hres. apply Hdiff, string_of_list_ascii_inj. unfold word_list.
      by rewrite Hres, String.string_of_list_ascii_of_string.
    + intros Heq. apply Hdiff, string_of_list_ascii_inj. unfold word_list.
      by rewrite Heq, String.string_of_list_ascii_of_string.
Qed.

(** C9 (as the code has it).  The scramble is a permutation of the
    characters of the word.  For a word longer than 3 it is the word
    itself only when each of the ten shuffles gave back the arrangement
    it was given; then the original word is returned. *)
Theorem scramble_word_spec (R : Random) (word : string) (g : rng) :
  RandomLaws R ->
  String.list_ascii_of_string (WordScramble.scramble_word word g).1
    ≡ₚ String.list_ascii_of_string word
  /\ ((3 < String.length word)%nat ->
      (WordScramble.scramble_word word g).1 = word ->
      forall k : nat, (k < 10)%nat ->
        (rnd_shuffle (String.list_ascii_of_string word)
           (Nat.iter k (fun g => (rnd_shuffle (String.list_ascii_of_string word) g).2) g)).1
        = String.list_ascii_of_string word).
Proof.
  intros laws. unfold WordScramble.scramble_word.
  destruct (Nat.leb_spec (String.length word) 3) as [Hshort|Hlong].
  - simpl. rewrite String.list_ascii_of_string_of_list_ascii.
    split; [apply reverse_Permutation | intros ?; lia].
  - pose proof (shuffle_loop_perm R laws 10 word (String.list_ascii_of_string word) g) as Hp.
    pose proof (shuffle_loop_collides R 10 word g) as Hc. cbv zeta in Hc.
    destruct (WordScramble.shuffle_loop 10 word _ g) as [l g'].
    cbn [fst] in *. rewrite String.list_ascii_of_string_of_list_ascii.
    split; [exact Hp|]. intros _ Hsame. by apply Hc.
Qed.

Lemma scramble_word_spec_witness :
  String.list_ascii_of_string (WordScramble.scramble_word (R := reverse_random) "game" tt).1
    ≡ₚ String.list_ascii_of_string "game"
  /\ ((3 < String.length "game")%nat ->
      (WordScramble.scramble_word (R := reverse_random) "game" tt).1 = "game" ->
      forall k : nat, (k < 10)%nat ->
        (rnd_shuffle (Random := reverse_random) (String.list_ascii_of_string "game")
           (Nat.iter k
              (fun g => (rnd_shuffle (Random := reverse_random)
                           (String.list_ascii_of_string "game") g).2) tt)).1
        = String.list_ascii_of_string "game").
Proof.
  exact (scramble_word_spec reverse_random "game" tt reverse_random_laws).
Defined.

(** The reversing generator does scramble the word. *)
Lemma scramble_game :
  (WordScramble.scramble_word (R := reverse_random) "game" tt).1 = "emag".
Proof. reflexivity. Qed.

(** No generator can scramble a word of four equal letters. *)
Lemma equal_letters_stay (R : Random) (laws : RandomLaws R) (g : rng) :
  (WordScramble.scramble_word "aaaa" g).1 = "aaaa".
Proof.
  pose proof (shuffle_loop_perm R laws 10 "aaaa" (String.list_ascii_of_string "aaaa") g) as Hp.
  unfold WordScramble.scramble_word.
  change (String.length "aaaa" <=? 3)%nat with false. cbv iota.
  destruct (WordScramble.shuffle_loop 10 "aaaa" _ g) as [l g']. cbn [fst] in *.
  change (String.list_ascii_of_string "aaaa") with (replicate 4 "a"%char) in Hp.
  assert (Forall (fun c => c = "a"%char) l) as Hall.
  { rewrite Hp. repeat constructor. }
  apply Permutation_length in Hp. simpl in Hp.
  do 5 (destruct l as [|? l]; try discriminate).
  repeat match goal with H : Forall _ (_ :: _) |- _ => inversion H; clear H; subst end.
  reflexivity.
Qed.

(** C9 fails on the code: the word "aaaa" has length 4 and its scramble
    is "aaaa". *)
Lemma scramble_aaaa :
  (3 < String.length "aaaa")%nat
  /\ (WordScramble.scramble_word (R := identity_random) "aaaa" tt).1 = "aaaa".
Proof. split; [simpl; lia | reflexivity]. Qed.

(** ** Snake *)

(** [empty_positions] lists exactly the cells of the grid that are not
    in the snake. *)
Lemma elem_of_empty_positions (width height : Z) (snake : list (Z * Z)) (p : Z * Z) :
  p ∈ Snake.empty_positions width height snake
  <-> 0 <= p.1 < width /\ 0 <= p.2 < height /\ p ∉ snake.
Proof.
  unfold Snake.empty_positions. destruct p as [px py]. simpl.
  rewrite list_elem_of_bind. split.
  - intros (y & Hin & Hy). apply elem_of_seqZ in Hy.
    apply list_elem_of_bind in Hin as (x & Hin & Hx). apply elem_of_seqZ in Hx.
    case_bool_decide as Hs; [by apply not_elem_of_nil in Hin|].
    apply list_elem_of_singleton in Hin. inversion Hin; subst. repeat split; try lia. done.
  - intros (Hx & Hy & Hs). exists py. split; [|apply elem_of_seqZ; lia].
    apply list_elem_of_bind. exists px. split; [|apply elem_of_seqZ; lia].
    rewrite bool_decide_eq_false_2 by done. apply list_elem_of_here.
Qed.

(** The result of [move] when the game is running. *)
Lemma move_running (R : Random) (game : Snake.SnakeGame) (g : rng)
    (head_x head_y : Z) (tail : list (Z * Z)) :
  Snake.game_over game = false ->
  Snake.snake game = (head_x, head_y) :: tail ->
  0 < Snake.width game -> 0 < Snake.height game ->
  let new_head :=
    ((head_x + (Snake.next_direction game).1) `mod` Snake.width game,
     (head_y + (Snake.next_direction game).2) `mod` Snake.height game) in
  Snake.move game g
  = if bool_decide (new_head ∈ Snake.snake game) then
      Ok (false,
          {| Snake.width := Snake.width game; Snake.height := Snake.height game;
             Snake.snake := Snake.snake game;
             Snake.direction := Snake.next_direction game;
             Snake.next_direction := Snake.next_direction game;
             Snake.score := Snake.score game; Snake.food := Snake.food game;
             Snake.game_over := true |}, g)
    else if bool_decide (Some new_head = Snake.food game) then
      '(game, g) ←
        Snake.place_food
          {| Snake.width := Snake.width game; Snake.height := Snake.height game;
             Snake.snake := new_head :: Snake.snake game;
             Snake.direction := Snake.next_direction game;
             Snake.next_direction := Snake.next_direction game;
             Snake.score := Snake.score game + 1; Snake.food := None;
             Snake.game_over := Snake.game_over game |} g;
      Ok (true, game, g)
    else
      '(_, body) ← list_pop (new_head :: Snake.snake game);
      Ok (true,
          {| Snake.width := Snake.width game; Snake.height := Snake.height game;
             Snake.snake := body;
             Snake.direction := Snake.next_direction game;
             Snake.next_direction := Snake.next_direction game;
             Snake.score := Snake.score game; Snake.food := Snake.food game;
             Snake.game_over := Snake.game_over game |}, g).
Proof.
  intros Hrun Hsnake Hw Hh new_head. unfold Snake.move.
  rewrite Hrun, Hsnake. destruct (Snake.next_direction game) as [dx dy] eqn:Hdir.
  unfold Snake.py_mod.
  destruct (Z.eqb_spec (Snake.width game) 0) as [?|_]; [lia|].
  destruct (Z.eqb_spec (Snake.height game) 0) as [?|_]; [lia|].
  reflexivity.
Qed.

Lemma NoDup_empty_positions (width height : Z) (snake : list (Z * Z)) :
  NoDup (Snake.empty_positions width height snake).
Proof.
  unfold Snake.empty_positions.
  assert (forall (y x : Z) (p : Z * Z),
            p ∈ (if bool_decide ((x, y) ∈ snake) then [] else [(x, y)]) -> p = (x, y))
    as Hcell.
  { intros y x p Hp. case_bool_decide; [by apply not_elem_of_nil in Hp|].
    by apply list_elem_of_singleton in Hp. }
  apply NoDup_bind; [| |apply NoDup_seqZ].
  - intros y1 y2 p _ _ (x1 & Hp1 & _)%list_elem_of_bind (x2 & Hp2 & _)%list_elem_of_bind.
    apply Hcell in Hp1, Hp2. congruence.
  - intros y _. apply NoDup_bind; [| |apply NoDup_seqZ].
    + intros x1 x2 p _ _ Hp1 Hp2. apply Hcell in Hp1, Hp2. congruence.
    + intros x _. case_bool_decide; [constructor | apply NoDup_singleton].
Qed.

Ltac unpack :=
  repeat first
    [ match goal with
      | |- _ /\ _ => split
      | |- _ -> _ => intros ?
      | |- let _ := _ in _ => intros ?
      end ].

(** C8.  On a running game the new head is the old head plus the
    direction, reduced modulo the width and the height, so it lies on
    the grid, and a step to the right from the last column lands in
    column 0.  A new head inside the snake ends the game.  Otherwise
    the head is prepended, and either it is on the food, the score goes
    up by one and the food is [random.choice] of the list of the cells
    that are on the grid and not in the snake, each listed once (no food
    when that list is empty), or the last cell of the snake is dropped. *)
Theorem move_spec (R : Random) (game : Snake.SnakeGame) (g : rng)
    (head_x head_y : Z) (tail : list (Z * Z)) :
  RandomLaws R ->
  Snake.game_over game = false ->
  Snake.snake game = (head_x, head_y) :: tail ->
  0 < Snake.width game -> 0 < Snake.height game ->
  let dx := (Snake.next_direction game).1 in
  let dy := (Snake.next_direction game).2 in
  let new_head :=
    ((head_x + dx) `mod` Snake.width game, (head_y + dy) `mod` Snake.height game) in
  (0 <= new_head.1 < Snake.width game /\ 0 <= new_head.2 < Snake.height game)
  /\ (head_x = Snake.width game - 1 -> dx = 1 -> new_head.1 = 0)
  /\ exists (moved : bool) (game' : Snake.SnakeGame) (g' : rng),
       Snake.move game g = Ok (moved, game', g')
       /\ Snake.width game' = Snake.width game
       /\ Snake.height game' = Snake.height game
       /\ (new_head ∈ Snake.snake game ->
           moved = false /\ Snake.game_over game' = true
           /\ Snake.snake game' = Snake.snake game
           /\ Snake.score game' = Snake.score game
           /\ Snake.food game' = Snake.food game /\ g' = g)
       /\ (new_head ∉ Snake.snake game -> Some new_head = Snake.food game ->
           let cells :=
             Snake.empty_positions (Snake.width game) (Snake.height game)
               (new_head :: Snake.snake game) in
           moved = true /\ Snake.game_over game' = false
           /\ Snake.snake game' = new_head :: Snake.snake game
           /\ Snake.score game' = Snake.score game + 1
           /\ NoDup cells
           /\ (forall p, p ∈ cells <->
                 0 <= p.1 < Snake.width game /\ 0 <= p.2 < Snake.height game
                 /\ p ∉ new_head :: Snake.snake game)
           /\ (cells = [] -> Snake.food game' = None /\ g' = g)
           /\ (cells <> [] ->
               Snake.food game' = cells !! (rnd_randbelow (length cells) g).1
               /\ (exists p, Snake.food game' = Some p /\ p ∈ cells)
               /\ g' = (rnd_randbelow (length cells) g).2))
       /\ (new_head ∉ Snake.snake game -> Some new_head <> Snake.food game ->
           moved = true /\ Snake.game_over game' = false
           /\ (exists last, Snake.snake game' ++ [last] = new_head :: Snake.snake game)
           /\ Snake.score game' = Snake.score game
           /\ Snake.food game' = Snake.food game /\ g' = g).
Proof.
  intros laws Hrun Hsnake Hw Hh dx dy new_head.
  split; [|split].
  - subst new_head. simpl. split; apply Z.mod_pos_bound; assumption.
  - intros -> Hdx. subst new_head. simpl. rewrite Hdx.
    replace (Snake.width game - 1 + 1) with (Snake.width game) by lia.
    apply Z.mod_same. lia.
  - rewrite (move_running R game g head_x head_y tail Hrun Hsnake Hw Hh).
    fold dx dy new_head.
    case_bool_decide as Hhit.
    { eexists _, _, _. split; [reflexivity|]. simpl. unpack; done. }
    case_bool_decide as Hfood.
    + unfold Snake.place_food. simpl.
      pose proof (NoDup_empty_positions (Snake.width game) (Snake.height game)
                    (new_head :: Snake.snake game)) as Hnodup.
      pose proof (elem_of_empty_positions (Snake.width game) (Snake.height game)
                    (new_head :: Snake.snake game)) as Hcells.
      destruct (Snake.empty_positions _ _ _) as [|cell cells] eqn:Hempty.
      * eexists _, _, _. split; [reflexivity|]. simpl.
        unpack; try done; apply Hcells.
      * unfold Snake.choice.
        pose proof (rnd_randbelow_lt (length (cell :: cells)) g ltac:(simpl; lia)) as Hlt.
        destruct (rnd_randbelow (length (cell :: cells)) g) as [i g'] eqn:Hdraw.
        simpl fst in Hlt.
        destruct (lookup_lt_is_Some_2 (cell :: cells) i Hlt) as [p Hp].
        rewrite Hp. simpl.
        eexists _, _, _. split; [reflexivity|]. simpl.
        unpack; try done; try apply Hcells.
        exists p. split; [reflexivity|]. by apply list_elem_of_lookup_2 in Hp.
    + destruct (list_pop_cons new_head (Snake.snake game)) as (last & body & Hbody & Hpop).
      rewrite Hpop. simpl.
      eexists _, _, _. split; [reflexivity|]. simpl.
      unpack; try done. by exists last.
Qed.

Lemma move_spec_witness :
  (0 <= 0 < 10 /\ 0 <= 5 < 10)
  /\ (9 = 10 - 1 -> 1 = 1 -> 0 = 0)
  /\ exists (moved : bool) (game' : Snake.SnakeGame) (g' : unit),
       Snake.move (R := identity_random) snake_at_edge tt = Ok (moved, game', g')
       /\ Snake.width game' = 10
       /\ Snake.height game' = 10
       /\ ((0, 5) ∈ [(9, 5)] ->
           moved = false /\ Snake.game_over game' = true
           /\ Snake.snake game' = [(9, 5)]
           /\ Snake.score game' = 0
           /\ Snake.food game' = Some (0, 5) /\ g' = tt)
       /\ ((0, 5) ∉ [(9, 5)] -> Some (0, 5) = Some (0, 5) ->
           let cells := Snake.empty_positions 10 10 [(0, 5); (9, 5)] in
           moved = true /\ Snake.game_over game' = false
           /\ Snake.snake game' = [(0, 5); (9, 5)]
           /\ Snake.score game' = 0 + 1
           /\ NoDup cells
           /\ (forall p, p ∈ cells <->
                 0 <= p.1 < 10 /\ 0 <= p.2 < 10 /\ p ∉ [(0, 5); (9, 5)])
           /\ (cells = [] -> Snake.food game' = None /\ g' = tt)
           /\ (cells <> [] ->
               Snake.food game' = cells !! 0%nat
               /\ (exists p, Snake.food game' = Some p /\ p ∈ cells)
               /\ g' = tt))
       /\ ((0, 5) ∉ [(9, 5)] -> Some (0, 5) <> Some (0, 5) ->
           moved = true /\ Snake.game_over game' = false
           /\ (exists last, Snake.snake game' ++ [last] = [(0, 5); (9, 5)])
           /\ Snake.score game' = 0
           /\ Snake.food game' = Some (0, 5) /\ g' = tt).
Proof.
  apply (move_spec identity_random snake_at_edge tt 9 5 [] identity_random_laws).
  - reflexivity.
  - reflexivity.
  - simpl. lia.
  - simpl. lia.
Defined.

(** The snake at the right edge steps into column 0, eats and grows. *)
Lemma snake_wraps_and_eats :
  exists game',
    Snake.move (R := identity_random) snake_at_edge tt = Ok (true, game', tt)
    /\ Snake.snake game' = [(0, 5); (9, 5)]
    /\ Snake.score game' = 1
    /\ Snake.food game' = Some (0, 0).
Proof. eexists. repeat split. Qed.

(** ** Tic-Tac-Toe: the board *)

Lemma complete_line_of (b : list (option TicTacToe.mark)) (l : nat * nat * nat) :
  TicTacToe.complete b l = true <-> exists m, TicTacToe.line_of b m l.
Proof.
  destruct l as [[i j] k]. unfold TicTacToe.complete, TicTacToe.line_of. simpl.
  split.
  - destruct (TicTacToe.cell b i) as [m|] eqn:Hi; [|done].
    rewrite andb_true_iff, !bool_decide_eq_true. intros [Hj Hk].
    exists m. split_and!; congruence.
  - intros (m & Hi & Hj & Hk). rewrite Hi, Hj, Hk.
    rewrite andb_true_iff, !bool_decide_eq_true. done.
Qed.

Lemma played_play (game game' : TicTacToe.TicTacToeGame) (moves : list (Z * Z)) :
  TicTacToe.played game -> TicTacToe.play game moves = Some game' ->
  TicTacToe.played game'.
Proof.
  revert game. induction moves as [|[position player] moves IH]; intros game Hgame; simpl.
  - by intros [= <-].
  - destruct (TicTacToe.make_move game position player) as [[] next] eqn:Hmove; [|done].
    apply IH. by eapply TicTacToe.played_move.
Qed.

(** [check_game_over] keeps the board, and a game it leaves running has
    no complete line. *)
Lemma check_game_over_board (game : TicTacToe.TicTacToeGame) :
  TicTacToe.board (TicTacToe.check_game_over game) = TicTacToe.board game.
Proof.
  unfold TicTacToe.check_game_over.
  destruct (list_find _ _) as [[? [[? ?] ?]]|]; [reflexivity|].
  by case_bool_decide.
Qed.

Lemma check_game_over_running (game : TicTacToe.TicTacToeGame) (l : nat * nat * nat) :
  TicTacToe.game_over (TicTacToe.check_game_over game) = false ->
  l ∈ TicTacToe.lines -> TicTacToe.complete (TicTacToe.board game) l = false.
Proof.
  unfold TicTacToe.check_game_over.
  destruct (list_find _ _) as [[? [[? ?] ?]]|] eqn:Hfind; [done|].
  intros _ Hl. apply list_find_None in Hfind.
  rewrite Forall_forall in Hfind. specialize (Hfind l Hl).
  by destruct (TicTacToe.complete _ l).
Qed.

(** A move that was accepted put one mark on a free cell of a running
    game. *)
Lemma make_move_accepted (game game' : TicTacToe.TicTacToeGame) (position player : Z) :
  TicTacToe.make_move game position player = (true, game') ->
  exists (m : TicTacToe.mark) (i : nat),
    TicTacToe.game_over game = false
    /\ TicTacToe.cell (TicTacToe.board game) i = None
    /\ TicTacToe.board game' = <[i := Some m]> (TicTacToe.board game)
    /\ (TicTacToe.game_over game' = false ->
        forall l, l ∈ TicTacToe.lines ->
                  TicTacToe.complete (TicTacToe.board game') l = false).
Proof.
  unfold TicTacToe.make_move.
  destruct (TicTacToe.game_over game) eqn:Hover; [done|].
  case_bool_decide; [done|]. destruct (_ || _); [done|].
  case_bool_decide as Hfree; [done|].
  intros [= <-].
  eexists _, _. split; [reflexivity|]. split; [exact Hfree|].
  split; [by rewrite check_game_over_board|].
  intros Hrun l Hl. rewrite check_game_over_board.
  by apply (check_game_over_running _ l Hrun).
Qed.

Lemma cell_insert_other (b : list (option TicTacToe.mark)) (i j : nat)
    (m m' : TicTacToe.mark) :
  m' <> m ->
  TicTacToe.cell (<[i := Some m]> b) j = Some m' -> TicTacToe.cell b j = Some m'.
Proof.
  intros Hm. unfold TicTacToe.cell. destruct (decide (i = j)) as [->|Hij].
  - destruct (decide (j < length b)%nat) as [Hlt|Hge].
    + rewrite list_lookup_insert_eq by done. simpl. congruence.
    + by rewrite list_insert_ge by lia.
  - by rewrite list_lookup_insert_ne.
Qed.

Lemma line_of_insert_other (b : list (option TicTacToe.mark)) (i : nat)
    (m m' : TicTacToe.mark) (l : nat * nat * nat) :
  m' <> m ->
  TicTacToe.line_of (<[i := Some m]> b) m' l -> TicTacToe.line_of b m' l.
Proof.
  intros Hm (H1 & H2 & H3). split_and!; by eapply cell_insert_other.
Qed.

Lemma new_game_no_line (player1 player2 bet : Z) (m : TicTacToe.mark) (l : nat * nat * nat) :
  l ∈ TicTacToe.lines ->
  ~ TicTacToe.line_of (TicTacToe.board (TicTacToe.new_game player1 player2 bet)) m l.
Proof.
  intros Hl [Hc _].
  change (TicTacToe.cell (replicate 9 None) l.1.1 = Some m) in Hc.
  assert (Forall (fun l : nat * nat * nat =>
                    TicTacToe.cell (replicate 9 None) l.1.1 = None) TicTacToe.lines)
    as Hall by (repeat constructor).
  rewrite Forall_forall in Hall. rewrite (Hall l Hl) in Hc. discriminate.
Qed.

(** While a played game is running no line is complete. *)
Lemma running_no_line (game : TicTacToe.TicTacToeGame) (m : TicTacToe.mark)
    (l : nat * nat * nat) :
  TicTacToe.played game -> TicTacToe.game_over game = false ->
  l ∈ TicTacToe.lines -> ~ TicTacToe.line_of (TicTacToe.board game) m l.
Proof.
  intros Hplayed Hrun Hl Hline. destruct Hplayed as [p1 p2 bet|game position player game' _ Hmove].
  - by eapply new_game_no_line.
  - apply make_move_accepted in Hmove as (m0 & i & _ & _ & _ & Hnone).
    specialize (Hnone Hrun l Hl).
    assert (TicTacToe.complete (TicTacToe.board game') l = true) as Hc
      by (apply complete_line_of; eauto).
    congruence.
Qed.

(** C7 (as the code has it).  After any sequence of legal moves the
    two players never both hold a complete line, and while the game is
    not over no line is complete: only the last move completes lines,
    and all of them carry the mover's mark. *)
Theorem no_two_winners (game : TicTacToe.TicTacToeGame) :
  TicTacToe.played game ->
  (forall l1 l2, l1 ∈ TicTacToe.lines -> l2 ∈ TicTacToe.lines ->
     ~ (TicTacToe.line_of (TicTacToe.board game) TicTacToe.X l1
        /\ TicTacToe.line_of (TicTacToe.board game) TicTacToe.O l2))
  /\ (TicTacToe.game_over game = false ->
      forall l m, l ∈ TicTacToe.lines -> ~ TicTacToe.line_of (TicTacToe.board game) m l).
Proof.
  intros Hplayed. split.
  - intros l1 l2 Hl1 Hl2 [HX HO].
    destruct Hplayed as [p1 p2 bet|game position player game' Hgame Hmove].
    + by eapply new_game_no_line.
    + apply make_move_accepted in Hmove as (m & i & Hrun & _ & Hboard & _).
      rewrite Hboard in HX, HO. destruct m.
      * apply (running_no_line game TicTacToe.O l2 Hgame Hrun Hl2).
        by apply (line_of_insert_other _ i TicTacToe.X).
      * apply (running_no_line game TicTacToe.X l1 Hgame Hrun Hl1).
        by apply (line_of_insert_other _ i TicTacToe.O).
  - intros Hrun l m Hl. by apply running_no_line.
Qed.

Lemma double_line_played : TicTacToe.played double_line_game.
Proof.
  apply (played_play (TicTacToe.new_game 1 2 0) _ double_line_moves).
  - apply TicTacToe.played_new.
  - reflexivity.
Qed.

Lemma no_two_winners_witness :
  (forall l1 l2, l1 ∈ TicTacToe.lines -> l2 ∈ TicTacToe.lines ->
     ~ (TicTacToe.line_of (TicTacToe.board double_line_game) TicTacToe.X l1
        /\ TicTacToe.line_of (TicTacToe.board double_line_game) TicTacToe.O l2))
  /\ (TicTacToe.game_over double_line_game = false ->
      forall l m, l ∈ TicTacToe.lines ->
                  ~ TicTacToe.line_of (TicTacToe.board double_line_game) m l).
Proof.
  apply (no_two_winners double_line_game). exact double_line_played.
Defined.

(** C7 fails on the code as far as it counts lines: nine legal moves
    lead to a board on which the top row and the left column are both
    complete for X. *)
Lemma two_lines_completed_at_once :
  TicTacToe.play (TicTacToe.new_game 1 2 0) double_line_moves = Some double_line_game
  /\ TicTacToe.played double_line_game
  /\ (0, 1, 2)%nat ∈ TicTacToe.lines /\ (0, 3, 6)%nat ∈ TicTacToe.lines
  /\ (0, 1, 2)%nat <> (0, 3, 6)%nat
  /\ TicTacToe.line_of (TicTacToe.board double_line_game) TicTacToe.X (0, 1, 2)%nat
  /\ TicTacToe.line_of (TicTacToe.board double_line_game) TicTacToe.X (0, 3, 6)%nat.
Proof.
  split; [reflexivity|]. split; [exact double_line_played|].
  split; [unfold TicTacToe.lines; simpl; key_listed|].
  split; [unfold TicTacToe.lines; simpl; key_listed|].
  split; [done|]. split; repeat split.
Qed.

(** ** Blackjack: the command *)

(** With the [Economy] cog of the repository the command gets past the
    bet checks and then fails on the missing [get_balance]. *)
Lemma blackjack_get_balance_missing (R : Random) (w : Blackjack.world)
    (author guild : Z) (bet : option Z) (g : rng) :
  Blackjack.games w !! author = None ->
  economy_cog (Blackjack.the_bot w) = Some Economy_cog ->
  10 <= default 10 bet <= 1000 ->
  Blackjack.blackjack w author guild bet g
  = (Raise (AttributeError "get_balance"), w, g).
Proof.
  intros Hfree Hcog Hbet. unfold Blackjack.blackjack.
  rewrite Hfree, bool_decide_eq_false_2 by (by intros [? ?]).
  destruct (Z.ltb_spec (default 10 bet) 10) as [?|_]; [lia|].
  destruct (Z.ltb_spec 1000 (default 10 bet)) as [?|_]; [lia|].
  rewrite Hcog. reflexivity.
Qed.

(** A command for a member who has a game running is turned down and
    changes nothing. *)
Lemma blackjack_already_active (R : Random) (w : Blackjack.world)
    (author guild : Z) (bet : option Z) (g : rng) :
  is_Some (Blackjack.games w !! author) ->
  Blackjack.blackjack w author guild bet g
  = (Ok (Blackjack.GameAlreadyInProgress, None), w, g).
Proof.
  intros Hactive. unfold Blackjack.blackjack.
  by rewrite bool_decide_eq_true_2.
Qed.

(** C4 on the code.  Member 7 of guild 1 owns 0 coins and has no game;
    the command with a bet of 10 raises AttributeError at
    [economy_cog.get_balance] and sends no Insufficient Funds notice.
    No game is registered and the balance is still 0. *)
Theorem blackjack_zero_balance_10 (R : Random) (g : rng) :
  Economy_cog.(cog_get_balance) = None
  /\ DatabaseManager.get_economy_data ledger0 7 1 !! "balance" = Some (VInt 0)
  /\ Blackjack.blackjack blackjack_idle 7 1 (Some 10) g
     = (Raise (AttributeError "get_balance"), blackjack_idle, g)
  /\ (forall user_data bet,
        (Blackjack.blackjack blackjack_idle 7 1 (Some 10) g).1.1
        <> Ok (Blackjack.InsufficientFunds user_data bet, None)).
Proof.
  assert (Blackjack.blackjack blackjack_idle 7 1 (Some 10) g
          = (Raise (AttributeError "get_balance"), blackjack_idle, g)) as Hraise.
  { apply blackjack_get_balance_missing; [reflexivity | reflexivity | simpl; lia]. }
  split; [reflexivity|]. split; [reflexivity|]. split; [exact Hraise|].
  intros user_data bet. by rewrite Hraise.
Qed.

(** ** Tic-Tac-Toe: the registry *)

Lemma run1_step (a : TicTacToe.action) (s s' : TicTacToe.world * list TicTacToe.task) :
  TicTacToe.run1 a s = Some s' -> TicTacToe.step s s'.
Proof.
  destruct s as [w ts]. destruct a as [channel guild author member bet|i a|i ev]; simpl.
  - destruct (TicTacToe.tictactoe w channel guild author member bet) as [r w'] eqn:Hcmd.
    intros [= <-]. eapply TicTacToe.step_command. exact Hcmd.
  - destruct (ts !! i) as [[channel guild author member bet|]|] eqn:Hi; [|done..].
    destruct (TicTacToe.respond w channel guild author member bet a) as [r w'] eqn:Hr.
    intros [= <-]. rewrite <- (take_drop_middle ts i _ Hi) at 1.
    eapply TicTacToe.step_respond. exact Hr.
  - destruct (ts !! i) as [[|channel guild game_id game]|] eqn:Hi; [done| |done].
    destruct (match ev with
              | TicTacToe.Reaction position user => TicTacToe.check game position user
              | TicTacToe.TimeoutError => true
              end) eqn:Hcheck; [|done].
    destruct (TicTacToe.game_loop w channel guild game_id game ev) as [r w'] eqn:Hr.
    intros [= <-]. rewrite <- (take_drop_middle ts i _ Hi) at 1.
    eapply TicTacToe.step_game_loop; [|exact Hr]. by destruct ev.
Qed.

Lemma run_steps (acts : list TicTacToe.action) (s s' : TicTacToe.world * list TicTacToe.task) :
  TicTacToe.run acts s = Some s' -> rtc TicTacToe.step s s'.
Proof.
  revert s. induction acts as [|a acts IH]; intros s; simpl.
  - intros [= <-]. apply rtc_refl.
  - destruct (TicTacToe.run1 a s) as [s1|] eqn:H1; [|done]. simpl.
    intros Hrest. eapply rtc_l; [exact (run1_step a s s1 H1) | by apply IH].
Qed.

(** A command in a channel whose key is in the registry is turned down
    and changes nothing. *)
Lemma tictactoe_already_active (w : TicTacToe.world) (channel guild author : Z)
    (member : option (Z * bool)) (bet : Z) :
  is_Some (TicTacToe.games w !! channel) ->
  TicTacToe.tictactoe w channel guild author member bet
  = (Ok (TicTacToe.GameAlreadyInProgress, None), w).
Proof.
  intros Hactive. unfold TicTacToe.tictactoe. by rewrite bool_decide_eq_true_2.
Qed.

(** C6 on the code.  Two challenges issued in channel 5 before either
    is answered are both accepted: the second [start_game] overwrites the
    registry entry of the first, and two games that are not over run in
    the channel.  When the first of them times out it deletes the entry
    of the second, and the next challenge in the channel is let through
    while that game is still running. *)
Theorem two_games_in_one_channel :
  exists w ts,
    rtc TicTacToe.step (TicTacToe.init (repo_bot ∅)) (w, ts)
    /\ ts = [TicTacToe.GameLoop 5 1 0 (TicTacToe.new_game 10 11 0);
             TicTacToe.GameLoop 5 1 1 (TicTacToe.new_game 12 13 0)]
    /\ TicTacToe.sessions 5 ts = [0; 1]%nat
    /\ TicTacToe.games w !! 5 = Some 1%nat
    /\ exists w' ts',
         rtc TicTacToe.step (w, ts) (w', ts')
         /\ TicTacToe.sessions 5 ts' = [1]%nat
         /\ TicTacToe.games w' !! 5 = None
         /\ (TicTacToe.tictactoe w' 5 1 14 (Some (15, false)) 0).1
            = Ok (TicTacToe.Challenge, Some (TicTacToe.AwaitResponse 5 1 14 15 0)).
Proof.
  pose (s0 := TicTacToe.init (repo_bot ∅)).
  pose (timeout := [TicTacToe.Deliver 0 TicTacToe.TimeoutError]).
  assert (snd <$> TicTacToe.run two_challenges s0
          = Some [TicTacToe.GameLoop 5 1 0 (TicTacToe.new_game 10 11 0);
                  TicTacToe.GameLoop 5 1 1 (TicTacToe.new_game 12 13 0)]) as Hts
    by (vm_compute; reflexivity).
  assert ((fun s => TicTacToe.games s.1 !! 5) <$> TicTacToe.run two_challenges s0
          = Some (Some 1%nat)) as Hgames
    by (vm_compute; reflexivity).
  assert ((fun s => (TicTacToe.sessions 5 s.2, TicTacToe.games s.1 !! 5,
                     (TicTacToe.tictactoe s.1 5 1 14 (Some (15, false)) 0).1))
            <$> (TicTacToe.run two_challenges s0 ≫= TicTacToe.run timeout)
          = Some ([1%nat], None,
                  Ok (TicTacToe.Challenge, Some (TicTacToe.AwaitResponse 5 1 14 15 0))))
    as Hafter by (vm_compute; reflexivity).
  destruct (TicTacToe.run two_challenges s0) as [[w ts]|] eqn:Hrun; [|discriminate].
  simpl in Hts, Hgames. injection Hts as ->. injection Hgames as Hgames.
  change (Some ?s ≫= TicTacToe.run timeout) with (TicTacToe.run timeout s) in Hafter.
  destruct (TicTacToe.run timeout _) as [[w' ts']|] eqn:Hrun'; [|discriminate].
  cbn [fmap option_fmap option_map fst snd] in Hafter.
  injection Hafter as Hsessions Hfree Hcommand.
  eexists w, _. split; [exact (run_steps two_challenges _ _ Hrun)|].
  split; [reflexivity|].
  split; [reflexivity|]. split; [exact Hgames|].
  exists w', ts'. split; [exact (run_steps timeout _ _ Hrun')|]. done.
Qed.

(** ** Blackjack: the dealer's draw ends *)

Lemma build_values (c : Blackjack.Card) :
  c ∈ Blackjack.build -> 1 <= Blackjack.value c <= 13.
Proof.
  unfold Blackjack.build.
  intros (s & Hc & _)%list_elem_of_bind.
  apply list_elem_of_bind in Hc as (v & Hc & Hv).
  apply list_elem_of_singleton in Hc as ->. apply elem_of_seqZ in Hv. simpl. lia.
Qed.

Lemma hard_value_pos (c : Blackjack.Card) :
  c ∈ Blackjack.build -> 1 <= Blackjack.hard_value c.
Proof.
  intros Hc%build_values. unfold Blackjack.hard_value, Blackjack.blackjack_value.
  destruct (Z.eqb_spec (Blackjack.value c) 1); [lia|].
  destruct (Z.leb_spec 10 (Blackjack.value c)); lia.
Qed.

(** The total with every ace counted as 1. *)
Lemma hard_total (hand : list Blackjack.Card) :
  Blackjack.sum (Blackjack.hard_value <$> hand)
  = Blackjack.sum (Blackjack.blackjack_value <$> hand)
    - 10 * Z.of_nat (length (filter (fun c => Blackjack.value c = 1) hand)).
Proof.
  induction hand as [|c hand IH]; [reflexivity|].
  rewrite !fmap_cons. simpl Blackjack.sum. rewrite IH, filter_cons.
  unfold Blackjack.hard_value, Blackjack.blackjack_value.
  destruct (decide (Blackjack.value c = 1)) as [Hace|Hother].
  - rewrite Hace. simpl. lia.
  - destruct (Z.eqb_spec (Blackjack.value c) 1); [done|]. lia.
Qed.

Lemma hard_total_snoc (hand : list Blackjack.Card) (c : Blackjack.Card) :
  Blackjack.sum (Blackjack.hard_value <$> hand ++ [c])
  = Blackjack.sum (Blackjack.hard_value <$> hand) + Blackjack.hard_value c.
Proof.
  induction hand as [|c0 hand IH].
  - unfold Blackjack.sum. simpl. lia.
  - change (Blackjack.sum (Blackjack.hard_value <$> (c0 :: hand) ++ [c]))
      with (Blackjack.hard_value c0
            + Blackjack.sum (Blackjack.hard_value <$> hand ++ [c])).
    change (Blackjack.sum (Blackjack.hard_value <$> c0 :: hand))
      with (Blackjack.hard_value c0 + Blackjack.sum (Blackjack.hard_value <$> hand)).
    rewrite IH. lia.
Qed.

Lemma get_hand_value_ge_hard (hand : list Blackjack.Card) :
  Blackjack.sum (Blackjack.hard_value <$> hand) <= Blackjack.get_hand_value hand.
Proof.
  rewrite hard_total. unfold Blackjack.get_hand_value.
  destruct (adjust_aces_spec
              (length (filter (fun c => Blackjack.value c = 1) hand))
              (Blackjack.sum (Blackjack.blackjack_value <$> hand)))
    as (k & Hk & -> & _). lia.
Qed.

(** A card dealt from a deck of pack cards is a pack card, and so are
    the cards left. *)
Lemma deal_pack (R : Random) (laws : RandomLaws R)
    (cards : list Blackjack.Card) (g : rng) :
  Forall (fun c => c ∈ Blackjack.build) cards ->
  exists c cards' g',
    Blackjack.deal cards g = Ok (c, cards', g')
    /\ c ∈ Blackjack.build
    /\ Forall (fun c => c ∈ Blackjack.build) cards'.
Proof.
  intros Hpack.
  destruct (deal_spec R laws cards g) as (c & cards' & g' & Hdeal & Hshape).
  exists c, cards', g'. split; [exact Hdeal|].
  assert (Forall (fun c => c ∈ Blackjack.build) (cards' ++ [c])) as Hall.
  { destruct cards as [|c0 cards].
    - destruct Hshape as [-> _]. apply Forall_forall. intros x Hx.
      by rewrite (rnd_shuffle_perm _ Blackjack.build g) in Hx.
    - destruct Hshape as [-> _]. exact Hpack. }
  apply Forall_app in Hall as [Hrest Hc]. split; [|exact Hrest].
  exact (Forall_inv Hc).
Qed.

(** With pack cards the dealer's loop ends within the fuel that the
    hand is short of 17 with aces counted as 1, and it ends at 17 or
    more. *)
Lemma dealer_draw_ends (R : Random) (laws : RandomLaws R) (fuel : nat)
    (cards hand : list Blackjack.Card) (g : rng) :
  Forall (fun c => c ∈ Blackjack.build) cards ->
  17 - Blackjack.sum (Blackjack.hard_value <$> hand) <= Z.of_nat fuel ->
  exists cards' hand' g',
    Blackjack.dealer_draw fuel cards hand g = Some (Ok (cards', hand', g'))
    /\ 17 <= Blackjack.get_hand_value hand'.
Proof.
  revert cards hand g. induction fuel as [|fuel IH]; intros cards hand g Hpack Hfuel;
    pose proof (get_hand_value_ge_hard hand) as Hhard; simpl.
  - destruct (Z.ltb_spec (Blackjack.get_hand_value hand) 17) as [Hlow|Hdone]; [lia|].
    by eexists _, _, _.
  - destruct (Z.ltb_spec (Blackjack.get_hand_value hand) 17) as [Hlow|Hdone];
      [|by eexists _, _, _].
    destruct (deal_pack R laws cards g Hpack) as (c & cards' & g' & -> & Hc & Hpack').
    apply IH; [exact Hpack'|].
    rewrite hard_total_snoc. pose proof (hard_value_pos c Hc). lia.
Qed.

(** ** Timeouts *)

Lemma get_update_economy_data_other (db : gmap (Z * Z) (gmap string json))
    (user guild user' : Z) (data : gmap string json) :
  user <> user' ->
  DatabaseManager.get_economy_data
    (DatabaseManager.update_economy_data db user guild data) user' guild
  = DatabaseManager.get_economy_data db user' guild.
Proof.
  intros Hne. unfold DatabaseManager.get_economy_data, DatabaseManager.update_economy_data.
  rewrite lookup_insert_ne; [reflexivity|]. congruence.
Qed.

(** A credit on a record with an integer balance succeeds and adds the
    amount; the records of the other members stay as they are. *)
Lemma add_balance_int (db : gmap (Z * Z) (gmap string json)) (user guild amount b : Z) :
  dict_get (DatabaseManager.get_economy_data db user guild) "balance" (VInt 0) = VInt b ->
  exists db',
    Economy.add_balance (Some db) user guild amount = (true, Some db')
    /\ dict_get (DatabaseManager.get_economy_data db' user guild) "balance" (VInt 0)
       = VInt (b + amount)
    /\ (forall user', user <> user' ->
          DatabaseManager.get_economy_data db' user' guild
          = DatabaseManager.get_economy_data db user' guild).
Proof.
  intros Hb. unfold Economy.add_balance, Economy.add_balance_body.
  rewrite dict_get_loaded by key_listed. rewrite Hb. simpl.
  eexists. split; [reflexivity|]. split.
  - rewrite get_update_economy_data. unfold dict_get. by rewrite lookup_insert_eq.
  - intros user' Hne. by apply get_update_economy_data_other.
Qed.

(** [process_game_end] with the [Economy] cog: the reward, if any, is
    credited and the registry entry of the author is deleted. *)
Lemma process_game_end_releases (w : Blackjack.world) (author guild reward : Z)
    (game : Blackjack.BlackjackGame) :
  economy_cog (Blackjack.the_bot w) = Some Economy_cog ->
  is_Some (Blackjack.games w !! author) ->
  Blackjack.calculate_reward game = Ok reward ->
  exists w',
    Blackjack.process_game_end w author guild game = (Ok (), w')
    /\ Blackjack.games w' = delete author (Blackjack.games w)
    /\ db_manager (Blackjack.the_bot w')
       = if 0 <? reward
         then (Economy.add_balance (db_manager (Blackjack.the_bot w)) author guild
                 reward).2
         else db_manager (Blackjack.the_bot w).
Proof.
  intros Hcog [registered Hreg] Hreward. unfold Blackjack.process_game_end.
  rewrite Hreward, Hcog. cbn [mbind exc_bind].
  destruct (0 <? reward); simpl; rewrite Hreg;
    eexists; split; reflexivity || (split; reflexivity).
Qed.

(** Once the player has stood, [check_game_over] settles the game with
    one of the outcomes of the table. *)
Lemma check_game_over_stood (game : Blackjack.BlackjackGame) :
  Blackjack.player_stood game = true ->
  Blackjack.game_over (Blackjack.check_game_over game) = true
  /\ exists r,
       Blackjack.result (Blackjack.check_game_over game) = Some r
       /\ r ∈ ["push"; "blackjack"; "dealer_blackjack"; "bust";
               "dealer_bust"; "dealer_wins"; "player_wins"].
Proof.
  intros Hstood. unfold Blackjack.check_game_over. rewrite Hstood.
  repeat match goal with
         | |- context [if ?b then _ else _] => destruct b
         end;
    (split; [reflexivity|]; eexists; split; [reflexivity|]; key_listed).
Qed.

Lemma hard_total_nonneg (hand : list Blackjack.Card) :
  Forall (fun c => c ∈ Blackjack.build) hand ->
  0 <= Blackjack.sum (Blackjack.hard_value <$> hand).
Proof.
  induction 1 as [|c hand Hc _ IH]; [done|].
  change (Blackjack.sum (Blackjack.hard_value <$> c :: hand))
    with (Blackjack.hard_value c + Blackjack.sum (Blackjack.hard_value <$> hand)).
  pose proof (hard_value_pos c Hc). lia.
Qed.


(** With the [Economy] cog of the repository the [tictactoe] command
    sends no challenge for a bet above 0: the balance check raises
    AttributeError at the missing [get_balance], unless the command was
    refused before, and the cog's state is as before. *)
Lemma tictactoe_staked_never_starts (w : TicTacToe.world) (channel guild author : Z)
    (member : option (Z * bool)) (bet : Z) :
  economy_cog (TicTacToe.the_bot w) = Some Economy_cog ->
  0 < bet ->
  (TicTacToe.tictactoe w channel guild author member bet).2 = w
  /\ forall n t, (TicTacToe.tictactoe w channel guild author member bet).1 <> Ok (n, Some t).
Proof.
  intros Hcog Hbet. unfold TicTacToe.tictactoe.
  case_bool_decide; [done|].
  destruct member as [[m is_bot]|]; [|done].
  case_bool_decide; [done|]. destruct is_bot; [done|].
  destruct (Z.ltb_spec bet 0); [done|].
  destruct (TicTacToe.pending_challenges w !! m) as [[challenger ?]|]; [done|].
  destruct (Z.ltb_spec 0 bet) as [_|?]; [|lia].
  by rewrite Hcog.
Qed.


(** A credit without a database manager stores nothing. *)
Lemma add_balance_unwired (user guild amount : Z) :
  Economy.add_balance None user guild amount = (false, None).
Proof. reflexivity. Qed.

(** A key that is taken out of a set is not in it. *)
Lemma released (games : gset Z) (key : Z) : key ∉ games ∖ {[key]}.
Proof. intros [_ Hout]%elem_of_difference. apply Hout. by apply elem_of_singleton. Qed.





(** * Further properties of the code *)

(** ** The ledger: credits, debits and transfers *)

Lemma get_update_economy_data_ne (db : gmap (Z * Z) (gmap string json))
    (user guild user' guild' : Z) (data : gmap string json) :
  (guild, user) <> (guild', user') ->
  DatabaseManager.get_economy_data
    (DatabaseManager.update_economy_data db user guild data) user' guild'
  = DatabaseManager.get_economy_data db user' guild'.
Proof.
  intros Hne. unfold DatabaseManager.get_economy_data, DatabaseManager.update_economy_data.
  by rewrite lookup_insert_ne.
Qed.

(** A debit on a record with an integer balance succeeds and stores the
    balance less the amount, clamped at 0; the other records stay. *)
Lemma remove_balance_int (db : gmap (Z * Z) (gmap string json)) (user guild amount b : Z) :
  dict_get (DatabaseManager.get_economy_data db user guild) "balance" (VInt 0) = VInt b ->
  exists db',
    Economy.remove_balance (Some db) user guild amount = (true, Some db')
    /\ dict_get (DatabaseManager.get_economy_data db' user guild) "balance" (VInt 0)
       = VInt (Z.max 0 (b - amount))
    /\ (forall user', user <> user' ->
          DatabaseManager.get_economy_data db' user' guild
          = DatabaseManager.get_economy_data db user' guild).
Proof.
  intros Hb. unfold Economy.remove_balance.
  rewrite (remove_balance_body_int db user guild amount b Hb).
  eexists. split; [reflexivity|]. split.
  - rewrite get_update_economy_data. unfold dict_get. by rewrite lookup_insert_eq.
  - intros user' Hne. by apply get_update_economy_data_other.
Qed.

(** X1.  As the repository registers its cogs, [add_balance] and
    [remove_balance] find no database manager: both return [False] and
    store nothing.  Handed a database manager, a credit followed by a
    debit of the same amount gives back a balance that was not negative.
    The other way round it does not: a debit is clamped at 0, so a debit
    of more than the balance followed by the credit of the same amount
    leaves the amount, more than before. *)
Theorem credit_debit_compose (db : gmap (Z * Z) (gmap string json))
    (user guild amount b : Z) :
  dict_get (DatabaseManager.get_economy_data db user guild) "balance" (VInt 0) = VInt b ->
  0 <= b -> 0 <= amount ->
  (Economy.add_balance (db_manager (repo_bot db)) user guild amount = (false, None)
   /\ Economy.remove_balance (db_manager (repo_bot db)) user guild amount = (false, None))
  /\ (exists db1 db2,
     Economy.add_balance (Some db) user guild amount = (true, Some db1)
     /\ Economy.remove_balance (Some db1) user guild amount = (true, Some db2)
     /\ dict_get (DatabaseManager.get_economy_data db2 user guild) "balance" (VInt 0)
        = VInt b)
  /\ (exists db1 db2,
        Economy.remove_balance (Some db) user guild amount = (true, Some db1)
        /\ Economy.add_balance (Some db1) user guild amount = (true, Some db2)
        /\ dict_get (DatabaseManager.get_economy_data db2 user guild) "balance" (VInt 0)
           = VInt (Z.max b amount)).
Proof.
  intros Hb Hnonneg Hamount. split; [by split|]. split.
  - destruct (add_balance_int db user guild amount b Hb) as (db1 & Hadd & Hb1 & _).
    destruct (remove_balance_int db1 user guild amount _ Hb1) as (db2 & Hrem & Hb2 & _).
    exists db1, db2. split; [exact Hadd|]. split; [exact Hrem|].
    rewrite Hb2. f_equal. lia.
  - destruct (remove_balance_int db user guild amount b Hb) as (db1 & Hrem & Hb1 & _).
    destruct (add_balance_int db1 user guild amount _ Hb1) as (db2 & Hadd & Hb2 & _).
    exists db1, db2. split; [exact Hrem|]. split; [exact Hadd|].
    rewrite Hb2. f_equal. lia.
Qed.

Lemma credit_debit_compose_witness :
  (Economy.add_balance (db_manager (repo_bot ledger50)) 7 1 80 = (false, None)
   /\ Economy.remove_balance (db_manager (repo_bot ledger50)) 7 1 80 = (false, None))
  /\ (exists db1 db2,
     Economy.add_balance (Some ledger50) 7 1 80 = (true, Some db1)
     /\ Economy.remove_balance (Some db1) 7 1 80 = (true, Some db2)
     /\ dict_get (DatabaseManager.get_economy_data db2 7 1) "balance" (VInt 0)
        = VInt 50)
  /\ (exists db1 db2,
        Economy.remove_balance (Some ledger50) 7 1 80 = (true, Some db1)
        /\ Economy.add_balance (Some db1) 7 1 80 = (true, Some db2)
        /\ dict_get (DatabaseManager.get_economy_data db2 7 1) "balance" (VInt 0)
           = VInt (Z.max 50 80)).
Proof.
  apply (credit_debit_compose ledger50 7 1 80 50).
  - reflexivity.
  - lia.
  - lia.
Defined.

Lemma dict_get_item (data : gmap string json) (key : string) (b : Z) :
  dict_get data key (VInt 0) = VInt b -> b <> 0 -> data !! key = Some (VInt b).
Proof.
  unfold dict_get. destruct (data !! key) as [v|]; simpl; intros Hv Hb.
  - by rewrite Hv.
  - congruence.
Qed.

(** [pay] on a sender who covers the amount and an integer recipient. *)
Lemma pay_sent (db : gmap (Z * Z) (gmap string json))
    (author guild member amount bs br : Z) :
  0 < amount -> member <> author -> amount <= bs ->
  dict_get (DatabaseManager.get_economy_data db author guild) "balance" (VInt 0) = VInt bs ->
  dict_get (DatabaseManager.get_economy_data db member guild) "balance" (VInt 0) = VInt br ->
  Economy.pay (Some db) author guild member false amount
  = (Economy.PaymentSent (bs - amount),
     Some (DatabaseManager.update_economy_data
             (DatabaseManager.update_economy_data
                (DatabaseManager.update_economy_data db author guild
                   (<["balance" := VInt (bs - amount)]>
                      (DatabaseManager.get_economy_data db author guild)))
                author guild
                (<["balance" := VInt (bs - amount)]>
                   (DatabaseManager.get_economy_data db author guild)))
             member guild
             (<["balance" := VInt (br + amount)]>
                (if dict_not (DatabaseManager.get_economy_data db member guild)
                 then Economy.fresh
                 else DatabaseManager.get_economy_data db member guild)))).
Proof.
  intros Hamount Hne Hcover Hbs Hbr.
  pose proof (dict_get_item _ _ _ Hbs ltac:(lia)) as Hkey.
  unfold Economy.pay.
  destruct (Z.leb_spec amount 0) as [?|_]; [lia|].
  rewrite bool_decide_eq_false_2 by done.
  rewrite (dict_not_item _ _ _ Hkey). rewrite Hbs. simpl.
  destruct (Z.ltb_spec bs amount) as [?|_]; [lia|].
  unfold dict_item. rewrite Hkey. simpl.
  rewrite dict_get_loaded by key_listed. rewrite Hbr. reflexivity.
Qed.

(** X2.  As the repository registers its cogs, [pay] finds no database
    manager: a payment of more than 0 to another member answers
    Database Error and moves nothing.  Handed a database manager, a
    payment the sender can cover moves exactly the amount: the sender's
    balance drops by it, the recipient's rises by it, so their sum
    stays, and no other record of the guild changes. *)
Theorem pay_moves_amount (db : gmap (Z * Z) (gmap string json))
    (author guild member amount bs br : Z) :
  0 < amount -> member <> author -> amount <= bs ->
  dict_get (DatabaseManager.get_economy_data db author guild) "balance" (VInt 0) = VInt bs ->
  dict_get (DatabaseManager.get_economy_data db member guild) "balance" (VInt 0) = VInt br ->
  Economy.pay (db_manager (repo_bot db)) author guild member false amount
  = (Economy.PayDatabaseError, None)
  /\ exists db',
    Economy.pay (Some db) author guild member false amount
    = (Economy.PaymentSent (bs - amount), Some db')
    /\ dict_get (DatabaseManager.get_economy_data db' author guild) "balance" (VInt 0)
       = VInt (bs - amount)
    /\ dict_get (DatabaseManager.get_economy_data db' member guild) "balance" (VInt 0)
       = VInt (br + amount)
    /\ (bs - amount) + (br + amount) = bs + br
    /\ 0 <= bs - amount
    /\ (forall user, user <> author -> user <> member ->
          DatabaseManager.get_economy_data db' user guild
          = DatabaseManager.get_economy_data db user guild).
Proof.
  intros Hamount Hne Hcover Hbs Hbr. split.
  { unfold Economy.pay. destruct (Z.leb_spec amount 0) as [?|_]; [lia|].
    by rewrite bool_decide_eq_false_2 by done. }
  rewrite (pay_sent db author guild member amount bs br) by assumption.
  eexists. split; [reflexivity|]. split; [|split; [|split; [lia|split; [lia|]]]].
  - rewrite get_update_economy_data_other by done.
    rewrite get_update_economy_data. unfold dict_get. by rewrite lookup_insert_eq.
  - rewrite get_update_economy_data. unfold dict_get. by rewrite lookup_insert_eq.
  - intros user Ha Hm. by rewrite !get_update_economy_data_other by done.
Qed.

Lemma pay_moves_amount_witness :
  Economy.pay (db_manager (repo_bot ledger_staked)) 11 1 10 false 25
  = (Economy.PayDatabaseError, None)
  /\ exists db',
    Economy.pay (Some ledger_staked) 11 1 10 false 25
    = (Economy.PaymentSent (45 - 25), Some db')
    /\ dict_get (DatabaseManager.get_economy_data db' 11 1) "balance" (VInt 0)
       = VInt (45 - 25)
    /\ dict_get (DatabaseManager.get_economy_data db' 10 1) "balance" (VInt 0)
       = VInt (30 + 25)
    /\ (45 - 25) + (30 + 25) = 45 + 30
    /\ 0 <= 45 - 25
    /\ (forall user, user <> 11 -> user <> 10 ->
          DatabaseManager.get_economy_data db' user 1
          = DatabaseManager.get_economy_data ledger_staked user 1).
Proof.
  apply (pay_moves_amount ledger_staked 11 1 10 25 45 30).
  - lia.
  - lia.
  - lia.
  - reflexivity.
  - reflexivity.
Defined.

(** X3.  A payment that is refused moves nothing.  An amount of 0 or
    less, a payment to oneself or to a bot are refused before the
    database manager is looked up and leave everything as it is.  As the
    repository registers its cogs there is no database manager, and
    every other payment answers Database Error.  Handed a database
    manager, a sender who cannot cover the amount is told the balance,
    and every balance of the ledger reads as before. *)
Theorem pay_refused (db : gmap (Z * Z) (gmap string json))
    (author guild member amount bs : Z) (member_bot : bool) :
  dict_get (DatabaseManager.get_economy_data db author guild) "balance" (VInt 0) = VInt bs ->
  (forall db_manager,
     amount <= 0 ->
     Economy.pay db_manager author guild member member_bot amount
     = (Economy.PayInvalidAmount, db_manager))
  /\ (forall db_manager,
        0 < amount -> member = author \/ member_bot = true ->
        Economy.pay db_manager author guild member member_bot amount
        = (Economy.PayInvalidRecipient, db_manager))
  /\ (0 < amount -> member <> author -> member_bot = false ->
      Economy.pay (db_manager (repo_bot db)) author guild member member_bot amount
      = (Economy.PayDatabaseError, None))
  /\ (0 < amount -> member <> author -> member_bot = false -> bs < amount ->
      exists db',
        Economy.pay (Some db) author guild member member_bot amount
        = (Economy.PayInsufficientFunds bs, Some db')
        /\ forall user guild',
             dict_get (DatabaseManager.get_economy_data db' user guild') "balance" (VInt 0)
             = dict_get (DatabaseManager.get_economy_data db user guild') "balance" (VInt 0)).
Proof.
  intros Hbs. unfold Economy.pay. split; [|split; [|split]].
  - intros dbm Hamount. by destruct (Z.leb_spec amount 0); [|lia].
  - intros dbm Hamount Hwho. destruct (Z.leb_spec amount 0) as [?|_]; [lia|].
    case_bool_decide; [reflexivity|]. by destruct Hwho as [?| ->].
  - intros Hamount Hne ->. destruct (Z.leb_spec amount 0) as [?|_]; [lia|].
    by rewrite bool_decide_eq_false_2 by done.
  - intros Hamount Hne -> Hshort. destruct (Z.leb_spec amount 0) as [?|_]; [lia|].
    rewrite bool_decide_eq_false_2 by done.
    pose proof (dict_get_loaded (DatabaseManager.get_economy_data db author guild)
                  "balance" ltac:(key_listed)) as Hloaded.
    unfold dict_not in *. case_bool_decide as Hempty.
    + rewrite Hloaded, Hbs. simpl.
      destruct (Z.ltb_spec bs amount) as [_|?]; [|lia].
      eexists. split; [reflexivity|]. intros user guild'.
      destruct (decide ((guild, author) = (guild', user))) as [[= <- <-]|Hother].
      * by rewrite get_update_economy_data, Hloaded.
      * by rewrite get_update_economy_data_ne.
    + rewrite Hbs. simpl. destruct (Z.ltb_spec bs amount) as [_|?]; [|lia].
      by eexists.
Qed.

Lemma pay_refused_witness :
  (0 < 80 -> 8 <> 7 -> false = false ->
   Economy.pay (db_manager (repo_bot ledger50)) 7 1 8 false 80
   = (Economy.PayDatabaseError, None))
  /\ (0 < 80 -> 8 <> 7 -> false = false -> 50 < 80 ->
      exists db',
        Economy.pay (Some ledger50) 7 1 8 false 80
        = (Economy.PayInsufficientFunds 50, Some db')
        /\ forall user guild',
             dict_get (DatabaseManager.get_economy_data db' user guild') "balance" (VInt 0)
             = dict_get (DatabaseManager.get_economy_data ledger50 user guild')
                 "balance" (VInt 0)).
Proof.
  apply (pay_refused ledger50 7 1 8 80 50 false). reflexivity.
Defined.

(** ** Gambling *)

(** Below 2^50 the float product of a roll of 51..70 is exact, and the
    payout is the integer the multipliers give. *)
Lemma payout_bounds (bet_amount roll : Z) :
  0 < bet_amount -> bet_amount < 2 ^ 50 ->
  exists paid,
    Economy.payout bet_amount roll = Ok paid
    /\ 0 <= paid <= 5 * bet_amount
    /\ (roll <= 30 -> paid = 0)
    /\ (31 <= roll <= 50 -> paid = bet_amount)
    /\ (51 <= roll <= 70 -> paid = (3 * bet_amount) `div` 2)
    /\ (71 <= roll <= 90 -> paid = 2 * bet_amount)
    /\ (91 <= roll <= 99 -> paid = 3 * bet_amount)
    /\ (100 <= roll -> paid = 5 * bet_amount).
Proof.
  intros Hbet Hbound. unfold Economy.payout.
  rewrite (int_times_float_exact bet_amount 3) by lia.
  rewrite Z.quot_div_nonneg by lia.
  assert (0 <= (3 * bet_amount) `div` 2 <= 5 * bet_amount) as Hhalf.
  { split; [apply Z.div_pos; lia | apply Z.div_le_upper_bound; lia]. }
  repeat match goal with |- context [?a <=? ?b] => destruct (Z.leb_spec a b) end;
    eexists; (split; [reflexivity|]); repeat split; intros; lia.
Qed.

(** Whatever the stake, a payout that is returned is not negative. *)
Lemma payout_nonneg (bet_amount roll paid : Z) :
  0 <= bet_amount -> Economy.payout bet_amount roll = Ok paid -> 0 <= paid.
Proof.
  intros Hbet. unfold Economy.payout.
  repeat match goal with |- context [?a <=? ?b] => destruct (Z.leb_spec a b) end;
    try (intros [= <-]; lia).
  by apply int_times_float_nonneg.
Qed.

(** The stake the argument of [gamble] stands for on a balance. *)
Lemma gamble_plays (R : Random) (db : gmap (Z * Z) (gmap string json))
    (author guild b bet_amount paid : Z) (amount : Economy.amount_arg) (g : rng) :
  dict_get (DatabaseManager.get_economy_data db author guild) "balance" (VInt 0) = VInt b ->
  match amount with
  | Economy.All => bet_amount = b
  | Economy.Half => bet_amount = b `div` 2
  | Economy.Number n => bet_amount = n
  | Economy.NotANumber => False
  end ->
  0 < bet_amount -> bet_amount <= b ->
  let roll := (rnd_randint 1 100 g).1 in
  Economy.payout bet_amount roll = Ok paid ->
  let winnings := paid - bet_amount in
  Economy.gamble (Some db) author guild amount g
  = (Economy.GamblingResults roll bet_amount winnings (b + winnings),
     Some (DatabaseManager.update_economy_data db author guild
             (<["balance" := VInt (b + winnings)]>
                (DatabaseManager.get_economy_data db author guild))),
     (rnd_randint 1 100 g).2).
Proof.
  intros Hb Hstake Hbet Hcover roll Hpaid winnings.
  pose proof (dict_get_item _ _ _ Hb ltac:(lia)) as Hkey.
  unfold Economy.gamble. rewrite (dict_not_item _ _ _ Hkey), Hb.
  assert (match amount with
          | Economy.All => Some (as_int (VInt b))
          | Economy.Half => Some (b0 ← as_int (VInt b); Ok (b0 `div` 2))
          | Economy.Number n => Some (Ok n)
          | Economy.NotANumber => None
          end = Some (Ok bet_amount)) as ->.
  { destruct amount; simpl; try done; by rewrite Hstake. }
  destruct (Z.leb_spec bet_amount 0) as [?|_]; [lia|]. simpl.
  destruct (Z.ltb_spec b bet_amount) as [?|_]; [lia|].
  subst roll winnings. destruct (rnd_randint 1 100 g) as [roll g']. simpl in *.
  by rewrite Hpaid.
Qed.

(** X4.  As the repository registers its cogs, [gamble] finds no
    database manager: it answers Database Error, rolls no dice and
    stores nothing.  Handed a database manager, a bet of more than 0 and
    at most a balance below 2^50 is played: the roll is in 1..100, the
    new balance is the balance less the bet plus the payout of the roll,
    it is never negative, the player loses at most the bet and gains at
    most four times the bet; a roll up to 30 loses the bet, a roll of
    31..50 leaves the balance, a roll of 51..70 pays the bet and a half,
    rounded down, and a roll of 100 adds four times the bet. *)
Theorem gamble_settles (R : Random) (db : gmap (Z * Z) (gmap string json))
    (author guild b bet_amount : Z) (amount : Economy.amount_arg) (g : rng) :
  RandomLaws R ->
  dict_get (DatabaseManager.get_economy_data db author guild) "balance" (VInt 0) = VInt b ->
  match amount with
  | Economy.All => bet_amount = b
  | Economy.Half => bet_amount = b `div` 2
  | Economy.Number n => bet_amount = n
  | Economy.NotANumber => False
  end ->
  0 < bet_amount -> bet_amount <= b -> b < 2 ^ 50 ->
  Economy.gamble (db_manager (repo_bot db)) author guild amount g
  = (Economy.GambleDatabaseError, None, g)
  /\ exists roll paid balance db',
    Economy.gamble (Some db) author guild amount g
    = (Economy.GamblingResults roll bet_amount (balance - b) balance, Some db',
       (rnd_randint 1 100 g).2)
    /\ roll = (rnd_randint 1 100 g).1
    /\ 1 <= roll <= 100
    /\ dict_get (DatabaseManager.get_economy_data db' author guild) "balance" (VInt 0)
       = VInt balance
    /\ Economy.payout bet_amount roll = Ok paid
    /\ balance = b - bet_amount + paid
    /\ 0 <= b - bet_amount <= balance
    /\ balance <= b + 4 * bet_amount
    /\ (roll <= 30 -> balance = b - bet_amount)
    /\ (31 <= roll <= 50 -> balance = b)
    /\ (51 <= roll <= 70 -> balance = b - bet_amount + (3 * bet_amount) `div` 2)
    /\ (roll = 100 -> balance = b + 4 * bet_amount).
Proof.
  intros laws Hb Hstake Hbet Hcover Hbound. split; [reflexivity|].
  pose proof (rnd_randint_range 1 100 g ltac:(lia)) as Hroll.
  destruct (payout_bounds bet_amount (rnd_randint 1 100 g).1 Hbet ltac:(lia))
    as (paid & Hpaid & Hpay & H30 & H50 & H70 & _ & _ & H100).
  rewrite (gamble_plays R db author guild b bet_amount paid amount g
             Hb Hstake Hbet Hcover Hpaid).
  exists (rnd_randint 1 100 g).1, paid, (b + (paid - bet_amount)). eexists.
  split; [f_equal; f_equal; f_equal; lia|].
  split; [reflexivity|]. split; [exact Hroll|].
  split; [rewrite get_update_economy_data; unfold dict_get; by rewrite lookup_insert_eq|].
  split; [exact Hpaid|].
  repeat split; intros; lia.
Qed.

Lemma gamble_settles_witness :
  Economy.gamble (R := identity_random) (db_manager (repo_bot ledger50)) 7 1 Economy.Half tt
  = (Economy.GambleDatabaseError, None, tt)
  /\ exists roll paid balance db',
    Economy.gamble (R := identity_random) (Some ledger50) 7 1 Economy.Half tt
    = (Economy.GamblingResults roll 25 (balance - 50) balance, Some db', tt)
    /\ roll = 1
    /\ 1 <= roll <= 100
    /\ dict_get (DatabaseManager.get_economy_data db' 7 1) "balance" (VInt 0)
       = VInt balance
    /\ Economy.payout 25 roll = Ok paid
    /\ balance = 50 - 25 + paid
    /\ 0 <= 50 - 25 <= balance
    /\ balance <= 50 + 4 * 25
    /\ (roll <= 30 -> balance = 50 - 25)
    /\ (31 <= roll <= 50 -> balance = 50)
    /\ (51 <= roll <= 70 -> balance = 50 - 25 + (3 * 25) `div` 2)
    /\ (roll = 100 -> balance = 50 + 4 * 25).
Proof.
  apply (gamble_settles identity_random ledger50 7 1 50 25 Economy.Half tt).
  - exact identity_random_laws.
  - reflexivity.
  - reflexivity.
  - lia.
  - lia.
  - reflexivity.
Defined.

(** X5.  As the repository registers its cogs, [gamble] finds no
    database manager and answers Database Error whatever the argument.
    Handed a database manager, a bet that cannot be played rolls no dice
    and changes no balance: an argument that is no number is an invalid
    amount, a stake of 0 or less ("all" on an empty balance, "half" of a
    single coin) is an invalid bet, and a stake above the balance is
    refused for insufficient funds. *)
Theorem gamble_refused (R : Random) (db : gmap (Z * Z) (gmap string json))
    (author guild b : Z) (amount : Economy.amount_arg) (g : rng) :
  dict_get (DatabaseManager.get_economy_data db author guild) "balance" (VInt 0) = VInt b ->
  let stake :=
    match amount with
    | Economy.All => Some b
    | Economy.Half => Some (b `div` 2)
    | Economy.Number n => Some n
    | Economy.NotANumber => None
    end in
  match stake with
  | None => True
  | Some bet_amount => bet_amount <= 0 \/ b < bet_amount
  end ->
  Economy.gamble (db_manager (repo_bot db)) author guild amount g
  = (Economy.GambleDatabaseError, None, g)
  /\ exists notice db',
    Economy.gamble (Some db) author guild amount g = (notice, Some db', g)
    /\ notice = match stake with
                | None => Economy.GambleInvalidAmount
                | Some bet_amount =>
                    if bet_amount <=? 0 then Economy.GambleInvalidBet
                    else Economy.GambleInsufficientFunds b
                end
    /\ forall user guild',
         dict_get (DatabaseManager.get_economy_data db' user guild') "balance" (VInt 0)
         = dict_get (DatabaseManager.get_economy_data db user guild') "balance" (VInt 0).
Proof.
  intros Hb stake Hrefused. split; [reflexivity|].
  pose proof (dict_get_loaded (DatabaseManager.get_economy_data db author guild)
                "balance" ltac:(key_listed)) as Hloaded.
  assert (exists data db',
            (if dict_not (DatabaseManager.get_economy_data db author guild)
             then (Economy.fresh,
                   DatabaseManager.update_economy_data db author guild Economy.fresh)
             else (DatabaseManager.get_economy_data db author guild, db)) = (data, db')
            /\ dict_get data "balance" (VInt 0) = VInt b
            /\ forall user guild',
                 dict_get (DatabaseManager.get_economy_data db' user guild')
                   "balance" (VInt 0)
                 = dict_get (DatabaseManager.get_economy_data db user guild')
                     "balance" (VInt 0)) as (data & db' & Hload & Hdata & Hsame).
  { unfold dict_not in *. case_bool_decide as Hempty.
    - eexists _, _. split; [reflexivity|]. split; [by rewrite Hloaded|].
      intros user guild'.
      destruct (decide ((guild, author) = (guild', user))) as [[= <- <-]|Hother].
      + by rewrite get_update_economy_data, Hloaded.
      + by rewrite get_update_economy_data_ne.
    - by eexists _, _. }
  unfold Economy.gamble. rewrite Hload, Hdata.
  exists (match stake with
          | None => Economy.GambleInvalidAmount
          | Some bet_amount =>
              if bet_amount <=? 0 then Economy.GambleInvalidBet
              else Economy.GambleInsufficientFunds b
          end), db'.
  split; [|split; [reflexivity | exact Hsame]].
  subst stake. destruct amount as [| |n|]; simpl in *; try reflexivity.
  - destruct (Z.leb_spec b 0) as [?|?]; [reflexivity|].
    destruct (Z.ltb_spec b b); [reflexivity | lia].
  - destruct (Z.leb_spec (b `div` 2) 0) as [?|?]; [reflexivity|].
    destruct (Z.ltb_spec b (b `div` 2)); [reflexivity | lia].
  - destruct (Z.leb_spec n 0) as [?|?]; [reflexivity|].
    destruct (Z.ltb_spec b n); [reflexivity | lia].
Qed.

Lemma gamble_refused_witness :
  Economy.gamble (R := identity_random) (db_manager (repo_bot ledger0)) 7 1 Economy.All tt
  = (Economy.GambleDatabaseError, None, tt)
  /\ exists notice db',
    Economy.gamble (R := identity_random) (Some ledger0) 7 1 Economy.All tt
    = (notice, Some db', tt)
    /\ notice = Economy.GambleInvalidBet
    /\ forall user guild',
         dict_get (DatabaseManager.get_economy_data db' user guild') "balance" (VInt 0)
         = dict_get (DatabaseManager.get_economy_data ledger0 user guild') "balance" (VInt 0).
Proof.
  apply (gamble_refused identity_random ledger0 7 1 0 Economy.All tt).
  - reflexivity.
  - simpl. lia.
Defined.

(** ** The daily reward, twice *)

(** A claim that is not due is refused and changes nothing; the refusal
    shows a streak above 0. *)
Lemma daily_not_due (R : Random) (db : gmap (Z * Z) (gmap string json))
    (user guild now last streak : Z) (g : rng) :
  DatabaseManager.get_economy_data db user guild !! "last_daily" = Some (VInt last) ->
  DatabaseManager.get_economy_data db user guild !! "daily_streak" = Some (VInt streak) ->
  now - last < 86400 ->
  Economy.daily (Some db) user guild now g
  = (Economy.NotAvailable (86400 - (now - last))
       (if 0 <? streak then Some streak else None), Some db, g).
Proof.
  intros Hlast Hstreak Hsoon. unfold Economy.daily, Economy.daily_body.
  rewrite (dict_not_item _ _ _ Hlast). unfold dict_get. rewrite Hlast, Hstreak. simpl.
  unfold Economy.daily_cooldown.
  by destruct (Z.ltb_spec (now - last) 86400) as [_|?]; [|lia].
Qed.

(** X6.  As the repository registers its cogs, [daily] finds no
    database manager and every claim answers Database Error.  Handed a
    database manager, after a claim that was due every further claim
    made less than 86400 s later is refused with the time that is left
    and the streak the first claim stored, shown when it is above 0; it
    draws nothing and leaves the ledger as the first claim stored it. *)
Theorem daily_twice (R : Random) (db : gmap (Z * Z) (gmap string json))
    (user guild now last streak balance : Z) (g : rng) :
  dict_get (DatabaseManager.get_economy_data db user guild) "last_daily" (VInt 0) = VInt last ->
  dict_get (DatabaseManager.get_economy_data db user guild) "daily_streak" (VInt 0)
  = VInt streak ->
  dict_get (DatabaseManager.get_economy_data db user guild) "balance" (VInt 0) = VInt balance ->
  86400 <= now - last ->
  (forall (later : Z) (g2 : rng),
     Economy.daily (db_manager (repo_bot db)) user guild later g2
     = (Economy.DatabaseError, None, g2))
  /\ exists base bonus streak' db1 g1,
    Economy.daily (Some db) user guild now g
    = (Economy.Claimed base bonus (base + bonus) streak', Some db1, g1)
    /\ forall (later : Z) (g2 : rng),
         later - now < 86400 ->
         Economy.daily (Some db1) user guild later g2
         = (Economy.NotAvailable (86400 - (later - now))
              (if 0 <? streak' then Some streak' else None), Some db1, g2).
Proof.
  intros Hlast Hstreak Hbal Hdue. split; [reflexivity|].
  rewrite (daily_due R db user guild now last streak balance g Hlast Hstreak Hbal Hdue).
  eexists _, _, _, _, _. split; [reflexivity|].
  intros later g2 Hsoon. apply daily_not_due; [| |exact Hsoon].
  - rewrite get_update_economy_data.
    rewrite lookup_insert_ne by done. by rewrite lookup_insert_eq.
  - rewrite get_update_economy_data. by rewrite lookup_insert_eq.
Qed.

Lemma daily_twice_witness :
  (forall (later : Z) (g2 : unit),
     Economy.daily (R := identity_random) (db_manager (repo_bot ledger_streak1)) 7 1 later g2
     = (Economy.DatabaseError, None, g2))
  /\ exists base bonus streak' db1 g1,
    Economy.daily (R := identity_random) (Some ledger_streak1) 7 1 1090000 tt
    = (Economy.Claimed base bonus (base + bonus) streak', Some db1, g1)
    /\ forall (later : Z) (g2 : unit),
         later - 1090000 < 86400 ->
         Economy.daily (R := identity_random) (Some db1) 7 1 later g2
         = (Economy.NotAvailable (86400 - (later - 1090000))
              (if 0 <? streak' then Some streak' else None), Some db1, g2).
Proof.
  apply (daily_twice identity_random ledger_streak1 7 1 1090000 1000000 1 150 tt).
  - reflexivity.
  - reflexivity.
  - reflexivity.
  - lia.
Defined.

(** ** The two debit paths *)

(** X7.  On a record that exists but has no "balance" field
    [DatabaseManager.add_currency] and [remove_currency] raise KeyError
    and store nothing.  [Economy.add_balance] and [remove_balance] do
    not: as the repository registers its cogs they find no database
    manager and return [False]; handed a database manager they read the
    missing balance as 0 and succeed. *)
Theorem missing_balance_field (db : gmap (Z * Z) (gmap string json))
    (user guild amount : Z) :
  DatabaseManager.get_economy_data db user guild <> ∅ ->
  DatabaseManager.get_economy_data db user guild !! "balance" = None ->
  DatabaseManager.add_currency db user guild amount = Raise (KeyError "balance")
  /\ DatabaseManager.remove_currency db user guild amount = Raise (KeyError "balance")
  /\ Economy.add_balance (db_manager (repo_bot db)) user guild amount = (false, None)
  /\ Economy.remove_balance (db_manager (repo_bot db)) user guild amount = (false, None)
  /\ (exists db',
        Economy.add_balance (Some db) user guild amount = (true, Some db')
        /\ DatabaseManager.get_economy_data db' user guild !! "balance"
           = Some (VInt (0 + amount)))
  /\ (exists db',
        Economy.remove_balance (Some db) user guild amount = (true, Some db')
        /\ DatabaseManager.get_economy_data db' user guild !! "balance"
           = Some (VInt (Z.max 0 (0 - amount)))).
Proof.
  intros Hdata Hkey.
  assert (dict_not (DatabaseManager.get_economy_data db user guild) = false) as Hnot
    by (unfold dict_not; by rewrite bool_decide_eq_false_2).
  unfold DatabaseManager.add_currency, DatabaseManager.remove_currency,
    Economy.add_balance, Economy.add_balance_body,
    Economy.remove_balance, Economy.remove_balance_body.
  rewrite Hnot. unfold dict_item, dict_get. rewrite Hkey. simpl.
  split; [reflexivity|]. split; [reflexivity|].
  split; [reflexivity|]. split; [reflexivity|].
  split; eexists; (split; [reflexivity|]);
    rewrite get_update_economy_data; apply lookup_insert_eq.
Qed.

Lemma missing_balance_field_witness :
  DatabaseManager.add_currency ledger_no_balance 7 1 30 = Raise (KeyError "balance")
  /\ DatabaseManager.remove_currency ledger_no_balance 7 1 30 = Raise (KeyError "balance")
  /\ Economy.add_balance (db_manager (repo_bot ledger_no_balance)) 7 1 30 = (false, None)
  /\ Economy.remove_balance (db_manager (repo_bot ledger_no_balance)) 7 1 30 = (false, None)
  /\ (exists db',
        Economy.add_balance (Some ledger_no_balance) 7 1 30 = (true, Some db')
        /\ DatabaseManager.get_economy_data db' 7 1 !! "balance" = Some (VInt (0 + 30)))
  /\ (exists db',
        Economy.remove_balance (Some ledger_no_balance) 7 1 30 = (true, Some db')
        /\ DatabaseManager.get_economy_data db' 7 1 !! "balance"
           = Some (VInt (Z.max 0 (0 - 30)))).
Proof.
  apply (missing_balance_field ledger_no_balance 7 1 30).
  - by vm_compute.
  - reflexivity.
Defined.

(** ** The ledger stays sound *)

Lemma dict_get_insert (data : gmap string json) (k key : string) (v dflt : json) :
  dict_get (<[k := v]> data) key dflt
  = if decide (k = key) then v else dict_get data key dflt.
Proof.
  unfold dict_get. destruct (decide (k = key)) as [->|Hne].
  - by rewrite lookup_insert_eq.
  - by rewrite lookup_insert_ne.
Qed.

Lemma ledger_sound_update (db : gmap (Z * Z) (gmap string json))
    (user guild : Z) (data : gmap string json) :
  ledger_sound db ->
  (forall (n : Z) (key : string),
     key = "balance" \/ key = "daily_streak" ->
     dict_get data key (VInt 0) = VInt n -> 0 <= n) ->
  ledger_sound (DatabaseManager.update_economy_data db user guild data).
Proof.
  intros Hdb Hdata user' guild' n key Hkey.
  destruct (decide ((guild, user) = (guild', user'))) as [[= <- <-]|Hother].
  - rewrite get_update_economy_data. by apply Hdata.
  - rewrite get_update_economy_data_ne by done. by apply Hdb.
Qed.

(** The document an operation starts from reads like the stored one. *)
Lemma ledger_sound_loaded (db : gmap (Z * Z) (gmap string json))
    (user guild n : Z) (key : string) :
  ledger_sound db ->
  key = "balance" \/ key = "daily_streak" ->
  dict_get (if dict_not (DatabaseManager.get_economy_data db user guild)
            then Economy.fresh
            else DatabaseManager.get_economy_data db user guild) key (VInt 0) = VInt n ->
  0 <= n.
Proof.
  intros Hdb Hkey. rewrite dict_get_loaded by (destruct Hkey as [->| ->]; key_listed).
  by apply Hdb.
Qed.

Lemma ledger_sound_fresh (db : gmap (Z * Z) (gmap string json)) (user guild : Z) :
  ledger_sound db ->
  ledger_sound (DatabaseManager.update_economy_data db user guild Economy.fresh).
Proof.
  intros Hdb. apply ledger_sound_update; [exact Hdb|].
  intros n key [->| ->]; intros [= <-]; done.
Qed.

(** Storing a balance that is not negative keeps the ledger sound. *)
Lemma ledger_sound_balance (db db0 : gmap (Z * Z) (gmap string json))
    (user guild v : Z) :
  ledger_sound db -> ledger_sound db0 -> 0 <= v ->
  ledger_sound
    (DatabaseManager.update_economy_data db user guild
       (<["balance" := VInt v]>
          (if dict_not (DatabaseManager.get_economy_data db0 user guild)
           then Economy.fresh
           else DatabaseManager.get_economy_data db0 user guild))).
Proof.
  intros Hdb Hdb0 Hv. apply ledger_sound_update; [exact Hdb|].
  intros n key Hkey. rewrite dict_get_insert. destruct Hkey as [->| ->].
  - rewrite decide_True by done. intros [= <-]. exact Hv.
  - rewrite decide_False by done. apply (ledger_sound_loaded db0); [exact Hdb0 | by right].
Qed.

(** X8.  No operation of the economy makes a sound ledger unsound: after
    a debit of any amount, a credit of an amount that is not negative, a
    daily claim, a work shift, a payment or a bet, no record shows a
    negative balance or a negative streak, whatever the operation
    answered. *)
Theorem ledger_stays_sound (R : Random) (db : gmap (Z * Z) (gmap string json))
    (user guild : Z) :
  RandomLaws R ->
  ledger_sound db ->
  (forall amount db',
     (Economy.remove_balance (Some db) user guild amount).2 = Some db' ->
     ledger_sound db')
  /\ (forall amount db',
        0 <= amount ->
        (Economy.add_balance (Some db) user guild amount).2 = Some db' ->
        ledger_sound db')
  /\ (forall now g db',
        (Economy.daily (Some db) user guild now g).1.2 = Some db' ->
        ledger_sound db')
  /\ (forall g db',
        (Economy.work (Some db) user guild g).1.2 = Some db' ->
        ledger_sound db')
  /\ (forall member member_bot amount db',
        (Economy.pay (Some db) user guild member member_bot amount).2 = Some db' ->
        ledger_sound db')
  /\ (forall amount g db',
        (Economy.gamble (Some db) user guild amount g).1.2 = Some db' ->
        ledger_sound db').
Proof.
  intros laws Hdb.
  assert (forall key n,
            key = "balance" \/ key = "daily_streak" ->
            dict_get (if dict_not (DatabaseManager.get_economy_data db user guild)
                      then Economy.fresh
                      else DatabaseManager.get_economy_data db user guild) key (VInt 0)
            = VInt n -> 0 <= n) as Hloaded
    by (intros key n; apply ledger_sound_loaded; exact Hdb).
  split; [|split; [|split; [|split; [|split]]]].
  - intros amount db'. unfold Economy.remove_balance, Economy.remove_balance_body.
    destruct (dict_get _ "balance" (VInt 0)) as [b|items] eqn:Hb; simpl; intros [= <-];
      [|exact Hdb].
    apply ledger_sound_balance; [exact Hdb | exact Hdb | lia].
  - intros amount db' Hamount. unfold Economy.add_balance, Economy.add_balance_body.
    destruct (dict_get _ "balance" (VInt 0)) as [b|items] eqn:Hb; simpl; intros [= <-];
      [|exact Hdb].
    pose proof (Hloaded "balance" b ltac:(by left) Hb).
    apply ledger_sound_balance; [exact Hdb | exact Hdb | lia].
  - intros now g db'. unfold Economy.daily, Economy.daily_body.
    set (data := if dict_not _ then _ else _) in *.
    destruct (dict_get data "last_daily" (VInt 0)) as [last|items]; simpl;
      [|by intros [= <-]].
    destruct (now - last <? Economy.daily_cooldown).
    { destruct (data !! "daily_streak") as [[s|items]|]; simpl; by intros [= <-]. }
    pose proof (rnd_randint_range Economy.daily_min Economy.daily_max g
                  ltac:(unfold Economy.daily_min, Economy.daily_max; lia)) as Hdraw.
    unfold Economy.daily_min, Economy.daily_max, Economy.daily_streak_bonus in *.
    destruct (rnd_randint 100 200 g) as [base g']. simpl in Hdraw.
    destruct (dict_get data "balance" (VInt 0)) as [b|items] eqn:Hb.
    + pose proof (Hloaded "balance" b ltac:(by left) Hb) as Hb0.
      destruct (now - last <? Economy.daily_cooldown * 2).
      * destruct (dict_get data "daily_streak" (VInt 0)) as [s|items] eqn:Hs; simpl;
          [|by intros [= <-]].
        pose proof (Hloaded "daily_streak" s ltac:(by right) Hs) as Hs0.
        intros [= <-]. apply ledger_sound_update; [exact Hdb|].
        intros n key Hkey. rewrite !dict_get_insert.
        destruct Hkey as [->| ->]; simpl; intros [= <-]; nia.
      * simpl. intros [= <-]. apply ledger_sound_update; [exact Hdb|].
        intros n key Hkey. rewrite !dict_get_insert.
        destruct Hkey as [->| ->]; simpl; intros [= <-]; lia.
    + destruct (now - last <? Economy.daily_cooldown * 2).
      * destruct (dict_get data "daily_streak" (VInt 0)) as [s|items']; simpl;
          by intros [= <-].
      * simpl. by intros [= <-].
  - intros g db'. unfold Economy.work.
    pose proof (rnd_randint_range Economy.work_min Economy.work_max g
                  ltac:(unfold Economy.work_min, Economy.work_max; lia)) as Hdraw.
    unfold Economy.work_min, Economy.work_max in *.
    destruct (rnd_randint 10 50 g) as [earnings g']. simpl in Hdraw.
    destruct (dict_get _ "balance" (VInt 0)) as [b|items] eqn:Hb; simpl;
      [|by intros [= <-]].
    destruct (rnd_randbelow Economy.work_messages g') as [message g'']. simpl.
    intros [= <-].
    pose proof (Hloaded "balance" b ltac:(by left) Hb).
    apply ledger_sound_balance; [exact Hdb | exact Hdb | lia].
  - intros member member_bot amount db'. unfold Economy.pay.
    destruct (Z.leb_spec amount 0) as [?|Hamount]; [by intros [= <-]|].
    case_bool_decide; [by intros [= <-]|]. destruct member_bot; [by intros [= <-]|].
    pose proof (ledger_sound_fresh db user guild Hdb) as Hfresh.
    assert (exists data db1,
              (if dict_not (DatabaseManager.get_economy_data db user guild)
               then (Economy.fresh,
                     DatabaseManager.update_economy_data db user guild Economy.fresh)
               else (DatabaseManager.get_economy_data db user guild, db)) = (data, db1)
              /\ ledger_sound db1
              /\ data = (if dict_not (DatabaseManager.get_economy_data db1 user guild)
                         then Economy.fresh
                         else DatabaseManager.get_economy_data db1 user guild))
      as (data & db1 & -> & Hdb1 & Hdata).
    { destruct (dict_not _) eqn:Hnot.
      - eexists _, _. split; [reflexivity|]. split; [exact Hfresh|].
        rewrite get_update_economy_data. by destruct (dict_not Economy.fresh).
      - eexists _, _. split; [reflexivity|]. split; [exact Hdb|]. by rewrite Hnot. }
    destruct (dict_get data "balance" (VInt 0)) as [bs|items] eqn:Hbs; simpl;
      [|by intros [= <-]].
    destruct (Z.ltb_spec bs amount) as [?|Hcover]; [by intros [= <-]|].
    unfold dict_item. destruct (data !! "balance") as [v|] eqn:Hkey; simpl;
      [|by intros [= <-]].
    assert (v = VInt bs) as -> by (unfold dict_get in Hbs; by rewrite Hkey in Hbs).
    simpl.
    assert (ledger_sound
              (DatabaseManager.update_economy_data db1 user guild
                 (<["balance" := VInt (bs - amount)]> data))) as Hdb2.
    { rewrite Hdata. apply ledger_sound_balance; [exact Hdb1 | exact Hdb1 | lia]. }
    destruct (dict_get
                (if dict_not (DatabaseManager.get_economy_data db1 member guild)
                 then _ else _) "balance" (VInt 0)) as [br|items] eqn:Hbr;
      simpl; intros [= <-]; [|exact Hdb2].
    pose proof (ledger_sound_loaded db1 member guild br "balance" Hdb1 ltac:(by left) Hbr).
    apply ledger_sound_balance; [|exact Hdb1|lia].
    subst data. apply ledger_sound_balance; [exact Hdb2 | exact Hdb1 | lia].
  - intros amount g db'. unfold Economy.gamble.
    pose proof (ledger_sound_fresh db user guild Hdb) as Hfresh.
    assert (exists data db1,
              (if dict_not (DatabaseManager.get_economy_data db user guild)
               then (Economy.fresh,
                     DatabaseManager.update_economy_data db user guild Economy.fresh)
               else (DatabaseManager.get_economy_data db user guild, db)) = (data, db1)
              /\ ledger_sound db1
              /\ data = (if dict_not (DatabaseManager.get_economy_data db1 user guild)
                         then Economy.fresh
                         else DatabaseManager.get_economy_data db1 user guild))
      as (data & db1 & -> & Hdb1 & Hdata).
    { destruct (dict_not _) eqn:Hnot.
      - eexists _, _. split; [reflexivity|]. split; [exact Hfresh|].
        rewrite get_update_economy_data. by destruct (dict_not Economy.fresh).
      - eexists _, _. split; [reflexivity|]. split; [exact Hdb|]. by rewrite Hnot. }
    destruct (dict_get data "balance" (VInt 0)) as [b|items] eqn:Hb.
    + destruct amount as [| |n|]; simpl; [| | |by intros [= <-]];
        match goal with
        | |- context [?bet_amount <=? 0] =>
            destruct (Z.leb_spec bet_amount 0) as [?|Hbet]; [by intros [= <-]|];
            destruct (Z.ltb_spec b bet_amount) as [?|Hcover]; [by intros [= <-]|];
            destruct (rnd_randint 1 100 g) as [roll g0];
            destruct (Economy.payout bet_amount roll) as [paid|e] eqn:Hpaid; simpl;
            [|by intros [= <-]];
            pose proof (payout_nonneg bet_amount roll paid ltac:(lia) Hpaid) as Hpay;
            intros [= <-]; rewrite Hdata;
            apply ledger_sound_balance; [exact Hdb1 | exact Hdb1 | lia]
        end.
    + destruct amount as [| |n|]; simpl; try by intros [= <-].
      destruct (n <=? 0); by intros [= <-].
Qed.

Lemma ledger50_sound : ledger_sound ledger50.
Proof.
  intros user guild n key Hkey. unfold ledger50, DatabaseManager.get_economy_data.
  destruct (decide ((1, 7) = (guild, user))) as [<-|Hother].
  - rewrite lookup_singleton_eq. destruct Hkey as [->| ->]; intros [= <-]; done.
  - rewrite lookup_singleton_ne by done. destruct Hkey as [->| ->]; intros [= <-]; done.
Qed.

Lemma ledger_stays_sound_witness :
  (forall amount db',
     (Economy.remove_balance (Some ledger50) 7 1 amount).2 = Some db' ->
     ledger_sound db')
  /\ (forall amount db',
        0 <= amount ->
        (Economy.add_balance (Some ledger50) 7 1 amount).2 = Some db' ->
        ledger_sound db')
  /\ (forall now g db',
        (Economy.daily (R := identity_random) (Some ledger50) 7 1 now g).1.2 = Some db' ->
        ledger_sound db')
  /\ (forall g db',
        (Economy.work (R := identity_random) (Some ledger50) 7 1 g).1.2 = Some db' ->
        ledger_sound db')
  /\ (forall member member_bot amount db',
        (Economy.pay (Some ledger50) 7 1 member member_bot amount).2 = Some db' ->
        ledger_sound db')
  /\ (forall amount g db',
        (Economy.gamble (R := identity_random) (Some ledger50) 7 1 amount g).1.2
        = Some db' ->
        ledger_sound db').
Proof.
  apply (ledger_stays_sound identity_random ledger50 7 1).
  - exact identity_random_laws.
  - exact ledger50_sound.
Defined.

(** ** Blackjack: naturals and settlement *)

Lemma blackjack_value_ten_up (c : Blackjack.Card) :
  (10 <=? Blackjack.blackjack_value c) = true <->
  Blackjack.value c = 1 \/ 10 <= Blackjack.value c.
Proof.
  unfold Blackjack.blackjack_value. rewrite Z.leb_le.
  destruct (Z.eqb_spec (Blackjack.value c) 1);
    destruct (Z.leb_spec 10 (Blackjack.value c)); lia.
Qed.

Lemma get_hand_value_pair (c0 c1 : Blackjack.Card) :
  Blackjack.get_hand_value [c0; c1]
  = if decide (Blackjack.value c0 = 1) then
      if decide (Blackjack.value c1 = 1) then 12
      else 11 + Blackjack.blackjack_value c1
    else if decide (Blackjack.value c1 = 1) then Blackjack.blackjack_value c0 + 11
    else Blackjack.blackjack_value c0 + Blackjack.blackjack_value c1.
Proof.
  unfold Blackjack.get_hand_value. rewrite !filter_cons, filter_nil.
  assert (forall c,
            (Blackjack.value c = 1 /\ Blackjack.blackjack_value c = 11)
            \/ (Blackjack.value c <> 1 /\ Blackjack.blackjack_value c <= 10)) as Hvalue.
  { intros c. unfold Blackjack.blackjack_value.
    destruct (Z.eqb_spec (Blackjack.value c) 1); [by left|]. right.
    destruct (Z.leb_spec 10 (Blackjack.value c)); lia. }
  unfold Blackjack.sum. simpl foldr.
  destruct (Hvalue c0) as [[H0 ->]|[H0 ?]], (Hvalue c1) as [[H1 ->]|[H1 ?]];
    repeat case_decide; try done; simpl;
    repeat match goal with |- context [?a <? ?b] => destruct (Z.ltb_spec a b) end;
    lia.
Qed.

(** X9.  [is_blackjack] holds exactly of the hands of two cards in which
    one is an ace and the other an ace or worth ten.  Such a hand is
    worth 21, except the pair of aces, which it also accepts and which
    is worth 12. *)
Theorem is_blackjack_spec (hand : list Blackjack.Card) :
  (Blackjack.is_blackjack hand = true <->
   exists c0 c1,
     hand = [c0; c1]
     /\ ((Blackjack.value c0 = 1 /\ (Blackjack.value c1 = 1 \/ 10 <= Blackjack.value c1))
         \/ (Blackjack.value c1 = 1
             /\ (Blackjack.value c0 = 1 \/ 10 <= Blackjack.value c0))))
  /\ (Blackjack.is_blackjack hand = true ->
      if bool_decide (Forall (fun c => Blackjack.value c = 1) hand)
      then Blackjack.get_hand_value hand = 12
      else Blackjack.get_hand_value hand = 21).
Proof.
  assert (Blackjack.is_blackjack hand = true <->
          exists c0 c1,
            hand = [c0; c1]
            /\ ((Blackjack.value c0 = 1
                 /\ (Blackjack.value c1 = 1 \/ 10 <= Blackjack.value c1))
                \/ (Blackjack.value c1 = 1
                    /\ (Blackjack.value c0 = 1 \/ 10 <= Blackjack.value c0)))) as Hiff.
  { destruct hand as [|c0 [|c1 [|c2 hand]]]; simpl;
      try (split; [done | by intros (? & ? & [=] & _)]).
    rewrite orb_true_iff, !andb_true_iff, !blackjack_value_ten_up, !Z.eqb_eq.
    split.
    - intros Hnat. by exists c0, c1.
    - by intros (? & ? & [= <- <-] & Hnat). }
  split; [exact Hiff|].
  intros (c0 & c1 & -> & Hnat)%Hiff. rewrite get_hand_value_pair.
  assert (forall c, 10 <= Blackjack.value c -> Blackjack.blackjack_value c = 10) as Hten.
  { intros c Hc. unfold Blackjack.blackjack_value.
    destruct (Z.eqb_spec (Blackjack.value c) 1); [lia|].
    destruct (Z.leb_spec 10 (Blackjack.value c)); lia. }
  case_bool_decide as Haces.
  - apply Forall_cons in Haces as [H0 [H1 _]%Forall_cons].
    by rewrite !decide_True.
  - repeat case_decide.
    + destruct Haces. by repeat constructor.
    + destruct Hnat as [[_ [?|?]]|[? _]]; try done. rewrite Hten by done. lia.
    + destruct Hnat as [[? _]|[_ [?|?]]]; try done. rewrite Hten by done. lia.
    + by destruct Hnat as [[? _]|[? _]].
Qed.

Lemma calculate_reward_settle (game : Blackjack.BlackjackGame) :
  Z.abs (Blackjack.bet game) < 2 ^ 50 ->
  Blackjack.calculate_reward (Blackjack.settle game "blackjack")
  = Ok (Z.quot (Blackjack.bet game * 5) 2)
  /\ Blackjack.calculate_reward (Blackjack.settle game "player_wins")
     = Ok (Blackjack.bet game * 2)
  /\ Blackjack.calculate_reward (Blackjack.settle game "dealer_bust")
     = Ok (Blackjack.bet game * 2)
  /\ Blackjack.calculate_reward (Blackjack.settle game "push") = Ok (Blackjack.bet game)
  /\ Blackjack.calculate_reward (Blackjack.settle game "bust") = Ok 0
  /\ Blackjack.calculate_reward (Blackjack.settle game "dealer_blackjack") = Ok 0
  /\ Blackjack.calculate_reward (Blackjack.settle game "dealer_wins") = Ok 0.
Proof.
  intros Hbound. split; [|by repeat split].
  unfold Blackjack.calculate_reward. simpl.
  rewrite int_times_float_exact by (done || lia). by rewrite Z.mul_comm.
Qed.

(** X10.  How a fresh game with a bet below 2^50 is settled and paid,
    with [p] and [d] the values of the player's and the dealer's hand.
    The game is over as soon as a hand is a natural, the player is over
    21 or has stood.  [calculate_reward] returns a reward; it exceeds
    the bet exactly when the player alone holds a natural, or, without
    naturals, has stood on 21 or less with the dealer over 21 or below
    the player; it equals the bet exactly on two naturals or on a stand
    at equal values; and it is never negative nor more than two and a
    half times the bet. *)
Theorem settlement (game : Blackjack.BlackjackGame) :
  Blackjack.result game = None ->
  0 < Blackjack.bet game ->
  Blackjack.bet game < 2 ^ 50 ->
  let settled := Blackjack.check_game_over game in
  let p := Blackjack.get_hand_value (Blackjack.player_hand game) in
  let d := Blackjack.get_hand_value (Blackjack.dealer_hand game) in
  let pn := Blackjack.is_blackjack (Blackjack.player_hand game) in
  let dn := Blackjack.is_blackjack (Blackjack.dealer_hand game) in
  let stood := Blackjack.player_stood game in
  (pn = true \/ dn = true \/ 21 < p \/ stood = true -> Blackjack.game_over settled = true)
  /\ (pn = false -> dn = false -> p <= 21 -> stood = false -> settled = game)
  /\ exists reward,
      Blackjack.calculate_reward settled = Ok reward
      /\ (Blackjack.bet game < reward <->
          (pn = true /\ dn = false)
          \/ (pn = false /\ dn = false /\ p <= 21 /\ stood = true /\ (21 < d \/ d < p)))
      /\ (reward = Blackjack.bet game <->
          (pn = true /\ dn = true)
          \/ (pn = false /\ dn = false /\ p <= 21 /\ stood = true /\ d <= 21 /\ d = p))
      /\ 0 <= reward <= Z.quot (Blackjack.bet game * 5) 2.
Proof.
  intros Hfresh Hbet Hbound settled p d pn dn stood.
  destruct (calculate_reward_settle game ltac:(lia))
    as (Hbj & Hwin & Hdbust & Hpush & Hbust & Hdbj & Hdwin).
  assert (Blackjack.calculate_reward game = Ok 0) as Hnone.
  { unfold Blackjack.calculate_reward. by rewrite Hfresh. }
  assert (Blackjack.bet game * 2 <= Z.quot (Blackjack.bet game * 5) 2) as Hquot.
  { rewrite Z.quot_div_nonneg by lia. apply Z.div_le_lower_bound; lia. }
  subst settled. unfold Blackjack.check_game_over.
  fold p d pn dn stood.
  destruct pn, dn; simpl; rewrite ?Hpush, ?Hbj, ?Hdbj;
    try (split; [intros; done|]; split; [intros; done|];
         eexists; (split; [reflexivity|]);
         split_and!; intros; try done; try lia; try (left; done);
         try (intuition (try done; lia)); fail).
  destruct (Z.ltb_spec 21 p) as [Hover|Hfine]; rewrite ?Hbust.
  { split; [intros; done|]. split; [intros; lia|].
    eexists; (split; [reflexivity|]).
    split_and!; intros; try done; try lia; intuition (try done; lia). }
  destruct stood.
  2:{ rewrite Hnone. split; [intros [?|[?|[?|?]]]; (done || lia)|].
      split; [intros; done|].
      eexists; (split; [reflexivity|]).
      split_and!; intros; try done; try lia; intuition (try done; lia). }
  destruct (Z.ltb_spec 21 d) as [Hdover|Hdfine]; rewrite ?Hdbust.
  { split; [intros; done|]. split; [intros; done|].
    eexists; (split; [reflexivity|]).
    split_and!; intros; try done; try lia; intuition (try done; lia). }
  destruct (Z.ltb_spec p d) as [Hlow|Hnotlow]; rewrite ?Hdwin.
  { split; [intros; done|]. split; [intros; done|].
    eexists; (split; [reflexivity|]).
    split_and!; intros; try done; try lia; intuition (try done; lia). }
  destruct (Z.ltb_spec d p) as [Hhigh|Hnothigh]; rewrite ?Hwin, ?Hpush.
  { split; [intros; done|]. split; [intros; done|].
    eexists; (split; [reflexivity|]).
    split_and!; intros; try done; try lia; intuition (try done; lia). }
  split; [intros; done|]. split; [intros; done|].
  eexists; (split; [reflexivity|]).
  split_and!; intros; try done; try lia; intuition (try done; lia).
Qed.

Lemma settlement_witness :
  let settled := Blackjack.check_game_over hearts_game in
  let p := Blackjack.get_hand_value (Blackjack.player_hand hearts_game) in
  let d := Blackjack.get_hand_value (Blackjack.dealer_hand hearts_game) in
  let pn := Blackjack.is_blackjack (Blackjack.player_hand hearts_game) in
  let dn := Blackjack.is_blackjack (Blackjack.dealer_hand hearts_game) in
  let stood := Blackjack.player_stood hearts_game in
  (pn = true \/ dn = true \/ 21 < p \/ stood = true -> Blackjack.game_over settled = true)
  /\ (pn = false -> dn = false -> p <= 21 -> stood = false -> settled = hearts_game)
  /\ exists reward,
      Blackjack.calculate_reward settled = Ok reward
      /\ (Blackjack.bet hearts_game < reward <->
          (pn = true /\ dn = false)
          \/ (pn = false /\ dn = false /\ p <= 21 /\ stood = true /\ (21 < d \/ d < p)))
      /\ (reward = Blackjack.bet hearts_game <->
          (pn = true /\ dn = true)
          \/ (pn = false /\ dn = false /\ p <= 21 /\ stood = true /\ d <= 21 /\ d = p))
      /\ 0 <= reward <= Z.quot (Blackjack.bet hearts_game * 5) 2.
Proof.
  apply (settlement hearts_game).
  - reflexivity.
  - simpl. lia.
  - reflexivity.
Defined.

(** ** Blackjack: the pack through a session *)

Lemma build_NoDup : NoDup Blackjack.build.
Proof. apply (bool_decide_unpack _). by vm_compute. Qed.

Lemma deal_last (R : Random) (cards : list Blackjack.Card) (c : Blackjack.Card) (g : rng) :
  Blackjack.deal (cards ++ [c]) g = Ok (c, cards, g).
Proof.
  unfold Blackjack.deal. destruct (cards ++ [c]) as [|c0 rest] eqn:Hcards.
  - by destruct cards.
  - rewrite <- Hcards, list_pop_snoc. reflexivity.
Qed.

Lemma snoc_of_length {A : Type} (l : list A) :
  (0 < length l)%nat -> exists l' x, l = l' ++ [x].
Proof.
  intros Hlen. destruct l as [|x0 l]; [simpl in Hlen; lia|].
  destruct (list_pop_cons x0 l) as (y & l' & Hl & _). by exists l', y.
Qed.

Lemma pack_length_le_hard (hand : list Blackjack.Card) :
  Forall (fun c => c ∈ Blackjack.build) hand ->
  Z.of_nat (length hand) <= Blackjack.sum (Blackjack.hard_value <$> hand).
Proof.
  induction 1 as [|c hand Hc _ IH]; [done|].
  change (Blackjack.sum (Blackjack.hard_value <$> c :: hand))
    with (Blackjack.hard_value c + Blackjack.sum (Blackjack.hard_value <$> hand)).
  pose proof (hard_value_pos c Hc). simpl length. lia.
Qed.

(** A hand of pack cards has at most as many cards as it is worth. *)
Lemma pack_length_le_value (hand : list Blackjack.Card) :
  Forall (fun c => c ∈ Blackjack.build) hand ->
  Z.of_nat (length hand) <= Blackjack.get_hand_value hand.
Proof.
  intros Hpack. pose proof (pack_length_le_hard hand Hpack).
  pose proof (get_hand_value_ge_hard hand). lia.
Qed.

Lemma check_game_over_keeps (game : Blackjack.BlackjackGame) :
  Blackjack.player_hand (Blackjack.check_game_over game) = Blackjack.player_hand game
  /\ Blackjack.dealer_hand (Blackjack.check_game_over game) = Blackjack.dealer_hand game
  /\ Blackjack.deck (Blackjack.check_game_over game) = Blackjack.deck game
  /\ Blackjack.player_stood (Blackjack.check_game_over game) = Blackjack.player_stood game
  /\ Blackjack.bet (Blackjack.check_game_over game) = Blackjack.bet game.
Proof.
  unfold Blackjack.check_game_over.
  repeat match goal with |- context [if ?b then _ else _] => destruct b eqn:? end;
    repeat split; simpl; congruence.
Qed.

Lemma check_game_over_open (game : Blackjack.BlackjackGame) :
  Blackjack.game_over (Blackjack.check_game_over game) = false ->
  Blackjack.player_stood game = false
  /\ Blackjack.get_hand_value (Blackjack.player_hand game) <= 21.
Proof.
  unfold Blackjack.check_game_over.
  destruct (_ && _); [done|].
  destruct (Blackjack.is_blackjack (Blackjack.player_hand game)); [done|].
  destruct (Blackjack.is_blackjack (Blackjack.dealer_hand game)); [done|].
  destruct (Z.ltb_spec 21 (Blackjack.get_hand_value (Blackjack.player_hand game)));
    [done|].
  destruct (Blackjack.player_stood game);
    [repeat match goal with |- context [if ?b then _ else _] => destruct b end; done|].
  by intros _.
Qed.

(** While the player holds at most 21 cards the dealer's draws come out
    of the deck: the dealer's hand, the deck and the player's hand stay
    an arrangement of the pack. *)
Lemma dealer_draw_partition (R : Random) (fuel : nat)
    (cards hand rest cards' hand' : list Blackjack.Card) (g g' : rng) :
  hand ++ cards ++ rest ≡ₚ Blackjack.build ->
  (length rest <= 21)%nat ->
  Blackjack.dealer_draw fuel cards hand g = Some (Ok (cards', hand', g')) ->
  hand' ++ cards' ++ rest ≡ₚ Blackjack.build.
Proof.
  revert cards hand g. induction fuel as [|fuel IH]; intros cards hand g Hperm Hrest; simpl.
  - destruct (_ <? 17); [done|]. by intros [= <- <- <-].
  - destruct (Z.ltb_spec (Blackjack.get_hand_value hand) 17) as [Hlow|_];
      [|by intros [= <- <- <-]].
    assert (Forall (fun c => c ∈ Blackjack.build) hand) as Hpack.
    { apply Forall_forall. intros c Hc. rewrite <- Hperm. apply elem_of_app. by left. }
    pose proof (pack_length_le_value hand Hpack) as Hshort.
    pose proof (Permutation_length Hperm) as Hlen.
    rewrite !length_app, build_length in Hlen.
    destruct (snoc_of_length cards ltac:(lia)) as (cards0 & c & ->).
    rewrite deal_last. apply IH; [|exact Hrest].
    rewrite <- Hperm. rewrite <- !(assoc_L (++)).
    apply Permutation_app_head. simpl. apply Permutation_middle.
Qed.

(** A new game deals four cards off the shuffled pack. *)
Lemma new_game_partition (R : Random) (laws : RandomLaws R)
    (player bet : Z) (g g' : rng) (game : Blackjack.BlackjackGame) :
  Blackjack.new_game player bet g = Ok (game, g') ->
  Blackjack.player_hand game ++ Blackjack.dealer_hand game ++ Blackjack.deck game
    ≡ₚ Blackjack.build
  /\ length (Blackjack.player_hand game) = 2%nat
  /\ length (Blackjack.dealer_hand game) = 2%nat
  /\ Blackjack.player_stood game = false.
Proof.
  unfold Blackjack.new_game.
  pose proof (rnd_shuffle_perm _ Blackjack.build g) as Hperm.
  destruct (rnd_shuffle Blackjack.build g) as [cards0 g0]. simpl in Hperm.
  pose proof (Permutation_length Hperm) as Hlen. rewrite build_length in Hlen.
  destruct (snoc_of_length cards0 ltac:(lia)) as (cards1 & c1 & ->).
  rewrite length_app in Hlen. simpl in Hlen.
  destruct (snoc_of_length cards1 ltac:(lia)) as (cards2 & c2 & ->).
  rewrite length_app in Hlen. simpl in Hlen.
  destruct (snoc_of_length cards2 ltac:(lia)) as (cards3 & c3 & ->).
  rewrite length_app in Hlen. simpl in Hlen.
  destruct (snoc_of_length cards3 ltac:(lia)) as (cards4 & c4 & ->).
  rewrite deal_last. simpl. rewrite deal_last. simpl. rewrite deal_last. simpl.
  rewrite deal_last. simpl. intros [= <- <-]. simpl.
  split; [|done]. rewrite <- Hperm.
  rewrite <- !Permutation_cons_append.
  apply perm_skip. apply perm_swap.
Qed.

(** What a session keeps: the hands and the deck are an arrangement of
    the pack, and while the game is open the player has not stood, holds
    at most 21, and the dealer holds two cards. *)
Lemma session_invariant (R : Random) (laws : RandomLaws R)
    (game : Blackjack.BlackjackGame) :
  Blackjack.session game ->
  Blackjack.player_hand game ++ Blackjack.dealer_hand game ++ Blackjack.deck game
    ≡ₚ Blackjack.build
  /\ (Blackjack.game_over game = false ->
      Blackjack.player_stood game = false
      /\ Blackjack.get_hand_value (Blackjack.player_hand game) <= 21
      /\ length (Blackjack.dealer_hand game) = 2%nat).
Proof.
  induction 1 as [player bet g game g' Hnew
                 |game g game' g' _ IH Hopen Hhit
                 |game fuel g game' g' _ IH Hopen Hstand].
  - destruct (new_game_partition R laws _ _ _ _ _ Hnew) as (Hperm & _ & Hdealer & _).
    destruct (check_game_over_keeps game) as (-> & -> & -> & -> & _).
    split; [exact Hperm|]. intros Hrun.
    destruct (check_game_over_open game Hrun). done.
  - destruct IH as [Hperm Hrun]. destruct (Hrun Hopen) as (Hstood & Hvalue & Hdealer).
    assert (Forall (fun c => c ∈ Blackjack.build) (Blackjack.player_hand game)) as Hpack.
    { apply Forall_forall. intros c Hc. rewrite <- Hperm. apply elem_of_app. by left. }
    pose proof (pack_length_le_value _ Hpack) as Hshort.
    pose proof (Permutation_length Hperm) as Hlen.
    rewrite !length_app, build_length in Hlen.
    destruct (snoc_of_length (Blackjack.deck game) ltac:(lia)) as (cards & c & Hdeck).
    unfold Blackjack.player_hit in Hhit.
    rewrite Hopen, Hstood, Hdeck, deal_last in Hhit. simpl in Hhit.
    injection Hhit as <- <-.
    destruct (check_game_over_keeps
                {| Blackjack.player := Blackjack.player game;
                   Blackjack.bet := Blackjack.bet game; Blackjack.deck := cards;
                   Blackjack.player_hand := Blackjack.player_hand game ++ [c];
                   Blackjack.dealer_hand := Blackjack.dealer_hand game;
                   Blackjack.player_stood := false; Blackjack.game_over := false;
                   Blackjack.result := Blackjack.result game |})
      as (Hp & Hd & Hk & Hs & _).
    split.
    + rewrite Hp, Hd, Hk. simpl. rewrite <- Hperm, Hdeck.
      rewrite <- !(assoc_L (++)). apply Permutation_app_head. simpl.
      rewrite (assoc_L (++) (Blackjack.dealer_hand game)).
      apply Permutation_cons_append.
    + intros Hrun'. destruct (check_game_over_open _ Hrun') as [? Hv].
      rewrite Hp, Hd, Hs. simpl in *. done.
  - destruct IH as [Hperm Hrun]. destruct (Hrun Hopen) as (Hstood & Hvalue & Hdealer).
    assert (Forall (fun c => c ∈ Blackjack.build) (Blackjack.player_hand game)) as Hpack.
    { apply Forall_forall. intros c Hc. rewrite <- Hperm. apply elem_of_app. by left. }
    pose proof (pack_length_le_value _ Hpack) as Hshort.
    unfold Blackjack.player_stand in Hstand. rewrite Hopen, Hstood in Hstand.
    simpl in Hstand.
    destruct (Blackjack.dealer_draw fuel (Blackjack.deck game)
                (Blackjack.dealer_hand game) g) as [[[[cards hand] g1]|e]|] eqn:Hdraw;
      try done.
    injection Hstand as <- <-.
    pose proof (dealer_draw_partition R fuel (Blackjack.deck game)
                  (Blackjack.dealer_hand game) (Blackjack.player_hand game)
                  cards hand g g1) as Hdrawn.
    destruct (check_game_over_keeps
                {| Blackjack.player := Blackjack.player game;
                   Blackjack.bet := Blackjack.bet game; Blackjack.deck := cards;
                   Blackjack.player_hand := Blackjack.player_hand game;
                   Blackjack.dealer_hand := hand;
                   Blackjack.player_stood := true; Blackjack.game_over := false;
                   Blackjack.result := Blackjack.result game |})
      as (Hp & Hd & Hk & _).
    split.
    + rewrite Hp, Hd, Hk. simpl.
      rewrite (Permutation_app_comm (Blackjack.player_hand game)).
      rewrite <- (assoc_L (++)). apply Hdrawn; [|lia|exact Hdraw].
      rewrite <- Hperm. rewrite (Permutation_app_comm (Blackjack.player_hand game)).
      by rewrite <- (assoc_L (++)).
    + intros Hrun'. destruct (check_game_over_open _ Hrun') as [Hs _]. done.
Qed.

(** X11.  Through a whole session, however the player hits and whenever
    the player stands or times out, the two hands and the deck together
    are the pack of 52: no card is held twice, and the rebuild of an
    empty deck in [Deck.deal] is never reached. *)
Theorem session_keeps_the_pack (R : Random) (game : Blackjack.BlackjackGame) :
  RandomLaws R ->
  Blackjack.session game ->
  Blackjack.player_hand game ++ Blackjack.dealer_hand game ++ Blackjack.deck game
    ≡ₚ Blackjack.build
  /\ NoDup
       (Blackjack.player_hand game ++ Blackjack.dealer_hand game ++ Blackjack.deck game)
  /\ (length (Blackjack.player_hand game) + length (Blackjack.dealer_hand game)
      + length (Blackjack.deck game) = 52)%nat
  /\ (Blackjack.game_over game = false -> Blackjack.deck game <> []).
Proof.
  intros laws Hsession.
  destruct (session_invariant R laws game Hsession) as [Hperm Hrun].
  split; [exact Hperm|]. split; [rewrite Hperm; apply build_NoDup|].
  pose proof (Permutation_length Hperm) as Hlen.
  rewrite !length_app, build_length in Hlen. split; [lia|].
  intros Hopen Hdeck. destruct (Hrun Hopen) as (_ & Hvalue & Hdealer).
  assert (Forall (fun c => c ∈ Blackjack.build) (Blackjack.player_hand game)) as Hpack.
  { apply Forall_forall. intros c Hc. rewrite <- Hperm. apply elem_of_app. by left. }
  pose proof (pack_length_le_value _ Hpack). rewrite Hdeck in Hlen. simpl in Hlen. lia.
Qed.

Lemma hearts_game_session :
  Blackjack.session (R := reverse_random) (Blackjack.check_game_over hearts_game).
Proof.
  apply (Blackjack.session_start (R := reverse_random) 7 10 tt hearts_game tt).
  by vm_compute.
Qed.

Lemma session_keeps_the_pack_witness :
  let game := Blackjack.check_game_over hearts_game in
  Blackjack.player_hand game ++ Blackjack.dealer_hand game ++ Blackjack.deck game
    ≡ₚ Blackjack.build
  /\ NoDup
       (Blackjack.player_hand game ++ Blackjack.dealer_hand game ++ Blackjack.deck game)
  /\ (length (Blackjack.player_hand game) + length (Blackjack.dealer_hand game)
      + length (Blackjack.deck game) = 52)%nat
  /\ (Blackjack.game_over game = false -> Blackjack.deck game <> []).
Proof.
  apply (session_keeps_the_pack reverse_random (Blackjack.check_game_over hearts_game)).
  - exact reverse_random_laws.
  - exact hearts_game_session.
Defined.

(** ** Tic-Tac-Toe: moves, turns and the winner *)

(** X12.  [make_move] refuses a move exactly when the game is over, it
    is not the player's turn, the position is off the board or the cell
    is taken; a refused move leaves the game as it was. *)
Theorem make_move_refused (game : TicTacToe.TicTacToeGame) (position player : Z) :
  ((TicTacToe.make_move game position player).1 = false <->
   TicTacToe.game_over game = true
   \/ player <> TicTacToe.current_turn game
   \/ position < 0 \/ 8 < position
   \/ TicTacToe.cell (TicTacToe.board game) (Z.to_nat position) <> None)
  /\ ((TicTacToe.make_move game position player).1 = false ->
      (TicTacToe.make_move game position player).2 = game).
Proof.
  unfold TicTacToe.make_move.
  destruct (TicTacToe.game_over game) eqn:Hover; [split; [|done]; split; auto|].
  case_bool_decide as Hturn; [split; [|done]; split; auto|].
  destruct (Z.ltb_spec position 0) as [Hneg|Hpos]; [split; [|done]; split; auto|].
  destruct (Z.ltb_spec 8 position) as [Hbig|Hsmall]; simpl;
    [split; [|done]; split; auto|].
  case_bool_decide as Hcell; [split; [|done]; split; auto 6|].
  simpl. split; [|done]. split; [done|].
  intros [?|[?|[?|[?|?]]]]; try done; lia.
Qed.

(** An accepted move: who moved, which mark went where, whose turn is
    next. *)
Lemma make_move_accepted_turn (game game' : TicTacToe.TicTacToeGame)
    (position player : Z) :
  TicTacToe.make_move game position player = (true, game') ->
  let m := if bool_decide (player = TicTacToe.player1 game)
           then TicTacToe.X else TicTacToe.O in
  let moved :=
    {| TicTacToe.player1 := TicTacToe.player1 game;
       TicTacToe.player2 := TicTacToe.player2 game;
       TicTacToe.bet := TicTacToe.bet game;
       TicTacToe.board := <[Z.to_nat position := Some m]> (TicTacToe.board game);
       TicTacToe.current_turn :=
         if bool_decide (player = TicTacToe.player1 game)
         then TicTacToe.player2 game else TicTacToe.player1 game;
       TicTacToe.winner := TicTacToe.winner game;
       TicTacToe.game_over := TicTacToe.game_over game |} in
  TicTacToe.game_over game = false
  /\ player = TicTacToe.current_turn game
  /\ (Z.to_nat position < 9)%nat
  /\ TicTacToe.cell (TicTacToe.board game) (Z.to_nat position) = None
  /\ game' = TicTacToe.check_game_over moved.
Proof.
  unfold TicTacToe.make_move.
  destruct (TicTacToe.game_over game) eqn:Hover; [done|].
  case_bool_decide as Hturn; [done|].
  destruct (Z.ltb_spec position 0) as [?|Hpos]; [done|].
  destruct (Z.ltb_spec 8 position) as [?|Hsmall]; [done|]. simpl.
  case_bool_decide as Hfree; [done|].
  intros [= <-]. split; [reflexivity|].
  split; [destruct (decide (player = TicTacToe.current_turn game)); tauto|].
  split; [lia|]. split; [|reflexivity].
  destruct (TicTacToe.cell (TicTacToe.board game) (Z.to_nat position)); [|done].
  by destruct Hfree.
Qed.

Lemma check_game_over_players (game : TicTacToe.TicTacToeGame) :
  TicTacToe.player1 (TicTacToe.check_game_over game) = TicTacToe.player1 game
  /\ TicTacToe.player2 (TicTacToe.check_game_over game) = TicTacToe.player2 game
  /\ TicTacToe.bet (TicTacToe.check_game_over game) = TicTacToe.bet game
  /\ TicTacToe.current_turn (TicTacToe.check_game_over game)
     = TicTacToe.current_turn game.
Proof.
  unfold TicTacToe.check_game_over.
  destruct (list_find _ _) as [[? [[? ?] ?]]|]; [done|].
  by case_bool_decide.
Qed.

(** Putting a mark on a free cell adds one to the count of that mark and
    leaves the count of the other. *)
Lemma count_mark_insert (b : list (option TicTacToe.mark)) (i : nat)
    (m m' : TicTacToe.mark) :
  (i < length b)%nat -> TicTacToe.cell b i = None ->
  TicTacToe.count_mark (<[i := Some m]> b) m'
  = (TicTacToe.count_mark b m' + if decide (m = m') then 1 else 0)%nat.
Proof.
  intros Hlen Hfree.
  destruct (lookup_lt_is_Some_2 b i Hlen) as [c Hc].
  assert (c = None) as -> by (unfold TicTacToe.cell in Hfree; by rewrite Hc in Hfree).
  rewrite insert_take_drop by done.
  rewrite <- (take_drop_middle b i None Hc) at 3.
  unfold TicTacToe.count_mark.
  rewrite !filter_app, !filter_cons, !length_app.
  destruct (decide (None = Some m')) as [?|_]; [done|].
  destruct (decide (m = m')) as [->|Hne].
  - rewrite decide_True by done. simpl. lia.
  - rewrite decide_False by congruence. lia.
Qed.

(** What every reachable game between two different players satisfies:
    the board keeps its nine cells, X is level with O when it is
    player 1's turn and one ahead when it is player 2's, a winner is
    set only on a finished game, is the player who just moved and holds
    a complete line, and a finished game without a winner has a full
    board and no complete line. *)
Lemma played_invariant (game : TicTacToe.TicTacToeGame) :
  TicTacToe.played game ->
  TicTacToe.player1 game <> TicTacToe.player2 game ->
  length (TicTacToe.board game) = 9%nat
  /\ ((TicTacToe.count_mark (TicTacToe.board game) TicTacToe.X
       = TicTacToe.count_mark (TicTacToe.board game) TicTacToe.O
       /\ TicTacToe.current_turn game = TicTacToe.player1 game)
      \/ (TicTacToe.count_mark (TicTacToe.board game) TicTacToe.X
          = S (TicTacToe.count_mark (TicTacToe.board game) TicTacToe.O)
          /\ TicTacToe.current_turn game = TicTacToe.player2 game))
  /\ (TicTacToe.game_over game = false -> TicTacToe.winner game = None)
  /\ (forall w, TicTacToe.winner game = Some w ->
        w <> TicTacToe.current_turn game
        /\ (w = TicTacToe.player1 game \/ w = TicTacToe.player2 game)
        /\ exists l, l ∈ TicTacToe.lines
             /\ TicTacToe.line_of (TicTacToe.board game)
                  (if bool_decide (w = TicTacToe.player1 game)
                   then TicTacToe.X else TicTacToe.O) l)
  /\ (TicTacToe.game_over game = true -> TicTacToe.winner game = None ->
        (None ∉ TicTacToe.board game)
        /\ forall l m, l ∈ TicTacToe.lines ->
             ~ TicTacToe.line_of (TicTacToe.board game) m l).
Proof.
  induction 1 as [p1 p2 bet|game position player game' Hplayed IH Hmove]; intros Hne.
  { simpl. split; [done|]. split; [by left|]. done. }
  apply make_move_accepted_turn in Hmove as (Hrun & Hturn & Hpos & Hfree & ->).
  cbv zeta.
  set (m := if bool_decide (player = TicTacToe.player1 game)
            then TicTacToe.X else TicTacToe.O) in *.
  set (moved := TicTacToe.Build_TicTacToeGame _ _ _ _ _ _ _) in *.
  destruct (check_game_over_players moved) as (Hp1 & Hp2 & _ & Hct).
  rewrite Hp1, Hp2 in Hne. rewrite Hp1, Hp2, Hct, check_game_over_board.
  change (TicTacToe.player1 moved) with (TicTacToe.player1 game) in *.
  change (TicTacToe.player2 moved) with (TicTacToe.player2 game) in *.
  destruct (IH Hne) as (Hlen & Hcount & Hnowin & _ & _).
  specialize (Hnowin Hrun).
  assert (Z.to_nat position < length (TicTacToe.board game))%nat as Hin by lia.
  assert (forall l m', l ∈ TicTacToe.lines ->
            TicTacToe.line_of (TicTacToe.board moved) m' l -> m' = m) as Hmine.
  { intros l m' Hl Hline. destruct (decide (m' = m)) as [|Hother]; [done|].
    destruct (running_no_line game m' l Hplayed Hrun Hl).
    by apply (line_of_insert_other _ (Z.to_nat position) m). }
  assert ((player = TicTacToe.player1 game /\ m = TicTacToe.X
           /\ TicTacToe.current_turn moved = TicTacToe.player2 game
           /\ TicTacToe.count_mark (TicTacToe.board game) TicTacToe.X
              = TicTacToe.count_mark (TicTacToe.board game) TicTacToe.O)
          \/ (player = TicTacToe.player2 game /\ m = TicTacToe.O
              /\ TicTacToe.current_turn moved = TicTacToe.player1 game
              /\ TicTacToe.count_mark (TicTacToe.board game) TicTacToe.X
                 = S (TicTacToe.count_mark (TicTacToe.board game) TicTacToe.O)))
    as Hcase.
  { subst m. simpl.
    destruct Hcount as [[Hc Ht]|[Hc Ht]]; rewrite Ht in Hturn; subst player.
    - left. by rewrite !bool_decide_true by done.
    - right. by rewrite !bool_decide_false by done. }
  clearbody m. clear Hcount.
  change (TicTacToe.board moved) with
    (<[Z.to_nat position := Some m]> (TicTacToe.board game)) in *.
  split; [by rewrite length_insert|].
  split.
  { rewrite !count_mark_insert by done.
    destruct Hcase as [(_ & -> & -> & Hc)|(_ & -> & -> & Hc)].
    - right. rewrite decide_True, decide_False by done. split; [lia|done].
    - left. rewrite decide_False, decide_True by done. split; [lia|done]. }
  unfold TicTacToe.check_game_over.
  destruct (list_find _ _) as [[idx [[i j] k]]|] eqn:Hfind.
  - apply list_find_Some in Hfind as (Hidx & Hcomplete & _).
    apply list_elem_of_lookup_2 in Hidx.
    apply complete_line_of in Hcomplete as [m' Hline].
    change (TicTacToe.board moved) with
      (<[Z.to_nat position := Some m]> (TicTacToe.board game)) in *.
    pose proof (Hmine _ _ Hidx Hline) as ->.
    cbn [TicTacToe.winner TicTacToe.game_over TicTacToe.player1 TicTacToe.player2
         TicTacToe.board TicTacToe.current_turn].
    split; [done|]. split; [|done].
    intros w [= <-].
    pose proof Hline as (Hi & _). cbn [fst snd] in Hi. rewrite Hi.
    destruct Hcase as [(_ & -> & -> & _)|(_ & -> & -> & _)].
    + rewrite !bool_decide_true by done. split; [done|]. split; [by left|].
      by exists (i, j, k).
    + rewrite bool_decide_false by done. rewrite bool_decide_false by done.
      split; [done|]. split; [by right|]. by exists (i, j, k).
  - apply list_find_None in Hfind.
    change (TicTacToe.board moved) with
      (<[Z.to_nat position := Some m]> (TicTacToe.board game)) in *.
    case_bool_decide as Hfull; subst moved;
      cbn [TicTacToe.winner TicTacToe.game_over TicTacToe.player1 TicTacToe.player2
           TicTacToe.board TicTacToe.current_turn];
      rewrite Hnowin.
    + split; [done|]. split; [done|]. intros _ _. split; [done|].
      intros l m' Hl Hline. rewrite Forall_forall in Hfind.
      apply (Hfind l Hl). apply complete_line_of. by exists m'.
    + split; [done|]. split; [done|]. by rewrite Hrun.
Qed.

(** X13.  In a game between two different players, after any sequence
    of accepted moves the board still has nine cells and the marks
    follow the turn: X and O are level when it is player 1's turn, X is
    one ahead when it is player 2's. *)
Theorem turns_alternate (game : TicTacToe.TicTacToeGame) :
  TicTacToe.played game ->
  TicTacToe.player1 game <> TicTacToe.player2 game ->
  length (TicTacToe.board game) = 9%nat
  /\ ((TicTacToe.count_mark (TicTacToe.board game) TicTacToe.X
       = TicTacToe.count_mark (TicTacToe.board game) TicTacToe.O
       /\ TicTacToe.current_turn game = TicTacToe.player1 game)
      \/ (TicTacToe.count_mark (TicTacToe.board game) TicTacToe.X
          = S (TicTacToe.count_mark (TicTacToe.board game) TicTacToe.O)
          /\ TicTacToe.current_turn game = TicTacToe.player2 game)).
Proof.
  intros Hplayed Hne.
  destruct (played_invariant game Hplayed Hne) as (Hlen & Hcount & _). by split.
Qed.

Lemma turns_alternate_witness :
  length (TicTacToe.board double_line_game) = 9%nat
  /\ ((TicTacToe.count_mark (TicTacToe.board double_line_game) TicTacToe.X
       = TicTacToe.count_mark (TicTacToe.board double_line_game) TicTacToe.O
       /\ TicTacToe.current_turn double_line_game = TicTacToe.player1 double_line_game)
      \/ (TicTacToe.count_mark (TicTacToe.board double_line_game) TicTacToe.X
          = S (TicTacToe.count_mark (TicTacToe.board double_line_game) TicTacToe.O)
          /\ TicTacToe.current_turn double_line_game
             = TicTacToe.player2 double_line_game)).
Proof.
  apply (turns_alternate double_line_game); [exact double_line_played|].
  simpl. lia.
Defined.

(** X14.  In a game between two different players reached by accepted
    moves: a game that is not over has no winner; a winner is one of
    the two players, is the one who moved last (it is the other
    player's turn) and holds a complete line of their own mark; and a
    finished game without a winner has a full board on which no line
    is complete. *)
Theorem winner_sound (game : TicTacToe.TicTacToeGame) :
  TicTacToe.played game ->
  TicTacToe.player1 game <> TicTacToe.player2 game ->
  (TicTacToe.game_over game = false -> TicTacToe.winner game = None)
  /\ (forall w, TicTacToe.winner game = Some w ->
        w <> TicTacToe.current_turn game
        /\ (w = TicTacToe.player1 game \/ w = TicTacToe.player2 game)
        /\ exists l, l ∈ TicTacToe.lines
             /\ TicTacToe.line_of (TicTacToe.board game)
                  (if bool_decide (w = TicTacToe.player1 game)
                   then TicTacToe.X else TicTacToe.O) l)
  /\ (TicTacToe.game_over game = true -> TicTacToe.winner game = None ->
        (None ∉ TicTacToe.board game)
        /\ forall l m, l ∈ TicTacToe.lines ->
             ~ TicTacToe.line_of (TicTacToe.board game) m l).
Proof.
  intros Hplayed Hne.
  destruct (played_invariant game Hplayed Hne) as (_ & _ & Hrun & Hwin & Hdraw).
  by split.
Qed.

Lemma winner_sound_witness :
  1 <> TicTacToe.current_turn double_line_game
  /\ exists l, l ∈ TicTacToe.lines
       /\ TicTacToe.line_of (TicTacToe.board double_line_game) TicTacToe.X l.
Proof.
  destruct (winner_sound double_line_game double_line_played) as (_ & Hwin & _);
    [simpl; lia|].
  destruct (Hwin 1 eq_refl) as (Hturn & _ & Hline). split; [exact Hturn|].
  exact Hline.
Defined.

(** ** Tic-Tac-Toe: the wager *)

(** [start_game] takes the bet from both players when both can cover
    it. *)
Lemma start_game_takes_bets (w : TicTacToe.world) (channel guild p1 p2 bet b1 b2 : Z)
    (db : gmap (Z * Z) (gmap string json)) :
  economy_cog (TicTacToe.the_bot w) = Some Economy_cog ->
  db_manager (TicTacToe.the_bot w) = Some db ->
  p1 <> p2 -> 0 < bet -> bet <= b1 -> bet <= b2 ->
  dict_get (DatabaseManager.get_economy_data db p1 guild) "balance" (VInt 0) = VInt b1 ->
  dict_get (DatabaseManager.get_economy_data db p2 guild) "balance" (VInt 0) = VInt b2 ->
  exists w1 db1,
    TicTacToe.start_game w channel guild p1 p2 bet
    = (Ok (TicTacToe.GameLoop channel guild (TicTacToe.next_game w)
             (TicTacToe.new_game p1 p2 bet)), w1)
    /\ economy_cog (TicTacToe.the_bot w1) = Some Economy_cog
    /\ db_manager (TicTacToe.the_bot w1) = Some db1
    /\ dict_get (DatabaseManager.get_economy_data db1 p1 guild) "balance" (VInt 0)
       = VInt (b1 - bet)
    /\ dict_get (DatabaseManager.get_economy_data db1 p2 guild) "balance" (VInt 0)
       = VInt (b2 - bet).
Proof.
  intros Hcog Hdb Hne Hbet Hc1 Hc2 Hb1 Hb2.
  destruct (remove_balance_int db p1 guild bet b1 Hb1) as (dba & Ha & Ha1 & Haother).
  rewrite <- (Haother p2 Hne) in Hb2.
  destruct (remove_balance_int dba p2 guild bet b2 Hb2) as (dbb & Hb & Hbb2 & Hbother).
  unfold TicTacToe.start_game. cbv zeta.
  destruct (Z.ltb_spec 0 bet) as [_|?]; [|lia].
  cbn [TicTacToe.the_bot TicTacToe.set_db economy_cog db_manager].
  rewrite Hcog, Hdb. cbn [Economy_cog cog_remove_balance getattr mbind].
  cbn [exc_bind]. rewrite Ha. cbn [snd]. rewrite Hb. cbn [snd].
  eexists _, dbb. split; [reflexivity|].
  cbn [TicTacToe.the_bot TicTacToe.set_db economy_cog db_manager].
  split; [exact Hcog|]. split; [reflexivity|]. split.
  - rewrite (Hbother p1) by done. rewrite Ha1. f_equal. lia.
  - rewrite Hbb2. f_equal. lia.
Qed.

(** [end_game] pays twice the bet to the winner, or hands the bet back
    to both players when there is none. *)
Lemma end_game_pays (w : TicTacToe.world) (channel guild c1 c2 : Z)
    (game : TicTacToe.TicTacToeGame) (db : gmap (Z * Z) (gmap string json)) :
  economy_cog (TicTacToe.the_bot w) = Some Economy_cog ->
  db_manager (TicTacToe.the_bot w) = Some db ->
  TicTacToe.player1 game <> TicTacToe.player2 game -> 0 < TicTacToe.bet game ->
  (forall u, TicTacToe.winner game = Some u ->
     u = TicTacToe.player1 game \/ u = TicTacToe.player2 game) ->
  dict_get (DatabaseManager.get_economy_data db (TicTacToe.player1 game) guild)
    "balance" (VInt 0) = VInt c1 ->
  dict_get (DatabaseManager.get_economy_data db (TicTacToe.player2 game) guild)
    "balance" (VInt 0) = VInt c2 ->
  exists w2 db2,
    TicTacToe.end_game w channel guild game = (Ok (), w2)
    /\ db_manager (TicTacToe.the_bot w2) = Some db2
    /\ TicTacToe.games w2 = delete channel (TicTacToe.games w)
    /\ dict_get (DatabaseManager.get_economy_data db2 (TicTacToe.player1 game) guild)
         "balance" (VInt 0)
       = VInt (c1 + match TicTacToe.winner game with
                    | None => TicTacToe.bet game
                    | Some u => if bool_decide (u = TicTacToe.player1 game)
                                then TicTacToe.bet game * 2 else 0
                    end)
    /\ dict_get (DatabaseManager.get_economy_data db2 (TicTacToe.player2 game) guild)
         "balance" (VInt 0)
       = VInt (c2 + match TicTacToe.winner game with
                    | None => TicTacToe.bet game
                    | Some u => if bool_decide (u = TicTacToe.player2 game)
                                then TicTacToe.bet game * 2 else 0
                    end).
Proof.
  intros Hcog Hdb Hne Hbet Hwho Hc1 Hc2.
  unfold TicTacToe.end_game.
  destruct (Z.ltb_spec 0 (TicTacToe.bet game)) as [_|?]; [|lia].
  rewrite Hcog, Hdb. cbn [Economy_cog cog_add_balance getattr mbind exc_bind].
  destruct (TicTacToe.winner game) as [u|].
  - destruct (Hwho u eq_refl) as [->| ->].
    + destruct (add_balance_int db (TicTacToe.player1 game) guild
                  (TicTacToe.bet game * 2) c1 Hc1) as (db2 & Hadd & Hnew & Hother).
      rewrite Hadd. eexists _, db2. split; [reflexivity|].
      split; [reflexivity|]. split; [reflexivity|].
      rewrite bool_decide_true by done. rewrite bool_decide_false by done.
      split; [exact Hnew|]. rewrite (Hother _ Hne), Hc2. f_equal. lia.
    + destruct (add_balance_int db (TicTacToe.player2 game) guild
                  (TicTacToe.bet game * 2) c2 Hc2) as (db2 & Hadd & Hnew & Hother).
      rewrite Hadd. eexists _, db2. split; [reflexivity|].
      split; [reflexivity|]. split; [reflexivity|].
      rewrite bool_decide_false by done. rewrite bool_decide_true by done.
      split; [|exact Hnew]. rewrite (Hother (TicTacToe.player1 game)) by done.
      rewrite Hc1. f_equal. lia.
  - destruct (add_balance_int db (TicTacToe.player1 game) guild
                (TicTacToe.bet game) c1 Hc1) as (dba & Ha & Ha1 & Haother).
    rewrite <- (Haother _ Hne) in Hc2.
    destruct (add_balance_int dba (TicTacToe.player2 game) guild
                (TicTacToe.bet game) c2 Hc2) as (dbb & Hb & Hb2 & Hbother).
    cbn [TicTacToe.the_bot TicTacToe.set_db economy_cog db_manager].
    rewrite Ha. cbn [snd]. rewrite Hb. cbn [snd].
    eexists _, dbb. split; [reflexivity|].
    split; [reflexivity|]. split; [reflexivity|].
    split; [|exact Hb2]. by rewrite (Hbother (TicTacToe.player1 game)) by done.
Qed.

(** The timeout of the game loop hands the bet back to both players. *)
Lemma game_loop_timeout_returns (w : TicTacToe.world) (channel guild c1 c2 : Z)
    (game : TicTacToe.TicTacToeGame) (db : gmap (Z * Z) (gmap string json)) :
  economy_cog (TicTacToe.the_bot w) = Some Economy_cog ->
  db_manager (TicTacToe.the_bot w) = Some db ->
  TicTacToe.player1 game <> TicTacToe.player2 game -> 0 < TicTacToe.bet game ->
  dict_get (DatabaseManager.get_economy_data db (TicTacToe.player1 game) guild)
    "balance" (VInt 0) = VInt c1 ->
  dict_get (DatabaseManager.get_economy_data db (TicTacToe.player2 game) guild)
    "balance" (VInt 0) = VInt c2 ->
  exists g w2 db2,
    TicTacToe.game_loop_timeout w channel guild game = (Ok g, w2)
    /\ TicTacToe.game_over g = true
    /\ db_manager (TicTacToe.the_bot w2) = Some db2
    /\ TicTacToe.games w2 = delete channel (TicTacToe.games w)
    /\ dict_get (DatabaseManager.get_economy_data db2 (TicTacToe.player1 game) guild)
         "balance" (VInt 0) = VInt (c1 + TicTacToe.bet game)
    /\ dict_get (DatabaseManager.get_economy_data db2 (TicTacToe.player2 game) guild)
         "balance" (VInt 0) = VInt (c2 + TicTacToe.bet game).
Proof.
  intros Hcog Hdb Hne Hbet Hc1 Hc2.
  unfold TicTacToe.game_loop_timeout, TicTacToe.return_bets. cbv zeta.
  cbn [TicTacToe.bet TicTacToe.player1 TicTacToe.player2].
  destruct (Z.ltb_spec 0 (TicTacToe.bet game)) as [_|?]; [|lia].
  rewrite Hcog, Hdb. cbn [Economy_cog cog_add_balance getattr mbind exc_bind].
  destruct (add_balance_int db (TicTacToe.player1 game) guild
              (TicTacToe.bet game) c1 Hc1) as (dba & Ha & Ha1 & Haother).
  rewrite <- (Haother _ Hne) in Hc2.
  destruct (add_balance_int dba (TicTacToe.player2 game) guild
              (TicTacToe.bet game) c2 Hc2) as (dbb & Hb & Hb2 & Hbother).
  cbn [TicTacToe.the_bot TicTacToe.set_db economy_cog db_manager].
  rewrite Ha. cbn [snd]. rewrite Hb. cbn [snd].
  eexists _, _, dbb. split; [reflexivity|]. split; [reflexivity|].
  split; [reflexivity|]. split; [reflexivity|].
  split; [|exact Hb2]. by rewrite (Hbother (TicTacToe.player1 game)) by done.
Qed.

Lemma play_keeps_players (game game' : TicTacToe.TicTacToeGame) (moves : list (Z * Z)) :
  TicTacToe.play game moves = Some game' ->
  TicTacToe.player1 game' = TicTacToe.player1 game
  /\ TicTacToe.player2 game' = TicTacToe.player2 game
  /\ TicTacToe.bet game' = TicTacToe.bet game.
Proof.
  revert game. induction moves as [|[position player] moves IH]; intros game; simpl.
  - by intros [= ->].
  - destruct (TicTacToe.make_move game position player) as [[] moved] eqn:Hmove; [|done].
    intros Hplay. destruct (IH _ Hplay) as (-> & -> & ->).
    apply make_move_accepted_turn in Hmove as (_ & _ & _ & _ & ->).
    destruct (check_game_over_players
                (TicTacToe.Build_TicTacToeGame
                   (TicTacToe.player1 game) (TicTacToe.player2 game)
                   (TicTacToe.bet game)
                   (<[Z.to_nat position :=
                        Some (if bool_decide (player = TicTacToe.player1 game)
                              then TicTacToe.X else TicTacToe.O)]>
                      (TicTacToe.board game))
                   (if bool_decide (player = TicTacToe.player1 game)
                    then TicTacToe.player2 game else TicTacToe.player1 game)
                   (TicTacToe.winner game) (TicTacToe.game_over game)))
      as (Hp1 & Hp2 & Hbet & _).
    by rewrite Hp1, Hp2, Hbet.
Qed.

(** X15.  The wager of a Tic-Tac-Toe game.  As the repository
    registers its cogs no wager is ever taken: the [tictactoe] command
    sends no challenge for a bet above 0, and [start_game], [end_game]
    and the timeout of the game loop, called all the same, find no
    database manager and store nothing.  In a bot whose lookup of
    "Utils" does find the database manager, and with two players who
    can both cover the bet, [start_game], [end_game] and the timeout are
    zero-sum: [start_game] takes the bet from each; however the moves
    go, [end_game] then leaves the two balances with their old sum, the
    winner up by the bet and the other down by it, or both as before
    when nobody won; and the timeout of the game loop puts both balances
    back to what they were. *)
Theorem wager_is_zero_sum (w : TicTacToe.world) (channel guild p1 p2 bet b1 b2 : Z)
    (db : gmap (Z * Z) (gmap string json)) (moves : list (Z * Z))
    (game : TicTacToe.TicTacToeGame) :
  TicTacToe.the_bot w = bot_with_manager db ->
  p1 <> p2 -> 0 < bet -> bet <= b1 -> bet <= b2 ->
  dict_get (DatabaseManager.get_economy_data db p1 guild) "balance" (VInt 0) = VInt b1 ->
  dict_get (DatabaseManager.get_economy_data db p2 guild) "balance" (VInt 0) = VInt b2 ->
  TicTacToe.play (TicTacToe.new_game p1 p2 bet) moves = Some game ->
  (forall (w0 : TicTacToe.world) (member : option (Z * bool)),
     TicTacToe.the_bot w0 = repo_bot db ->
     (TicTacToe.tictactoe w0 channel guild p1 member bet).2 = w0
     /\ (forall n t,
           (TicTacToe.tictactoe w0 channel guild p1 member bet).1 <> Ok (n, Some t))
     /\ db_manager (TicTacToe.the_bot (TicTacToe.start_game w0 channel guild p1 p2 bet).2)
        = None
     /\ db_manager (TicTacToe.the_bot (TicTacToe.end_game w0 channel guild game).2) = None
     /\ db_manager (TicTacToe.the_bot (TicTacToe.game_loop_timeout w0 channel guild game).2)
        = None)
  /\ exists w1,
    TicTacToe.start_game w channel guild p1 p2 bet
    = (Ok (TicTacToe.GameLoop channel guild (TicTacToe.next_game w)
             (TicTacToe.new_game p1 p2 bet)), w1)
    /\ (exists w2 db2 r1 r2,
          TicTacToe.end_game w1 channel guild game = (Ok (), w2)
          /\ db_manager (TicTacToe.the_bot w2) = Some db2
          /\ dict_get (DatabaseManager.get_economy_data db2 p1 guild) "balance" (VInt 0)
             = VInt r1
          /\ dict_get (DatabaseManager.get_economy_data db2 p2 guild) "balance" (VInt 0)
             = VInt r2
          /\ r1 + r2 = b1 + b2
          /\ (TicTacToe.winner game = Some p1 -> r1 = b1 + bet /\ r2 = b2 - bet)
          /\ (TicTacToe.winner game = Some p2 -> r1 = b1 - bet /\ r2 = b2 + bet)
          /\ (TicTacToe.winner game = None -> r1 = b1 /\ r2 = b2))
    /\ (exists g w3 db3,
          TicTacToe.game_loop_timeout w1 channel guild game = (Ok g, w3)
          /\ db_manager (TicTacToe.the_bot w3) = Some db3
          /\ dict_get (DatabaseManager.get_economy_data db3 p1 guild) "balance" (VInt 0)
             = VInt b1
          /\ dict_get (DatabaseManager.get_economy_data db3 p2 guild) "balance" (VInt 0)
             = VInt b2).
Proof.
  intros Hbot Hne Hbet Hc1 Hc2 Hb1 Hb2 Hplay.
  destruct (play_keeps_players _ _ _ Hplay) as (Hp1 & Hp2 & Hstake).
  simpl in Hp1, Hp2, Hstake.
  assert (0 < TicTacToe.bet game) as Hbet' by (by rewrite Hstake).
  split.
  { intros w0 member Hbot0.
    assert (economy_cog (TicTacToe.the_bot w0) = Some Economy_cog) as Hcog0
      by (by rewrite Hbot0).
    assert (db_manager (TicTacToe.the_bot w0) = None) as Hdb0 by (by rewrite Hbot0).
    destruct (tictactoe_staked_never_starts w0 channel guild p1 member bet Hcog0 Hbet)
      as [Hsame Hnone].
    split; [exact Hsame|]. split; [exact Hnone|].
    unfold TicTacToe.start_game, TicTacToe.end_game, TicTacToe.game_loop_timeout,
      TicTacToe.return_bets. cbv zeta.
    cbn [TicTacToe.bet TicTacToe.player1 TicTacToe.player2 TicTacToe.the_bot].
    destruct (Z.ltb_spec 0 bet) as [_|?]; [|lia].
    destruct (Z.ltb_spec 0 (TicTacToe.bet game)) as [_|?]; [|lia].
    rewrite Hcog0, Hdb0. split; [reflexivity|].
    split; [|reflexivity]. by destruct (TicTacToe.winner game). }
  assert (economy_cog (TicTacToe.the_bot w) = Some Economy_cog) as Hcog
    by (by rewrite Hbot).
  assert (db_manager (TicTacToe.the_bot w) = Some db) as Hdb by (by rewrite Hbot).
  destruct (start_game_takes_bets w channel guild p1 p2 bet b1 b2 db
              Hcog Hdb Hne Hbet Hc1 Hc2 Hb1 Hb2)
    as (w1 & db1 & Hstart & Hcog1 & Hdb1 & Hs1 & Hs2).
  exists w1. split; [exact Hstart|].
  assert (TicTacToe.played game) as Hplayed
    by (eapply played_play; [apply TicTacToe.played_new|exact Hplay]).
  assert (TicTacToe.player1 game <> TicTacToe.player2 game) as Hne'
    by (by rewrite Hp1, Hp2).
  destruct (played_invariant game Hplayed Hne') as (_ & _ & _ & Hwin & _).
  rewrite <- Hp1 in Hs1. rewrite <- Hp2 in Hs2.
  split.
  - destruct (end_game_pays w1 channel guild _ _ game db1 Hcog1 Hdb1 Hne' Hbet'
                (fun u Hu => proj1 (proj2 (Hwin u Hu))) Hs1 Hs2)
      as (w2 & db2 & Hend & Hdb2 & _ & Hr1 & Hr2).
    rewrite Hp1 in Hr1. rewrite Hp2 in Hr2.
    eexists w2, db2, _, _. split; [exact Hend|]. split; [exact Hdb2|].
    split; [exact Hr1|]. split; [exact Hr2|].
    rewrite ?Hp1, ?Hp2, ?Hstake.
    destruct (TicTacToe.winner game) as [u|] eqn:Hu.
    + destruct (Hwin u eq_refl) as (_ & [Hw|Hw] & _);
        rewrite Hw, ?Hp1, ?Hp2.
      * rewrite bool_decide_true by done. rewrite bool_decide_false by done.
        split; [lia|]. split; [intros _; lia|]. split; [|done].
        intros [= ?]. done.
      * rewrite bool_decide_false by done. rewrite bool_decide_true by done.
        split; [lia|]. split; [intros [= ?]; done|]. split; [|done].
        intros _. lia.
    + split; [lia|]. split; [done|]. split; [done|]. intros _. lia.
  - destruct (game_loop_timeout_returns w1 channel guild _ _ game db1 Hcog1 Hdb1
                Hne' Hbet' Hs1 Hs2)
      as (g & w3 & db3 & Hout & _ & Hdb3 & _ & Hr1 & Hr2).
    rewrite Hp1, Hstake in Hr1. rewrite Hp2, Hstake in Hr2.
    exists g, w3, db3. split; [exact Hout|]. split; [exact Hdb3|].
    split; [rewrite Hr1|rewrite Hr2]; f_equal; lia.
Qed.

Lemma wager_is_zero_sum_witness :
  db_manager (TicTacToe.the_bot (TicTacToe.start_game tictactoe_waiting 6 1 10 11 20).2)
  = None
  /\ exists w1,
    TicTacToe.start_game tictactoe_funded 6 1 10 11 20
    = (Ok (TicTacToe.GameLoop 6 1 1 staked_game), w1)
    /\ exists w2 db2,
         TicTacToe.end_game w1 6 1 top_row_game = (Ok (), w2)
         /\ db_manager (TicTacToe.the_bot w2) = Some db2
         /\ dict_get (DatabaseManager.get_economy_data db2 10 1) "balance" (VInt 0)
            = VInt 50
         /\ dict_get (DatabaseManager.get_economy_data db2 11 1) "balance" (VInt 0)
            = VInt 25.
Proof.
  destruct (wager_is_zero_sum tictactoe_funded 6 1 10 11 20 30 45 ledger_staked
              top_row_moves top_row_game)
    as (Hwired & w1 & Hstart
        & (w2 & db2 & r1 & r2 & Hend & Hdb2 & Hr1 & Hr2 & _ & Hwin & _) & _);
    [reflexivity|lia|lia|lia|lia
    |vm_compute; reflexivity|vm_compute; reflexivity|vm_compute; reflexivity|].
  destruct (Hwired tictactoe_waiting None eq_refl) as (_ & _ & Hunpaid & _).
  destruct (Hwin eq_refl) as [-> ->].
  split; [exact Hunpaid|].
  exists w1. split; [exact Hstart|]. exists w2, db2.
  split; [exact Hend|]. split; [exact Hdb2|]. split; [exact Hr1|exact Hr2].
Defined.

(** ** Snake: the shape of a game *)

(** [place_food] on a game without food: it never raises, changes
    nothing but the food, and the food it places is on a free cell of
    the grid. *)
Lemma place_food_well_formed (R : Random) (game : Snake.SnakeGame) (g : rng) :
  RandomLaws R -> Snake.well_formed game ->
  exists (game' : Snake.SnakeGame) (g' : rng),
    Snake.place_food game g = Ok (game', g')
    /\ Snake.well_formed game'
    /\ Snake.width game' = Snake.width game
    /\ Snake.height game' = Snake.height game
    /\ Snake.snake game' = Snake.snake game
    /\ Snake.score game' = Snake.score game
    /\ Snake.game_over game' = Snake.game_over game
    /\ Snake.direction game' = Snake.direction game
    /\ Snake.next_direction game' = Snake.next_direction game
    /\ (Snake.empty_positions (Snake.width game) (Snake.height game) (Snake.snake game)
        <> [] -> is_Some (Snake.food game')).
Proof.
  intros Hlaws Hgame. unfold Snake.place_food.
  pose proof (elem_of_empty_positions (Snake.width game) (Snake.height game)
                (Snake.snake game)) as Hcells.
  destruct (Snake.empty_positions _ _ _) as [|cell cells] eqn:Hempty.
  - exists game, g. split; [reflexivity|]. split; [exact Hgame|].
    do 7 (split; [reflexivity|]). by intros [].
  - unfold Snake.choice.
    pose proof (rnd_randbelow_lt (length (cell :: cells)) g ltac:(simpl; lia)) as Hlt.
    destruct (rnd_randbelow (length (cell :: cells)) g) as [i g'] eqn:Hdraw.
    simpl fst in Hlt.
    destruct (lookup_lt_is_Some_2 (cell :: cells) i Hlt) as [p Hp].
    rewrite Hp. simpl. eexists _, g'. split; [reflexivity|].
    apply list_elem_of_lookup_2, Hcells in Hp.
    destruct Hgame as (Hw & Hh & Hdup & Hgrid & Hscore & Hlen & Hfood).
    split; [|simpl; by do 7 (split; [reflexivity|])].
    unfold Snake.well_formed. simpl.
    split; [done|]. split; [done|]. split; [done|]. split; [exact Hgrid|].
    split; [done|]. split; [done|].
    intros q [= <-]. unfold Snake.on_grid. simpl. tauto.
Qed.

Lemma set_difficulty_params_sizes (difficulty : string) :
  exists n, Snake.set_difficulty_params difficulty = (n, n) /\ n ∈ [8; 10; 12; 15].
Proof.
  unfold Snake.set_difficulty_params.
  repeat case_bool_decide; eexists; (split; [reflexivity|]); key_listed.
Qed.

(** X16.  A new game of any difficulty is well formed whatever the
    random choices: [reset_game] does not raise, the grid is the square
    of side 8, 10, 12 or 15 that [set_difficulty_params] picks (10 for an
    unknown difficulty), the snake is the one cell at the centre, the
    score is 0, the game is running and heads right, and food lies on a
    cell of the grid other than the snake's. *)
Theorem new_game_well_formed (R : Random) (difficulty : string) (g : rng) :
  RandomLaws R ->
  exists (game : Snake.SnakeGame) (g' : rng) (n : Z),
    Snake.new_game difficulty g = Ok (game, g')
    /\ Snake.well_formed game
    /\ Snake.set_difficulty_params difficulty = (n, n)
    /\ n ∈ [8; 10; 12; 15]
    /\ Snake.width game = n /\ Snake.height game = n
    /\ Snake.snake game = [(n `div` 2, n `div` 2)]
    /\ Snake.score game = 0
    /\ Snake.game_over game = false
    /\ Snake.direction game = Snake.RIGHT
    /\ Snake.next_direction game = Snake.RIGHT
    /\ exists p, Snake.food game = Some p
         /\ Snake.on_grid game p /\ p <> (n `div` 2, n `div` 2).
Proof.
  intros Hlaws. unfold Snake.new_game.
  destruct (set_difficulty_params_sizes difficulty) as (n & -> & Hn).
  set (start := Snake.Build_SnakeGame _ _ _ _ _ _ _ _).
  assert (2 <= n <= 15) as Hsize.
  { set_unfold. destruct Hn as [->|[->|[->|[->|[]]]]]; lia. }
  assert (0 <= n `div` 2 < n) as Hcentre.
  { split; [apply Z.div_pos; lia | apply Z.div_lt_upper_bound; lia]. }
  assert (1 <= n `div` 2) as Hoff by (apply Z.div_le_lower_bound; lia).
  assert (Snake.well_formed start) as Hstart.
  { unfold Snake.well_formed, Snake.on_grid. simpl.
    split; [lia|]. split; [lia|]. split; [apply NoDup_singleton|].
    split; [apply Forall_singleton; simpl; lia|].
    split; [lia|]. split; [lia|]. done. }
  destruct (place_food_well_formed R start g Hlaws Hstart)
    as (game & g' & Hplace & Hgame & Hw & Hh & Hsnake & Hscore & Hover & Hdir & Hnext
        & Hfood).
  exists game, g', n. split; [exact Hplace|]. split; [exact Hgame|].
  split; [reflexivity|]. split; [exact Hn|].
  do 7 (split; [assumption|]).
  destruct Hfood as [p Hp].
  { intros Hnone.
    assert ((0, 0) ∈ Snake.empty_positions (Snake.width start) (Snake.height start)
                       (Snake.snake start)) as Hfree.
    { apply elem_of_empty_positions. simpl. split; [lia|]. split; [lia|].
      intros [= ?]%list_elem_of_singleton. lia. }
    rewrite Hnone in Hfree. by apply not_elem_of_nil in Hfree. }
  exists p. split; [exact Hp|].
  destruct Hgame as (_ & _ & _ & _ & _ & _ & Hfree).
  destruct (Hfree p Hp) as [Hgrid Hout]. split; [exact Hgrid|].
  rewrite Hsnake in Hout. simpl in Hout. intros ->. apply Hout. by left.
Qed.

Lemma new_game_well_formed_witness :
  exists (game : Snake.SnakeGame) (g' : unit) (n : Z),
    Snake.new_game (R := identity_random) "hard" tt = Ok (game, g')
    /\ Snake.well_formed game
    /\ Snake.set_difficulty_params "hard" = (n, n)
    /\ n ∈ [8; 10; 12; 15]
    /\ Snake.width game = n /\ Snake.height game = n
    /\ Snake.snake game = [(n `div` 2, n `div` 2)]
    /\ Snake.score game = 0
    /\ Snake.game_over game = false
    /\ Snake.direction game = Snake.RIGHT
    /\ Snake.next_direction game = Snake.RIGHT
    /\ exists p, Snake.food game = Some p
         /\ Snake.on_grid game p /\ p <> (n `div` 2, n `div` 2).
Proof.
  exact (new_game_well_formed identity_random "hard" tt identity_random_laws).
Defined.

(** Dropping the last cell of a list. *)
Lemma list_pop_body {A : Type} (x : A) (l : list A) :
  exists last body, list_pop (x :: l) = Ok (last, body) /\ body ++ [last] = x :: l.
Proof.
  destruct (list_pop_cons x l) as (last & body & Hbody & Hpop). by exists last, body.
Qed.

(** X17.  [move] keeps a well-formed game well formed, whatever the
    direction and the random choices: it does not raise, the grid stays
    as it is, the score goes up by at most one and the snake stays one
    cell longer than the score, and [move] returns [False] exactly when
    the game it leaves is over. *)
Theorem move_keeps_well_formed (R : Random) (game : Snake.SnakeGame) (g : rng) :
  RandomLaws R -> Snake.well_formed game ->
  exists (moved : bool) (game' : Snake.SnakeGame) (g' : rng),
    Snake.move game g = Ok (moved, game', g')
    /\ Snake.well_formed game'
    /\ Snake.width game' = Snake.width game
    /\ Snake.height game' = Snake.height game
    /\ Snake.score game <= Snake.score game' <= Snake.score game + 1
    /\ moved = negb (Snake.game_over game')
    /\ (Snake.game_over game = true -> game' = game).
Proof.
  intros Hlaws Hgame.
  destruct (Snake.game_over game) eqn:Hover.
  { unfold Snake.move. rewrite Hover. exists false, game, g.
    rewrite Hover. split; [reflexivity|]. split; [exact Hgame|].
    split; [reflexivity|]. split; [reflexivity|]. split; [lia|]. done. }
  pose proof Hgame as (Hw & Hh & Hdup & Hgrid & Hscore & Hlen & Hfood).
  destruct (Snake.snake game) as [|[head_x head_y] tail] eqn:Hsnake;
    [simpl in Hlen; lia|].
  rewrite (move_running R game g head_x head_y tail Hover Hsnake Hw Hh). cbv zeta.
  set (new_head := ((head_x + _) `mod` _, (head_y + _) `mod` _)).
  assert (Snake.on_grid game new_head) as Hhead.
  { unfold Snake.on_grid. simpl. split; apply Z.mod_pos_bound; lia. }
  rewrite Hsnake.
  case_bool_decide as Hhit.
  { eexists _, _, _. split; [reflexivity|]. simpl.
    split; [|split; [done|split; [done|split; [lia|done]]]].
    unfold Snake.well_formed, Snake.on_grid in *. simpl.
    by repeat (split; [assumption|]). }
  case_bool_decide as Heat.
  - set (grown := Snake.Build_SnakeGame _ _ _ _ _ _ _ _).
    assert (Snake.well_formed grown) as Hgrown.
    { unfold Snake.well_formed, Snake.on_grid in *. simpl.
      split; [done|]. split; [done|]. split; [by apply NoDup_cons|].
      split; [by apply Forall_cons|]. split; [lia|].
      split; [simpl in Hlen; lia|]. done. }
    destruct (place_food_well_formed R grown g Hlaws Hgrown)
      as (game' & g' & Hplace & Hgame' & Hw' & Hh' & _ & Hscore' & Hover' & _).
    rewrite Hplace. simpl. exists true, game', g'. split; [reflexivity|].
    split; [exact Hgame'|]. split; [exact Hw'|]. split; [exact Hh'|].
    rewrite Hscore', Hover'. simpl. rewrite Hover. split; [lia|]. done.
  - destruct (list_pop_body new_head ((head_x, head_y) :: tail))
      as (last & body & Hpop & Hbody).
    rewrite Hpop. simpl. eexists _, _, _. split; [reflexivity|]. simpl.
    rewrite Hover.
    split; [|split; [done|split; [done|split; [lia|done]]]].
    assert (NoDup (body ++ [last])) as Hdup'
      by (rewrite Hbody; by apply NoDup_cons).
    assert (Forall (Snake.on_grid game) (body ++ [last])) as Hgrid'
      by (rewrite Hbody; by apply Forall_cons).
    assert (length (body ++ [last]) = S (length ((head_x, head_y) :: tail))) as Hlen'
      by (by rewrite Hbody).
    rewrite length_app in Hlen'. simpl in Hlen'.
    apply NoDup_app in Hdup' as (Hdup' & _ & _).
    apply Forall_app in Hgrid' as (Hgrid' & _).
    unfold Snake.well_formed, Snake.on_grid in *. simpl.
    split; [done|]. split; [done|]. split; [done|]. split; [exact Hgrid'|].
    split; [done|]. split; [simpl in Hlen; lia|].
    intros p Hp. destruct (Hfood p Hp) as [Hp_grid Hp_out]. split; [exact Hp_grid|].
    intros Hin. assert (p ∈ body ++ [last]) as Hin' by (apply elem_of_app; by left).
    rewrite Hbody in Hin'. apply elem_of_cons in Hin' as [->|Hin']; [|done].
    by rewrite Hp in Heat.
Qed.

Lemma move_keeps_well_formed_witness :
  exists (moved : bool) (game' : Snake.SnakeGame) (g' : unit),
    Snake.move (R := identity_random) snake_at_edge tt = Ok (moved, game', g')
    /\ Snake.well_formed game'
    /\ Snake.width game' = 10
    /\ Snake.height game' = 10
    /\ 0 <= Snake.score game' <= 0 + 1
    /\ moved = negb (Snake.game_over game')
    /\ (false = true -> game' = snake_at_edge).
Proof.
  apply (move_keeps_well_formed identity_random snake_at_edge tt identity_random_laws).
  unfold Snake.well_formed, Snake.on_grid. simpl.
  split; [lia|]. split; [lia|]. split; [apply NoDup_singleton|].
  split; [apply Forall_singleton; simpl; lia|]. split; [lia|]. split; [lia|].
  intros p [= <-]. simpl. split; [lia|].
  intros [= ?]%list_elem_of_singleton.
Defined.

(** ** Word Scramble: which shuffle is returned *)

(** Once a shuffle changes the arrangement the loop stops with it. *)
Lemma shuffle_loop_first (R : Random) (n k : nat) (word : string) (g : rng) :
  let word_list := String.list_ascii_of_string word in
  let next := fun g => (rnd_shuffle word_list g).2 in
  (k < n)%nat ->
  (forall j : nat, (j < k)%nat ->
     (rnd_shuffle word_list (Nat.iter j next g)).1 = word_list) ->
  (rnd_shuffle word_list (Nat.iter k next g)).1 <> word_list ->
  WordScramble.shuffle_loop n word word_list g
  = rnd_shuffle word_list (Nat.iter k next g).
Proof.
  intros word_list next. revert k g.
  induction n as [|n IH]; intros k g Hk Hsame Hdiff; [lia|].
  simpl. rewrite bool_decide_true
    by (unfold word_list; apply String.string_of_list_ascii_of_string).
  destruct k as [|k].
  - simpl in *. destruct (rnd_shuffle word_list g) as [l g'] eqn:Hdraw.
    apply shuffle_loop_done. simpl in Hdiff. intros Heq. apply Hdiff.
    apply string_of_list_ascii_inj. unfold word_list.
    by rewrite Heq, String.string_of_list_ascii_of_string.
  - pose proof (Hsame 0%nat ltac:(lia)) as Hfirst. simpl in Hfirst.
    destruct (rnd_shuffle word_list g) as [l g'] eqn:Hdraw. simpl in Hfirst.
    subst l.
    assert (g' = next g) as -> by (unfold next; by rewrite Hdraw).
    rewrite (IH k (next g)); [by rewrite Nat.iter_succ_r|lia| |].
    + intros j Hj. rewrite <- Nat.iter_succ_r. apply Hsame. lia.
    + by rewrite <- Nat.iter_succ_r.
Qed.

(** X18.  For a word of more than three letters [scramble_word]
    returns the first of its shuffles that changes the arrangement, if
    one of the first ten does: the result is then different from the
    word, and the generator has been used exactly up to that shuffle. *)
Theorem scramble_word_first_change (R : Random) (word : string) (g : rng) (k : nat) :
  let word_list := String.list_ascii_of_string word in
  let next := fun g => (rnd_shuffle word_list g).2 in
  (3 < String.length word)%nat ->
  (k < 10)%nat ->
  (forall j : nat, (j < k)%nat ->
     (rnd_shuffle word_list (Nat.iter j next g)).1 = word_list) ->
  (rnd_shuffle word_list (Nat.iter k next g)).1 <> word_list ->
  WordScramble.scramble_word word g
  = (String.string_of_list_ascii (rnd_shuffle word_list (Nat.iter k next g)).1,
     Nat.iter (S k) next g)
  /\ (WordScramble.scramble_word word g).1 <> word.
Proof.
  intros word_list next Hlong Hk Hsame Hdiff.
  assert (WordScramble.scramble_word word g
          = (String.string_of_list_ascii (rnd_shuffle word_list (Nat.iter k next g)).1,
             Nat.iter (S k) next g)) as Hresult.
  { unfold WordScramble.scramble_word.
    destruct (Nat.leb_spec (String.length word) 3) as [?|_]; [lia|].
    pose proof (shuffle_loop_first R 10 k word g Hk Hsame Hdiff) as Hloop.
    cbv zeta in Hloop. fold word_list in Hloop |- *. fold next in Hloop.
    rewrite Hloop. simpl Nat.iter.
    change (next (Nat.iter k next g))
      with ((rnd_shuffle word_list (Nat.iter k next g)).2).
    by destruct (rnd_shuffle word_list (Nat.iter k next g)). }
  split; [exact Hresult|]. rewrite Hresult. cbn [fst]. intros Heq. apply Hdiff.
  apply string_of_list_ascii_inj. rewrite Heq. unfold word_list.
  by rewrite String.string_of_list_ascii_of_string.
Qed.

Lemma scramble_word_first_change_witness :
  WordScramble.scramble_word (R := reverse_random) "game" tt = ("emag", tt)
  /\ (WordScramble.scramble_word (R := reverse_random) "game" tt).1 <> "game".
Proof.
  apply (scramble_word_first_change reverse_random "game" tt 0).
  - simpl. lia.
  - lia.
  - intros j Hj. lia.
  - vm_compute. discriminate.
Defined.

(** X19.  A word of at most three letters is reversed without any use
    of the generator, so it comes back unscrambled exactly when its
    first and last letters are the same (or it has no letter at all). *)
Theorem scramble_word_short (R : Random) (word : string) (g : rng) :
  (String.length word <= 3)%nat ->
  (WordScramble.scramble_word word g).2 = g
  /\ String.list_ascii_of_string (WordScramble.scramble_word word g).1
     = reverse (String.list_ascii_of_string word)
  /\ ((WordScramble.scramble_word word g).1 = word <->
      head (String.list_ascii_of_string word) = last (String.list_ascii_of_string word)).
Proof.
  intros Hshort. unfold WordScramble.scramble_word.
  destruct (Nat.leb_spec (String.length word) 3) as [_|?]; [|lia].
  simpl. split; [reflexivity|].
  rewrite String.list_ascii_of_string_of_list_ascii. split; [reflexivity|].
  rewrite <- (String.string_of_list_ascii_of_string word) at 2.
  assert (length (String.list_ascii_of_string word) <= 3)%nat as Hlen.
  { clear -Hshort. revert Hshort. generalize 3%nat.
    induction word as [|a word IH]; intros n Hn; simpl in *; [lia|].
    destruct n as [|n]; [lia|]. specialize (IH n). lia. }
  destruct (String.list_ascii_of_string word) as [|a [|b [|c [|d l]]]];
    [| | | |simpl in Hlen; lia].
  - done.
  - done.
  - split.
    + intros Heq%string_of_list_ascii_inj. by injection Heq as -> _.
    + intros [= ->]. done.
  - split.
    + intros Heq%string_of_list_ascii_inj. by injection Heq as -> _.
    + intros [= ->]. done.
Qed.

Lemma scramble_word_short_witness :
  (WordScramble.scramble_word (R := identity_random) "mom" tt).2 = tt
  /\ String.list_ascii_of_string
       (WordScramble.scramble_word (R := identity_random) "mom" tt).1
     = reverse (String.list_ascii_of_string "mom")
  /\ ((WordScramble.scramble_word (R := identity_random) "mom" tt).1 = "mom" <->
      head (String.list_ascii_of_string "mom") = last (String.list_ascii_of_string "mom")).
Proof.
  apply (scramble_word_short identity_random "mom" tt). simpl. lia.
Defined.

(** ** Tic-Tac-Toe: the command *)

(** What one call of the command does to the cog. *)
Lemma tictactoe_sends_or_keeps (w : TicTacToe.world) (channel guild author : Z)
    (member : option (Z * bool)) (bet : Z) :
  let r := (TicTacToe.tictactoe w channel guild author member bet).1 in
  let w' := (TicTacToe.tictactoe w channel guild author member bet).2 in
  TicTacToe.games w' = TicTacToe.games w
  /\ TicTacToe.next_game w' = TicTacToe.next_game w
  /\ TicTacToe.the_bot w' = TicTacToe.the_bot w
  /\ ((exists m,
         member = Some (m, false)
         /\ r = Ok (TicTacToe.Challenge,
                    Some (TicTacToe.AwaitResponse channel guild author m bet))
         /\ TicTacToe.pending_challenges w'
            = <[m := (author, bet)]> (TicTacToe.pending_challenges w)
         /\ TicTacToe.games w !! channel = None
         /\ m <> author /\ 0 <= bet
         /\ TicTacToe.pending_challenges w !! m = None)
      \/ (w' = w
          /\ forall t, r <> Ok (TicTacToe.Challenge, Some t))).
Proof.
  unfold TicTacToe.tictactoe.
  case_bool_decide as Hgame; [simpl; by auto 10|].
  destruct member as [[m is_bot]|]; [|simpl; by auto 10].
  case_bool_decide as Hself; [simpl; by auto 10|].
  destruct is_bot; [simpl; by auto 10|].
  destruct (Z.ltb_spec bet 0) as [?|Hbet]; [simpl; by auto 10|].
  destruct (TicTacToe.pending_challenges w !! m) as [[challenger ?]|] eqn:Hpending;
    [simpl; by auto 10|].
  assert (TicTacToe.games w !! channel = None) as Hnone.
  { destruct (TicTacToe.games w !! channel) eqn:Hg; [|done].
    destruct Hgame. by eexists. }
  match goal with
  | |- context [match ?funds with Ok _ => _ | Raise _ => _ end] =>
      destruct funds as [[n|]|e] eqn:Hfunds
  end; cbv zeta; cbn [fst snd].
  - split; [done|]. split; [done|]. split; [done|]. right. split; [done|].
    by intros t.
  - split; [done|]. split; [done|]. split; [done|]. left. exists m.
    split; [done|]. split; [done|]. split; [done|]. by repeat split.
  - split; [done|]. split; [done|]. split; [done|]. right. by split.
Qed.

(** X20.  The [tictactoe] command never starts a game and never moves
    money: the games, the game counter and the ledger are as before.
    Either it sends the challenge, and then the channel had no game, the
    target is another member who is not a bot and had no pending
    challenge, the bet is not negative, and the one change is the
    challenge stored under the target; or it changes nothing at all. *)
Theorem tictactoe_command_frame (w : TicTacToe.world) (channel guild author : Z)
    (member : option (Z * bool)) (bet : Z) :
  let r := (TicTacToe.tictactoe w channel guild author member bet).1 in
  let w' := (TicTacToe.tictactoe w channel guild author member bet).2 in
  TicTacToe.games w' = TicTacToe.games w
  /\ TicTacToe.next_game w' = TicTacToe.next_game w
  /\ TicTacToe.the_bot w' = TicTacToe.the_bot w
  /\ ((exists m,
         member = Some (m, false)
         /\ r = Ok (TicTacToe.Challenge,
                    Some (TicTacToe.AwaitResponse channel guild author m bet))
         /\ TicTacToe.pending_challenges w'
            = <[m := (author, bet)]> (TicTacToe.pending_challenges w)
         /\ TicTacToe.games w !! channel = None
         /\ m <> author /\ 0 <= bet
         /\ TicTacToe.pending_challenges w !! m = None)
      \/ (w' = w
          /\ forall t, r <> Ok (TicTacToe.Challenge, Some t))).
Proof. exact (tictactoe_sends_or_keeps w channel guild author member bet). Qed.

(** X21.  A challenge that is declined or left unanswered leaves no
    trace: once the handler resumes, the cog is exactly as it was before
    the command.  A challenge that is accepted starts the game that
    [start_game] starts on the cog as it was before the command. *)
Theorem challenge_round_trip (w : TicTacToe.world) (channel guild author m bet : Z)
    (t : TicTacToe.task) :
  (TicTacToe.tictactoe w channel guild author (Some (m, false)) bet).1
  = Ok (TicTacToe.Challenge, Some t) ->
  let w' := (TicTacToe.tictactoe w channel guild author (Some (m, false)) bet).2 in
  t = TicTacToe.AwaitResponse channel guild author m bet
  /\ TicTacToe.respond w' channel guild author m bet TicTacToe.Decline = (Ok None, w)
  /\ TicTacToe.respond w' channel guild author m bet TicTacToe.ResponseTimeout
     = (Ok None, w)
  /\ TicTacToe.respond w' channel guild author m bet TicTacToe.Accept
     = ((t ← (TicTacToe.start_game w channel guild author m bet).1; Ok (Some t)),
        (TicTacToe.start_game w channel guild author m bet).2).
Proof.
  intros Hsent w'.
  destruct (tictactoe_sends_or_keeps w channel guild author (Some (m, false)) bet)
    as (Hgames & Hnext & Hbot & [(m' & [= <-] & Hr & Hpending & _ & _ & _ & Hfree)
                                |(_ & Hnot)]);
    [|by destruct (Hnot t)].
  fold w' in Hgames, Hnext, Hbot, Hpending.
  assert (t = TicTacToe.AwaitResponse channel guild author m bet) as ->
    by congruence.
  assert (TicTacToe.set_pending w'
            (delete m (TicTacToe.pending_challenges w')) = w) as Hback.
  { unfold TicTacToe.set_pending. rewrite Hgames, Hnext, Hbot, Hpending.
    rewrite delete_insert_id by done. by destruct w. }
  split; [reflexivity|].
  unfold TicTacToe.respond. rewrite Hback.
  rewrite Hpending at 1 2. rewrite lookup_insert_eq.
  split; [reflexivity|]. split; [reflexivity|].
  by destruct (TicTacToe.start_game w channel guild author m bet).
Qed.

Lemma challenge_round_trip_witness :
  TicTacToe.AwaitResponse 6 1 10 11 0 = TicTacToe.AwaitResponse 6 1 10 11 0
  /\ TicTacToe.respond
       (TicTacToe.tictactoe tictactoe_waiting 6 1 10 (Some (11, false)) 0).2
       6 1 10 11 0 TicTacToe.Decline
     = (Ok None, tictactoe_waiting)
  /\ TicTacToe.respond
       (TicTacToe.tictactoe tictactoe_waiting 6 1 10 (Some (11, false)) 0).2
       6 1 10 11 0 TicTacToe.ResponseTimeout
     = (Ok None, tictactoe_waiting)
  /\ TicTacToe.respond
       (TicTacToe.tictactoe tictactoe_waiting 6 1 10 (Some (11, false)) 0).2
       6 1 10 11 0 TicTacToe.Accept
     = ((t ← (TicTacToe.start_game tictactoe_waiting 6 1 10 11 0).1; Ok (Some t)),
        (TicTacToe.start_game tictactoe_waiting 6 1 10 11 0).2).
Proof.
  apply (challenge_round_trip tictactoe_waiting 6 1 10 11 0).
  vm_compute. reflexivity.
Defined.

(** ** Snake: the heading *)

(** A move of a running game heads where [next_direction] points. *)
Lemma move_heading (R : Random) (game : Snake.SnakeGame) (g : rng) :
  RandomLaws R -> Snake.well_formed game -> Snake.game_over game = false ->
  exists (moved : bool) (game' : Snake.SnakeGame) (g' : rng),
    Snake.move game g = Ok (moved, game', g')
    /\ Snake.direction game' = Snake.next_direction game
    /\ Snake.next_direction game' = Snake.next_direction game.
Proof.
  intros Hlaws Hgame Hover.
  pose proof Hgame as (Hw & Hh & Hdup & Hgrid & Hscore & Hlen & Hfood).
  destruct (Snake.snake game) as [|[head_x head_y] tail] eqn:Hsnake;
    [simpl in Hlen; lia|].
  rewrite (move_running R game g head_x head_y tail Hover Hsnake Hw Hh). cbv zeta.
  set (new_head := ((head_x + _) `mod` _, (head_y + _) `mod` _)).
  assert (Snake.on_grid game new_head) as Hhead.
  { unfold Snake.on_grid. simpl. split; apply Z.mod_pos_bound; lia. }
  rewrite Hsnake.
  case_bool_decide as Hhit; [by eexists _, _, _|].
  case_bool_decide as Heat.
  - set (grown := Snake.Build_SnakeGame _ _ _ _ _ _ _ _).
    assert (Snake.well_formed grown) as Hgrown.
    { unfold Snake.well_formed, Snake.on_grid in *. simpl.
      split; [done|]. split; [done|]. split; [by apply NoDup_cons|].
      split; [by apply Forall_cons|]. split; [lia|].
      split; [simpl in Hlen; lia|]. done. }
    destruct (place_food_well_formed R grown g Hlaws Hgrown)
      as (game' & g' & Hplace & _ & _ & _ & _ & _ & _ & Hdir & Hnext & _).
    rewrite Hplace. simpl. by exists true, game', g'.
  - destruct (list_pop_body new_head ((head_x, head_y) :: tail))
      as (last & body & Hpop & _).
    rewrite Hpop. simpl. by eexists _, _, _.
Qed.

(** X22.  The snake never turns back on itself.  [change_direction]
    refuses exactly the opposite of the direction of the last move and
    then leaves the game as it is; and on a running well-formed game
    whose pending direction is not that opposite, the move that follows
    any [change_direction] heads in the new direction if it was
    accepted and in the pending one if not, never in the opposite of
    the last move. *)
Theorem never_turns_back (R : Random) (game : Snake.SnakeGame) (d : Z * Z) (g : rng) :
  RandomLaws R -> Snake.well_formed game -> Snake.game_over game = false ->
  Snake.next_direction game
  <> (- (Snake.direction game).1, - (Snake.direction game).2) ->
  let accepted := (Snake.change_direction game d).1 in
  let turned := (Snake.change_direction game d).2 in
  (accepted = false <-> d = (- (Snake.direction game).1, - (Snake.direction game).2))
  /\ (accepted = false -> turned = game)
  /\ exists (moved : bool) (game' : Snake.SnakeGame) (g' : rng),
       Snake.move turned g = Ok (moved, game', g')
       /\ Snake.direction game' = (if accepted then d else Snake.next_direction game)
       /\ Snake.next_direction game' = Snake.direction game'
       /\ Snake.direction game'
          <> (- (Snake.direction game).1, - (Snake.direction game).2).
Proof.
  intros Hlaws Hgame Hover Hpending. unfold Snake.change_direction.
  destruct d as [dx dy]. cbn [fst snd].
  destruct (Z.eqb_spec dx (- (Snake.direction game).1)) as [Hx|Hx];
    [destruct (Z.eqb_spec dy (- (Snake.direction game).2)) as [Hy|Hy]|];
    cbn [andb fst snd].
  - split; [split; [intros _; by rewrite Hx, Hy|done]|]. split; [done|].
    destruct (move_heading R game g Hlaws Hgame Hover)
      as (moved & game' & g' & Hmove & Hdir & Hnext).
    exists moved, game', g'. split; [exact Hmove|].
    split; [exact Hdir|]. split; [congruence|]. by rewrite Hdir.
  - split; [split; [done|intros [= _ ?]; done]|]. split; [done|].
    set (turned := Snake.Build_SnakeGame _ _ _ _ _ _ _ _).
    destruct (move_heading R turned g Hlaws Hgame Hover)
      as (moved & game' & g' & Hmove & Hdir & Hnext).
    exists moved, game', g'. split; [exact Hmove|].
    split; [exact Hdir|]. split; [by rewrite Hnext, Hdir|].
    rewrite Hdir. simpl. intros [= _ ?]. done.
  - split; [split; [done|intros [= ? _]; done]|]. split; [done|].
    set (turned := Snake.Build_SnakeGame _ _ _ _ _ _ _ _).
    destruct (move_heading R turned g Hlaws Hgame Hover)
      as (moved & game' & g' & Hmove & Hdir & Hnext).
    exists moved, game', g'. split; [exact Hmove|].
    split; [exact Hdir|]. split; [by rewrite Hnext, Hdir|].
    rewrite Hdir. simpl. intros [= ? _]. done.
Qed.

Lemma never_turns_back_witness :
  ((Snake.change_direction snake_at_edge Snake.LEFT).1 = false
   <-> Snake.LEFT = (- 1, - 0))
  /\ ((Snake.change_direction snake_at_edge Snake.LEFT).1 = false ->
      (Snake.change_direction snake_at_edge Snake.LEFT).2 = snake_at_edge)
  /\ exists (moved : bool) (game' : Snake.SnakeGame) (g' : unit),
       Snake.move (R := identity_random)
         (Snake.change_direction snake_at_edge Snake.LEFT).2 tt
       = Ok (moved, game', g')
       /\ Snake.direction game' = Snake.RIGHT
       /\ Snake.next_direction game' = Snake.direction game'
       /\ Snake.direction game' <> (- 1, - 0).
Proof.
  apply (never_turns_back identity_random snake_at_edge Snake.LEFT tt
           identity_random_laws).
  - unfold Snake.well_formed, Snake.on_grid. simpl.
    split; [lia|]. split; [lia|]. split; [apply NoDup_singleton|].
    split; [apply Forall_singleton; simpl; lia|]. split; [lia|]. split; [lia|].
    intros p [= <-]. simpl. split; [lia|].
    intros [= ?]%list_elem_of_singleton.
  - reflexivity.
  - simpl. discriminate.
Defined.

(** ** The economy: a work shift *)

(** X23.  As the repository registers its cogs, [work] finds no
    database manager: it answers Database Error, draws nothing and
    stores nothing.  Handed a database manager, a work shift on a record
    with an integer balance always pays: the earnings are the draw
    [random.randint(10, 50)], so between 10 and 50, the balance goes up
    by exactly the earnings, no other member's record changes, and the
    message is one of the ten of [work_messages], chosen by a second
    draw once the ledger is written.  On a record whose balance is not a
    number the shift reports the error after the first draw alone, and
    the ledger is as before. *)
Theorem work_pays (R : Random) (db : gmap (Z * Z) (gmap string json))
    (author guild : Z) (g : rng) :
  RandomLaws R ->
  let earnings := (rnd_randint Economy.work_min Economy.work_max g).1 in
  let g' := (rnd_randint Economy.work_min Economy.work_max g).2 in
  let message := (rnd_randbelow Economy.work_messages g').1 in
  let g'' := (rnd_randbelow Economy.work_messages g').2 in
  Economy.work (db_manager (repo_bot db)) author guild g
  = (Economy.WorkDatabaseError, None, g)
  /\ (forall b,
        dict_get (DatabaseManager.get_economy_data db author guild) "balance" (VInt 0)
        = VInt b ->
        exists db',
          Economy.work (Some db) author guild g
          = (Economy.WorkCompleted message earnings (b + earnings), Some db', g'')
          /\ 10 <= earnings <= 50
          /\ (message < 10)%nat
          /\ dict_get (DatabaseManager.get_economy_data db' author guild)
               "balance" (VInt 0)
             = VInt (b + earnings)
          /\ (forall user, author <> user ->
                DatabaseManager.get_economy_data db' user guild
                = DatabaseManager.get_economy_data db user guild))
  /\ (forall items,
        dict_get (DatabaseManager.get_economy_data db author guild) "balance" (VInt 0)
        = VList items ->
        Economy.work (Some db) author guild g
        = (Economy.WorkError TypeError, Some db, g')).
Proof.
  intros Hlaws earnings g' message g''. split; [reflexivity|].
  pose proof (rnd_randint_range Economy.work_min Economy.work_max g
                ltac:(unfold Economy.work_min, Economy.work_max; lia)) as Hrange.
  fold earnings in Hrange. unfold Economy.work_min, Economy.work_max in Hrange.
  pose proof (rnd_randbelow_lt Economy.work_messages g'
                ltac:(unfold Economy.work_messages; lia)) as Hmessage.
  fold message in Hmessage. unfold Economy.work_messages in Hmessage.
  assert (rnd_randint Economy.work_min Economy.work_max g = (earnings, g')) as Hdraw
    by (unfold earnings, g'; by destruct (rnd_randint _ _ g)).
  assert (rnd_randbelow Economy.work_messages g' = (message, g'')) as Hchoice
    by (unfold message, g''; by destruct (rnd_randbelow _ g')).
  split.
  - intros b Hb. unfold Economy.work. rewrite Hdraw.
    rewrite dict_get_loaded by key_listed. rewrite Hb. cbn [as_int].
    rewrite Hchoice.
    eexists. split; [reflexivity|]. split; [lia|]. split; [exact Hmessage|]. split.
    + rewrite get_update_economy_data. rewrite dict_get_insert.
      by rewrite decide_True.
    + intros user Hne. by apply get_update_economy_data_other.
  - intros items Hb. unfold Economy.work. rewrite Hdraw.
    rewrite dict_get_loaded by key_listed. by rewrite Hb.
Qed.

Lemma work_pays_witness :
  exists db',
    Economy.work (R := identity_random) (Some ledger50) 7 1 tt
    = (Economy.WorkCompleted 0 10 (50 + 10), Some db', tt)
    /\ 10 <= 10 <= 50
    /\ (0 < 10)%nat
    /\ dict_get (DatabaseManager.get_economy_data db' 7 1) "balance" (VInt 0)
       = VInt (50 + 10)
    /\ (forall user, 7 <> user ->
          DatabaseManager.get_economy_data db' user 1
          = DatabaseManager.get_economy_data ledger50 user 1).
Proof.
  apply (proj1 (proj2 (work_pays identity_random ledger50 7 1 tt identity_random_laws)) 50).
  vm_compute. reflexivity.
Defined.

(** ** The ledger: the two ways to change a balance *)

(** X24.  Handed the same ledger, the database manager and the economy
    cog change a record that holds an integer balance alike:
    [add_currency] and [add_balance] store the same ledger, and so do
    [remove_currency] and [remove_balance], the manager returning the
    balance it stored.  For a member without a record they differ: both
    credit the amount, but only the cog's new record has a
    "daily_streak".  As the repository registers its cogs, the cog is
    handed no database manager, and [add_balance] and [remove_balance]
    return [False] and store nothing. *)
Theorem two_paths_agree (db : gmap (Z * Z) (gmap string json))
    (user guild amount : Z) :
  (Economy.add_balance (db_manager (repo_bot db)) user guild amount = (false, None)
   /\ Economy.remove_balance (db_manager (repo_bot db)) user guild amount = (false, None))
  /\ (forall b,
     DatabaseManager.get_economy_data db user guild !! "balance" = Some (VInt b) ->
     (exists db',
        DatabaseManager.add_currency db user guild amount = Ok (b + amount, db')
        /\ Economy.add_balance (Some db) user guild amount = (true, Some db'))
     /\ (exists db',
           DatabaseManager.remove_currency db user guild amount
           = Ok (Z.max 0 (b - amount), db')
           /\ Economy.remove_balance (Some db) user guild amount = (true, Some db')))
  /\ (DatabaseManager.get_economy_data db user guild = ∅ ->
      exists db1 db2,
        DatabaseManager.add_currency db user guild amount = Ok (0 + amount, db1)
        /\ Economy.add_balance (Some db) user guild amount = (true, Some db2)
        /\ DatabaseManager.get_economy_data db1 user guild !! "balance"
           = Some (VInt (0 + amount))
        /\ DatabaseManager.get_economy_data db2 user guild !! "balance"
           = Some (VInt (0 + amount))
        /\ DatabaseManager.get_economy_data db1 user guild !! "daily_streak" = None
        /\ DatabaseManager.get_economy_data db2 user guild !! "daily_streak"
           = Some (VInt 0)).
Proof.
  split; [by split|]. split.
  - intros b Hb.
    pose proof (dict_not_item _ _ _ Hb) as Hnot.
    unfold DatabaseManager.add_currency, DatabaseManager.remove_currency,
      Economy.add_balance, Economy.add_balance_body,
      Economy.remove_balance, Economy.remove_balance_body.
    rewrite Hnot. unfold dict_item, dict_get. rewrite Hb. simpl.
    split; eexists; split; reflexivity.
  - intros Hnone.
    unfold DatabaseManager.add_currency, Economy.add_balance, Economy.add_balance_body.
    rewrite Hnone. unfold dict_not. rewrite bool_decide_true by done.
    cbn. eexists _, _. split; [reflexivity|]. split; [reflexivity|].
    rewrite !get_update_economy_data. by vm_compute.
Qed.

Lemma two_paths_agree_witness :
  (exists db',
     DatabaseManager.add_currency ledger50 7 1 30 = Ok (50 + 30, db')
     /\ Economy.add_balance (Some ledger50) 7 1 30 = (true, Some db'))
  /\ (exists db',
        DatabaseManager.remove_currency ledger50 7 1 30 = Ok (Z.max 0 (50 - 30), db')
        /\ Economy.remove_balance (Some ledger50) 7 1 30 = (true, Some db')).
Proof.
  apply (proj1 (proj2 (two_paths_agree ledger50 7 1 30)) 50).
  vm_compute. reflexivity.
Defined.

(** ** Snake: the reward *)

(** X25.  For a score below 2^46 in absolute value, where the product
    with the float multiplier is exact, the reward of a Snake game is a
    whole number of coins per point, never rounded: 10 on easy, 15 on
    normal, 20 on hard and 30 on expert.  As [set_difficulty_params]
    replaces an unknown difficulty by "normal", such a game pays 15 per
    point as well, and the fallback multiplier of [get_reward] is never
    used. *)
Theorem get_reward_per_point (difficulty : string) (game : Snake.SnakeGame) :
  Z.abs (Snake.score game) < 2 ^ 46 ->
  Snake.get_reward (Snake.difficulty_of difficulty) game
  = Ok (Snake.score game
        * (if bool_decide (difficulty = "easy") then 10
           else if bool_decide (difficulty = "hard") then 20
           else if bool_decide (difficulty = "expert") then 30
           else 15))
  /\ Snake.set_difficulty_params (Snake.difficulty_of difficulty)
     = Snake.set_difficulty_params difficulty.
Proof.
  intros Hscore.
  assert (2 ^ 50 = 16 * 2 ^ 46) as H50 by reflexivity.
  assert (forall n c, Z.quot (c * 2 * n) 2 = n * c) as Hexact.
  { intros n c. replace (c * 2 * n) with (n * c * 2) by lia. by apply Z.quot_mul. }
  unfold Snake.get_reward, Snake.difficulty_of, Snake.set_difficulty_params.
  cbv zeta.
  repeat (case_bool_decide; simplify_eq; try done);
    (split; [|done]);
    rewrite int_times_float_exact by lia; f_equal.
  - replace (2 * (Snake.score game * 10)) with (10 * 2 * Snake.score game) by lia.
    apply Hexact.
  - replace (3 * (Snake.score game * 10)) with (15 * 2 * Snake.score game) by lia.
    apply Hexact.
  - replace (4 * (Snake.score game * 10)) with (20 * 2 * Snake.score game) by lia.
    apply Hexact.
  - replace (6 * (Snake.score game * 10)) with (30 * 2 * Snake.score game) by lia.
    apply Hexact.
  - replace (3 * (Snake.score game * 10)) with (15 * 2 * Snake.score game) by lia.
    apply Hexact.
Qed.

Lemma get_reward_per_point_witness :
  Snake.get_reward (Snake.difficulty_of "insane") snake_fed = Ok 45
  /\ Snake.set_difficulty_params (Snake.difficulty_of "insane")
     = Snake.set_difficulty_params "insane".
Proof.
  apply (get_reward_per_point "insane" snake_fed). reflexivity.
Defined.
